(** * Tamara lead pipeline: a shallow embedding of [pipeline.py] and
      [enrich_leads.py], with the properties of its cleaning rules.

    The two scripts work on a pandas DataFrame.  A DataFrame is modelled as
    its list of column names together with its rows in index order; a row
    is a finite map from column names to cells.  A cell is a missing value
    ([NaN], which also stands for [None] and [NaT]), a text, an integer or
    a timestamp; floating-point cells are not modelled.

    Text is modelled as strings of 8-bit characters; the Python string
    methods used by the scripts ([lower], [strip], [title], [replace],
    [in], [re.sub]) are modelled on ASCII text, bytes above 127 being
    neither letters, digits nor blanks.  Python's [upper] and [title] obey
    on ASCII text laws that they break on other text (upper-casing and
    then lower-casing is lower-casing; title-casing twice is title-casing
    once): a statement that rests on such a law is made of ASCII text
    only, with [Py.isascii] as its hypothesis. *)

From Stdlib Require Import ZArith Ascii String DecimalString List Bool Lia.
From stdpp Require Import base option gmap strings list fin_maps.

Local Open Scope string_scope.
Local Open Scope Z_scope.
Local Open Scope list_scope.

(** ** Python text primitives *)

Module Py.

Definition is_upper (c : ascii) : bool :=
  ((65 <=? nat_of_ascii c) && (nat_of_ascii c <=? 90))%nat.

Definition is_lower (c : ascii) : bool :=
  ((97 <=? nat_of_ascii c) && (nat_of_ascii c <=? 122))%nat.

Definition is_cased (c : ascii) : bool := is_upper c || is_lower c.

(** [\d] of the [re] module, on ASCII. *)
Definition is_digit (c : ascii) : bool :=
  ((48 <=? nat_of_ascii c) && (nat_of_ascii c <=? 57))%nat.

(** [str.isspace] on ASCII: tab, line feed, vertical tab, form feed,
    carriage return, the four separators 28 to 31 and the space. *)
Definition is_space (c : ascii) : bool :=
  (((9 <=? nat_of_ascii c) && (nat_of_ascii c <=? 13))
   || ((28 <=? nat_of_ascii c) && (nat_of_ascii c <=? 32)))%nat.

Definition lower_char (c : ascii) : ascii :=
  if is_upper c then ascii_of_nat (nat_of_ascii c + 32) else c.

Definition upper_char (c : ascii) : ascii :=
  if is_lower c then ascii_of_nat (nat_of_ascii c - 32) else c.

Fixpoint map_chars (f : ascii -> ascii) (s : string) : string :=
  match s with
  | EmptyString => EmptyString
  | String c t => String (f c) (map_chars f t)
  end.

(** [s.lower()] *)
Definition lower (s : string) : string := map_chars lower_char s.

(** [s.startswith(p)] *)
Fixpoint startswith (p s : string) : bool :=
  match p, s with
  | EmptyString, _ => true
  | String a p', String b s' => Ascii.eqb a b && startswith p' s'
  | String _ _, EmptyString => false
  end.

(** [needle in hay] on two strings: [needle] occurs as a substring. *)
Fixpoint contains (needle hay : string) : bool :=
  startswith needle hay
  || match hay with
     | EmptyString => false
     | String _ t => contains needle t
     end.

(** [any(x in s for x in xs)] *)
Definition any_in (xs : list string) (s : string) : bool :=
  existsb (fun x => contains x s) xs.

Fixpoint lstrip (s : string) : string :=
  match s with
  | EmptyString => EmptyString
  | String c t => if is_space c then lstrip t else s
  end.

Fixpoint rstrip (s : string) : string :=
  match s with
  | EmptyString => EmptyString
  | String c t =>
      let t' := rstrip t in
      if is_space c && String.eqb t' EmptyString then EmptyString
      else String c t'
  end.

(** [s.strip()] *)
Definition strip (s : string) : string := rstrip (lstrip s).

(** [s.title()] on ASCII text: a cased character is upper-cased when the
    character before it is not cased, and lower-cased otherwise.  A
    character outside ASCII is left as it is, which is not what Python
    does with every such character. *)
Fixpoint title_from (prev_cased : bool) (s : string) : string :=
  match s with
  | EmptyString => EmptyString
  | String c t =>
      if is_cased c
      then String (if prev_cased then lower_char c else upper_char c)
                  (title_from true t)
      else String c (title_from false t)
  end.

Definition title (s : string) : string := title_from false s.

(** [s.replace(old, new)] for a non-empty [old]: a left-to-right scan
    that replaces each occurrence found and resumes after it.  [skip]
    counts the characters of the current occurrence still to be passed
    over. *)
Fixpoint replace_from (old new : string) (skip : nat) (s : string) : string :=
  match s with
  | EmptyString => EmptyString
  | String c t =>
      match skip with
      | S k => replace_from old new k t
      | O =>
          if startswith old s
          then new +:+ replace_from old new (String.length old - 1) t
          else String c (replace_from old new 0 t)
      end
  end.

Definition replace (old new s : string) : string := replace_from old new 0 s.

(** *** A fragment of [re]: sequences of character classes, each taken
    once or one-or-more times (greedy, with backtracking). *)

Inductive quant := One | Plus.

Definition regex := list ((ascii -> bool) * quant).

(** [match_here re s]: the length of the match of [re] at the start of
    [s] that the backtracking matcher finds first, if any. *)
Fixpoint match_here (re : regex) : string -> option nat :=
  match re with
  | [] => fun _ => Some O
  | (p, One) :: re' =>
      fun s =>
        match s with
        | String c t => if p c then S <$> match_here re' t else None
        | EmptyString => None
        end
  | (p, Plus) :: re' =>
      fix many (s : string) : option nat :=
        match s with
        | String c t =>
            if p c then
              match many t with
              | Some n => Some (S n)
              | None => S <$> match_here re' t
              end
            else None
        | EmptyString => None
        end
  end.

(** [re.sub(re, repl, s)] for a pattern that matches no empty string:
    leftmost matches, not overlapping, each replaced by [repl]. *)
Fixpoint sub_from (re : regex) (repl : string) (skip : nat) (s : string) : string :=
  match s with
  | EmptyString => EmptyString
  | String c t =>
      match skip with
      | S k => sub_from re repl k t
      | O =>
          match match_here re s with
          | Some (S n) => repl +:+ sub_from re repl n t
          | _ => String c (sub_from re repl 0 t)
          end
      end
  end.

Definition sub (re : regex) (repl s : string) : string := sub_from re repl 0 s.

Definition chr (a : ascii) : ascii -> bool := Ascii.eqb a.

(** [s.upper()] on ASCII text; a character outside ASCII is left as it
    is, which is not what Python does with every such character. *)
Definition upper (s : string) : string := map_chars upper_char s.

(** [s.isascii()] *)
Fixpoint isascii (s : string) : bool :=
  match s with
  | EmptyString => true
  | String c t => (nat_of_ascii c <? 128)%nat && isascii t
  end.

(** [s[:n]] *)
Fixpoint slice_to (n : nat) (s : string) : string :=
  match n, s with
  | S k, String c t => String c (slice_to k t)
  | _, _ => EmptyString
  end.

(** [re.search(re, s).group()]: the text of the leftmost match, if any. *)
Fixpoint search (re : regex) (s : string) : option string :=
  match match_here re s with
  | Some n => Some (slice_to n s)
  | None =>
      match s with
      | String _ t => search re t
      | EmptyString => None
      end
  end.

End Py.

(** ** Cells, rows and frames *)

(** A cell of a DataFrame.  [NaN] is the missing value ([nan], [None] and
    [NaT] are not told apart: [pd.isna] holds of the three); a timestamp
    is its number of nanoseconds since the epoch, as pandas stores it. *)
Inductive cell :=
| NaN
| Str (s : string)
| Int (n : Z)
| Timestamp (ns : Z).

#[global] Instance cell_eq_dec : EqDecision cell.
Proof. solve_decision. Defined.

Abbreviation Row := (gmap string cell).

Record DataFrame := { columns : list string; rows : list Row }.

(** [pd.isna(v)] and [pd.notna(v)] *)
Definition isna (v : cell) : bool :=
  match v with NaN => true | _ => false end.

Definition notna (v : cell) : bool := negb (isna v).

(** [row[c]] in a row that has the column, and [row.get(c)] in general. *)
Definition get (row : Row) (c : string) : cell := default NaN (row !! c).

(** [c in row] *)
Definition in_row (c : string) (row : Row) : bool :=
  bool_decide (is_Some (row !! c)).

(** [c in df.columns] *)
Definition has_column (df : DataFrame) (c : string) : bool :=
  bool_decide (c ∈ columns df).

(** [df[c]], the Series of a column, by position. *)
Definition column (df : DataFrame) (c : string) : list cell :=
  fmap (fun r => get r c) (rows df).

Definition add_column (cs : list string) (c : string) : list string :=
  if bool_decide (c ∈ cs) then cs else cs ++ [c].

(** [df[c] = vals] for a Series aligned with the frame. *)
Definition assign (df : DataFrame) (c : string) (vals : list cell) : DataFrame :=
  {| columns := add_column (columns df) c;
     rows := zip_with (fun r v => <[c := v]> r) (rows df) vals |}.

(** [df[c] = v] for a scalar. *)
Definition assign_scalar (df : DataFrame) (c : string) (v : cell) : DataFrame :=
  {| columns := add_column (columns df) c;
     rows := fmap (fun r => <[c := v]> r) (rows df) |}.

(** [df.loc[mask, c] = v] *)
Definition loc_assign (df : DataFrame) (mask : list bool) (c : string) (v : cell)
  : DataFrame :=
  {| columns := add_column (columns df) c;
     rows := zip_with (fun r (b : bool) => if b then <[c := v]> r else r)
               (rows df) mask |}.

(** [df[mask]]: the rows where the mask holds, in order. *)
Fixpoint select (mask : list bool) (rs : list Row) : list Row :=
  match mask, rs with
  | b :: mask', r :: rs' =>
      if b then r :: select mask' rs' else select mask' rs'
  | _, _ => []
  end.

(** [df.at[idx, c] = v] on the rows of a frame. *)
Definition at_set (rs : list Row) (idx : nat) (c : string) (v : cell) : list Row :=
  alter (fun r => <[c := v]> r) idx rs.

(** [series.duplicated(keep='first')]: a position is marked when its value
    occurred at an earlier position; missing values count as equal. *)
Fixpoint duplicated_from (seen ks : list cell) : list bool :=
  match ks with
  | [] => []
  | k :: ks' => bool_decide (k ∈ seen) :: duplicated_from (k :: seen) ks'
  end.

Definition duplicated (ks : list cell) : list bool := duplicated_from [] ks.

(** Midnight of a civil date as a timestamp (days since the epoch by the
    usual era computation, then nanoseconds). *)
Definition days_from_civil (y m d : Z) : Z :=
  let y' := if m <=? 2 then y - 1 else y in
  let era := y' / 400 in
  let yoe := y' - era * 400 in
  let mp := if m <=? 2 then m + 9 else m - 3 in
  let doy := (153 * mp + 2) / 5 + d - 1 in
  let doe := yoe * 365 + yoe / 4 - yoe / 100 + doy in
  era * 146097 + doe - 719468.

Definition midnight (y m d : Z) : Z :=
  days_from_civil y m d * 86400 * 1000000000.

(** ** Sample readers, rows and frames *)

(** A date with a UTC offset, and the instant it names. *)
Definition offset_date : string := "2024-05-31T00:00:00+03:00".

Definition offset_instant : Z := midnight 2024 5 31 - 3 * 3600 * 1000000000.

(** A date reader for the examples: it takes a timestamp as it is, reads
    two ISO dates and [offset_date], and fails on anything else. *)
Definition sample_parse_datetime (col : list cell) (v : cell) : option Z :=
  match v with
  | Timestamp t => Some t
  | Str s =>
      if String.eqb s "2024-05-31" then Some (midnight 2024 5 31)
      else if String.eqb s "2024-06-01" then Some (midnight 2024 6 1)
      else if String.eqb s offset_date then Some offset_instant
      else None
  | _ => None
  end.

(** The time zone of the examples: a column is read as timezone-aware
    when it holds [offset_date], or the instant read from it (the column
    read a second time). *)
Definition sample_tz_aware (col : list cell) : bool :=
  existsb (fun v => match v with
                    | Str s => String.eqb s offset_date
                    | Timestamp t => t =? offset_instant
                    | _ => false
                    end) col.

Definition sample_timestamp_text (ns : Z) : string := "2024-06-01 00:00:00".

Definition lead (cells : list (string * cell)) : Row := list_to_map cells.

Definition null_dates_sample : DataFrame :=
  {| columns := ["created_date"; "blacklist_raw"];
     rows := [lead [("created_date", NaN); ("blacklist_raw", Str "1")];
              lead [("created_date", Str "next week");
                    ("blacklist_raw", Str "/img/green.png")]] |}.

(** Two leads as [pd.read_csv] gives them, with every column the steps
    of pipeline.py read: the first has no creation date, the second a
    creation date that is not a date; both raw codes read as PASSED. *)
Definition null_dates_leads : DataFrame :=
  {| columns := ["created_date"; "blacklist_raw"; "company_name";
                 "company_account_fallback"; "first_name"; "last_name";
                 "email"; "mobile"; "reported_annual_sales_tier"];
     rows := [lead [("created_date", NaN);
                    ("blacklist_raw", Str "/img/green.png");
                    ("company_name", Str "Noor Trading");
                    ("company_account_fallback", NaN);
                    ("first_name", Str "Noor"); ("last_name", NaN);
                    ("email", Str "noor@shop.sa");
                    ("mobile", Str "+966500000000");
                    ("reported_annual_sales_tier", NaN)];
              lead [("created_date", Str "next week");
                    ("blacklist_raw", Str "1");
                    ("company_name", Str "Jana Stores");
                    ("company_account_fallback", NaN);
                    ("first_name", Str "Jana"); ("last_name", Str "Saleh");
                    ("email", Str "jana@stores.sa");
                    ("mobile", Str "+966511111111");
                    ("reported_annual_sales_tier", NaN)]] |}.

(** A lead created before the cutoff, its date written with a UTC
    offset. *)
Definition offset_dates_sample : DataFrame :=
  {| columns := ["created_date"; "blacklist_raw"];
     rows := [lead [("created_date", Str offset_date);
                    ("blacklist_raw", Str "/img/green.png")]] |}.

(** The same lead with every column the steps of pipeline.py read. *)
Definition offset_dates_leads : DataFrame :=
  {| columns := ["created_date"; "blacklist_raw"; "company_name";
                 "company_account_fallback"; "first_name"; "last_name";
                 "email"; "mobile"; "reported_annual_sales_tier"];
     rows := [lead [("created_date", Str offset_date);
                    ("blacklist_raw", Str "/img/green.png");
                    ("company_name", Str "Noor Trading");
                    ("company_account_fallback", NaN);
                    ("first_name", Str "Noor"); ("last_name", NaN);
                    ("email", Str "noor@shop.sa");
                    ("mobile", Str "+966500000000");
                    ("reported_annual_sales_tier", NaN)]] |}.

Definition blacklist_sample : DataFrame :=
  {| columns := ["created_date"; "blacklist_raw"];
     rows := [lead [("created_date", Str "2024-05-31"); ("blacklist_raw", Str "0")];
              lead [("created_date", Str "2024-06-01"); ("blacklist_raw", Str "1")];
              lead [("created_date", Str "2024-06-01"); ("blacklist_raw", Str "0")];
              lead [("created_date", Str "2024-06-01"); ("blacklist_raw", Int 1)];
              lead [("created_date", Str "2024-06-01"); ("blacklist_raw", NaN)];
              lead [("created_date", NaN); ("blacklist_raw", Str "1")]] |}.



Definition maps_lead : Row :=
  lead [("website", Str "https://maps.google.com/?cid=42");
        ("google_map_id", Str "ChIJ-42")].

Definition facebook_lead : Row :=
  lead [("website", Str "https://www.facebook.com/mystore");
        ("social_media_links", NaN)].

(** A maps URL beside an occupied [google_map_id], and a social URL
    beside an occupied [social_media_links]. *)
Definition occupied_maps_lead : Row :=
  lead [("website", Str "https://maps.google.com/?cid=42");
        ("google_map_id", Str "ChIJ-42");
        ("social_media_links", NaN)].

Definition occupied_social_lead : Row :=
  lead [("website", Str "https://www.facebook.com/mystore");
        ("google_map_id", NaN);
        ("social_media_links", Str "https://instagram.com/mystore")].

Definition occupied_sample : DataFrame :=
  {| columns := ["website"; "google_map_id"; "social_media_links"];
     rows := [occupied_maps_lead; occupied_social_lead] |}.

Definition empty_mobile_sample : DataFrame :=
  {| columns := ["mobile"; "email"];
     rows := [lead [("mobile", Str ""); ("email", Str "a@shop.sa")];
              lead [("mobile", Str ""); ("email", Str "b@shop.sa")]] |}.

Definition shared_mobile_sample : DataFrame :=
  {| columns := ["mobile"; "email"];
     rows := [lead [("mobile", Str "966500000000"); ("email", Str "a@shop.sa")];
              lead [("mobile", NaN); ("email", NaN)];
              lead [("mobile", Str "966500000000"); ("email", Str "b@shop.sa")];
              lead [("mobile", NaN); ("email", NaN)]] |}.

Definition migration_sample : DataFrame :=
  {| columns := ["website"; "google_map_id"; "social_media_links"];
     rows := [facebook_lead; maps_lead] |}.

Definition identity_sample : DataFrame :=
  {| columns := ["company_name"; "company_account_fallback"; "first_name";
                 "last_name"];
     rows := [lead [("company_name", NaN);
                    ("company_account_fallback", Str "Noor Trading");
                    ("first_name", Str "Noor "); ("last_name", NaN)];
              lead [("company_name", Str "Jana Stores");
                    ("company_account_fallback", Str "Jana");
                    ("first_name", Str "Jana"); ("last_name", Str "Saleh")]] |}.

Definition pipeline_sample : DataFrame :=
  {| columns := ["created_date"; "blacklist_raw"; "company_name";
                 "company_account_fallback"; "first_name"; "last_name";
                 "email"; "mobile"; "reported_annual_sales_tier"];
     rows := [lead [("created_date", Str "2024-05-31"); ("blacklist_raw", Str "0");
                    ("company_name", NaN);
                    ("company_account_fallback", Str "Noor Trading");
                    ("first_name", Str "Noor "); ("last_name", NaN);
                    ("email", Str " Noor@Shop.SA ");
                    ("mobile", Str "+966 50-000-0000");
                    ("reported_annual_sales_tier",
                      Str "Large Business ($50 million+)")];
              lead [("created_date", Str "2024-06-01"); ("blacklist_raw", Str "0");
                    ("company_name", Str "Jana Stores");
                    ("company_account_fallback", Str "Jana");
                    ("first_name", Str "Jana"); ("last_name", Str "Saleh");
                    ("email", Str "jana@stores.sa");
                    ("mobile", Str "966511111111");
                    ("reported_annual_sales_tier", NaN)];
              lead [("created_date", Str "2024-06-01");
                    ("blacklist_raw", Str "/img/green.png");
                    ("company_name", Str "Reem Cafe");
                    ("company_account_fallback", NaN);
                    ("first_name", NaN); ("last_name", Str "Reem");
                    ("email", NaN); ("mobile", NaN);
                    ("reported_annual_sales_tier", Str "unknown")]] |}.

Definition enrich_sample : DataFrame :=
  {| columns := ["website"; "onboarding_step"; "converted_date"; "mobile";
                 "email"];
     rows := [lead [("website", Str "https://www.facebook.com/mystore");
                    ("onboarding_step", Str "v3_final_step");
                    ("converted_date", Str "2024-06-01");
                    ("mobile", Str "966500000000"); ("email", Str "a@shop.sa")];
              lead [("website", Str "https://shop.example.sa");
                    ("onboarding_step", Str "KYC_STEP");
                    ("converted_date", Str "soon");
                    ("mobile", Str "966511111111"); ("email", Str "b@shop.sa")];
              lead [("website", NaN); ("onboarding_step", NaN);
                    ("converted_date", NaN);
                    ("mobile", Str "966500000000"); ("email", Str "c@shop.sa")]] |}.

Section Pandas.

(** [pd.to_datetime(col, errors='coerce')] reads a non-missing cell as a
    timestamp or fails on it; what it makes of a cell may depend on the
    column the cell stands in (the format is inferred from the column).
    The reader is a parameter of the development. *)
Variable parse_datetime : list cell -> cell -> option Z.

(** Whether [pd.to_datetime] reads the column as timezone-aware
    ([datetime64[ns, tz]]): it does when the texts of the column carry a
    UTC offset, and when the column is a timezone-aware column already.
    A timestamp cell holds the instant only; the time zone of its column
    is the reader's answer, asked of the column [pd.to_datetime] is
    given. *)
Variable tz_aware : list cell -> bool.

(** [str(t)] for a timestamp. *)
Variable timestamp_text : Z -> string.

(** [str(v)].  The scripts apply [str] to a cell only after testing that it
    is not missing, except in [create_flag], where the flag of a missing
    cell is 0 whatever its text. *)
Definition str (v : cell) : string :=
  match v with
  | NaN => "nan"
  | Str s => s
  | Int n => NilZero.string_of_int (Z.to_int n)
  | Timestamp ns => timestamp_text ns
  end.

(** [pd.to_datetime(col, errors='coerce')]: a missing or unreadable cell
    becomes [NaT]. *)
Definition to_datetime (col : list cell) : list cell :=
  fmap (fun v =>
         if isna v then NaN
         else match parse_datetime col v with
              | Some t => Timestamp t
              | None => NaN
              end) col.

(** [series < t] and [series >= t] on an element of a datetime column:
    both are false of [NaT]. *)
Definition ts_lt (v : cell) (t : Z) : bool :=
  match v with Timestamp a => a <? t | _ => false end.

Definition ts_ge (v : cell) (t : Z) : bool :=
  match v with Timestamp a => t <=? a | _ => false end.

(** *** pipeline.py *)

(** [pd.Timestamp('2024-06-01')] *)
Definition BLACKLIST_START_DATE : Z := midnight 2024 6 1.

Definition parse_raw_blacklist (val : cell) : cell :=
  if isna val then NaN
  else
    let s_val := str val in
    if Py.contains "green.png" s_val || String.eqb s_val "1" then Int 1
    else if Py.contains "red.png" s_val || String.eqb s_val "0" then Int 0
    else NaN.

(** [apply_blacklist_logic(df)]; [None] is the [KeyError] raised when the
    frame lacks [created_date] or [blacklist_raw], and the [TypeError]
    raised by [df['created_date'] < BLACKLIST_START_DATE] when the column
    is timezone-aware: the cutoff is a naive timestamp, and pandas refuses
    to compare the two. *)
Definition apply_blacklist_logic (df : DataFrame) : option DataFrame :=
  if negb (has_column df "created_date") then None
  else
    let aware := tz_aware (column df "created_date") in
    let df := assign df "created_date" (to_datetime (column df "created_date")) in
    let df := assign_scalar df "blacklist_status" (Int 0) in
    if negb (has_column df "blacklist_raw") then None
    else
      let df := assign df "blacklist_parsed"
                  (fmap parse_raw_blacklist (column df "blacklist_raw")) in
      if aware then None
      else
        let cond_pre_cutoff :=
          fmap (fun d => ts_lt d BLACKLIST_START_DATE) (column df "created_date") in
        let cond_post_cutoff_pass :=
          zip_with andb
            (fmap (fun d => ts_ge d BLACKLIST_START_DATE) (column df "created_date"))
            (fmap (fun p => bool_decide (p = Int 1)) (column df "blacklist_parsed")) in
        Some (loc_assign df (zip_with orb cond_pre_cutoff cond_post_cutoff_pass)
                "blacklist_status" (Int 1)).

(** The row filter of [main]: [df[df['blacklist_status'] == 1]]. *)
Definition filter_blacklist (df : DataFrame) : DataFrame :=
  {| columns := columns df;
     rows := select (fmap (fun s => bool_decide (s = Int 1))
                       (column df "blacklist_status")) (rows df) |}.

(** *** enrich_leads.py *)

Definition maps_indicators : list string :=
  ["maps.google"; "goo.gl/maps"; "google.com/maps"; "maps.app.goo.gl"].

Definition social_domains : list string :=
  ["instagram.com"; "snapchat.com"; "youtube.com"; "facebook.com";
   "twitter.com"; "x.com"; "linkedin.com"; "tiktok.com"; "pinterest.com"].

Definition ecommerce_domains : list string := ["salla.sa"].

Definition is_google_maps_url (url : cell) : bool :=
  if isna url || String.eqb (Py.strip (str url)) "" then false
  else Py.any_in maps_indicators (Py.lower (str url)).

Definition is_social_media_url (url : cell) : bool :=
  if isna url || String.eqb (Py.strip (str url)) "" then false
  else Py.any_in social_domains (Py.lower (str url)).

Definition is_ecommerce_url (url : cell) : bool :=
  if isna url || String.eqb (Py.strip (str url)) "" then false
  else Py.any_in ecommerce_domains (Py.lower (str url)).

Definition website_col : string := "website".
Definition map_col : string := "google_map_id".
Definition social_col : string := "social_media_links".
Definition ecommerce_col : string := "e-commerce link".

(** The test written out three times in the loop of [main] as
    [is_map_empty], [is_social_empty] and [is_ecom_empty]. *)
Definition is_empty (current : cell) : bool :=
  isna current
  || String.eqb (Py.strip (str current)) ""
  || String.eqb (Py.lower (str current)) "nan".

(** One iteration of the loop of [main] over [df.iterrows()]: the
    assignments [df.at[idx, c] = v] it performs, in order.  [row] is the
    copy of the row the iterator yields: every read is from that copy,
    also after an assignment to the frame. *)
Definition migrate_writes (row : Row) : list (string * cell) :=
  let site := get row website_col in
  if is_google_maps_url site then
    let current_map := get row map_col in
    (if is_empty current_map then [(map_col, site)] else [])
    ++ [(website_col, NaN)]
  else
    (if is_social_media_url site then
       let current_social := get row social_col in
       [(social_col,
          if is_empty current_social then site
          else Str (str current_social +:+ " | " +:+ str site));
        (website_col, NaN)]
     else [])
    ++
    (if is_ecommerce_url site then
       let current_ecom := get row ecommerce_col in
       [(ecommerce_col,
          if is_empty current_ecom then site
          else Str (str current_ecom +:+ " | " +:+ str site));
        (website_col, NaN)]
     else []).

(** The loop: the iterator yields the rows of the frame as they were
    when the loop started; the assignments go to the frame. *)
Definition migrate_loop (rs : list Row) : list Row :=
  foldl (fun acc (ir : nat * Row) =>
           foldl (fun acc' (w : string * cell) => at_set acc' ir.1 w.1 w.2)
             acc (migrate_writes ir.2))
    rs (imap pair rs).

(** [if c not in df.columns: df[c] = np.nan] *)
Definition ensure_column (df : DataFrame) (c : string) : DataFrame :=
  if has_column df c then df else assign_scalar df c NaN.

Definition migrate (df : DataFrame) : DataFrame :=
  let df := ensure_column df website_col in
  let df := ensure_column df map_col in
  let df := ensure_column df social_col in
  let df := ensure_column df ecommerce_col in
  {| columns := columns df; rows := migrate_loop (rows df) |}.

(** What one iteration leaves in its row of the frame. *)
Definition migrate_row (row : Row) : Row :=
  foldl (fun r (w : string * cell) => <[w.1 := w.2]> r) row (migrate_writes row).

(** [create_flag(series)], on one element: 1 when the cell is not missing,
    not blank and not the text "nan". *)
Definition create_flag (v : cell) : Z :=
  if notna v
     && negb (String.eqb (Py.strip (str v)) "")
     && negb (String.eqb (Py.lower (str v)) "nan")
  then 1 else 0.

(** The flags [is_converted], [has_website], [has_maps],
    [has_social_media] and [has_ecommerce] of [main]. *)
Definition add_presence_flags (df : DataFrame) : DataFrame :=
  let df :=
    if has_column df "converted_date"
    then assign df "is_converted"
           (fmap (fun v => Int (if notna v then 1 else 0))
              (column df "converted_date"))
    else assign_scalar df "is_converted" (Int 0) in
  let df := assign df "has_website"
              (fmap (fun v => Int (create_flag v)) (column df website_col)) in
  let df := assign df "has_maps"
              (fmap (fun v => Int (create_flag v)) (column df map_col)) in
  let df := assign df "has_social_media"
              (fmap (fun v => Int (create_flag v)) (column df social_col)) in
  assign df "has_ecommerce"
    (fmap (fun v => Int (create_flag v)) (column df ecommerce_col)).

(** The pattern [v\d+_]. *)
Definition version_re : Py.regex :=
  [(Py.chr "v", Py.One); (Py.is_digit, Py.Plus); (Py.chr "_", Py.One)].

Definition clean_step_name (val : cell) : cell :=
  if isna val || bool_decide (val = Str "") then NaN
  else
    let val := Py.lower (str val) in
    let val := Py.sub version_re "" val in
    Str (Py.title (Py.replace "_" " " (Py.replace "_step" "" val))).

(** The pattern [(v\d+)]. *)
Definition version_search_re : Py.regex :=
  [(Py.chr "v", Py.One); (Py.is_digit, Py.Plus)].

Definition extract_version (val : cell) : cell :=
  if isna val || bool_decide (val = Str "") then Str "Unknown"
  else
    let val_str := Py.lower (str val) in
    match Py.search version_search_re val_str with
    | Some m => Str (Py.upper m)
    | None => Str "Unknown"
    end.

Definition get_journey_stage (row : Row) : string :=
  if in_row "converted_date" row && notna (get row "converted_date")
  then "Converted"
  else if in_row "kyb_submitted_date" row && notna (get row "kyb_submitted_date")
  then "KYB Submitted"
  else if in_row "kyb_in_progress_date" row && notna (get row "kyb_in_progress_date")
  then "KYB In Progress"
  else
    let step := get row "readable_onboarding_step" in
    if notna step then
      if Py.contains "Final" (str step) then "Onboarding Completed"
      else "Onboarding: " +:+ str step
    else if in_row "created_date" row && notna (get row "created_date")
    then "Registered"
    else "Unknown".

Definition date_cols : list string :=
  ["created_date"; "kyb_in_progress_date"; "kyb_submitted_date";
   "last_status_change_date"; "converted_date"].

(** The journey part of [main]: the date columns are read as dates, the
    readable step is derived, then the stage of each row. *)
Definition track_journey (df : DataFrame) : DataFrame :=
  let df :=
    foldl (fun df col =>
             if has_column df col
             then assign df col (to_datetime (column df col))
             else df) df date_cols in
  let df :=
    if has_column df "onboarding_step"
    then
      let df := assign df "readable_onboarding_step"
                  (fmap clean_step_name (column df "onboarding_step")) in
      assign df "onboarding_version"
        (fmap extract_version (column df "onboarding_step"))
    else
      let df := assign_scalar df "readable_onboarding_step" NaN in
      assign_scalar df "onboarding_version" NaN in
  assign df "journey_stage" (fmap (fun r => Str (get_journey_stage r)) (rows df)).

Definition step_config : list (string * list string) :=
  [("otp_sign_up_confirmation_step", ["otp_sign_up_confirmation_step"]);
   ("business_info_step", ["business_info_step"]);
   ("v2_personal_details_step", ["v2_personal_details_step"]);
   ("v2_business_details_step", ["v2_business_details_step"]);
   ("kyc_step", ["kyc_step"]);
   ("v2_bank_details_step", ["v2_bank_details_step"]);
   ("review_application_step", ["review_application_step"]);
   ("v3_sign_contract_step", ["v3_sign_contract_step"]);
   ("final_step", ["v2_final_step"; "v3_final_step"])].

Definition check_step (val : cell) (valid_steps : list string) : Z :=
  if isna val then 0
  else if bool_decide (Py.strip (str val) ∈ valid_steps) then 1 else 0.

(** The nine flags of a raw step code, in the order of [step_config]. *)
Definition step_flags (val : cell) : list (string * Z) :=
  fmap (fun cfg : string * list string => (cfg.1, check_step val cfg.2)) step_config.

(** The loop over [step_config.items()]; [None] is the [KeyError] raised
    when the frame has no [onboarding_step] column. *)
Definition add_step_flags (df : DataFrame) : option DataFrame :=
  foldl (fun (acc : option DataFrame) (cfg : string * list string) =>
           df ← acc;
           if has_column df "onboarding_step"
           then Some (assign df cfg.1
                        (fmap (fun x => Int (check_step x cfg.2))
                           (column df "onboarding_step")))
           else None)
    (Some df) step_config.

(** One pass of the removal of duplicates on the column [c]:
    [mask = df.duplicated(subset=[c], keep='first') & df[c].notna()],
    then [df = df[~mask]]. *)
Definition drop_duplicates_notna (c : string) (df : DataFrame) : DataFrame :=
  let mask := zip_with andb (duplicated (column df c)) (fmap notna (column df c)) in
  {| columns := columns df; rows := select (fmap negb mask) (rows df) |}.

Definition remove_duplicates (df : DataFrame) : DataFrame :=
  let df := if has_column df "mobile" then drop_duplicates_notna "mobile" df else df in
  let df := if has_column df "email" then drop_duplicates_notna "email" df else df in
  df.

(** [main] of enrich_leads.py on the frame read from the cleaned file, up
    to the frame it writes. *)
Definition enrich (df : DataFrame) : option DataFrame :=
  let df := migrate df in
  let df := add_presence_flags df in
  let df := track_journey df in
  df ← add_step_flags df;
  Some (remove_duplicates df).

(** ** The rules as the specification words them *)

(** The raw check code reads as PASSED: it contains "green.png" or is
    the text "1". *)
Definition code_passed (raw : cell) : bool :=
  notna raw && (Py.contains "green.png" (str raw) || String.eqb (str raw) "1").

(** It reads as FAILED: not PASSED, and it contains "red.png" or is the
    text "0". *)
Definition code_failed (raw : cell) : bool :=
  notna raw && negb (code_passed raw)
  && (Py.contains "red.png" (str raw) || String.eqb (str raw) "0").

(** What [apply_blacklist_logic] leaves in one row, given the row and the
    creation date as [pd.to_datetime] read it. *)
Definition blacklist_row (row : Row) (created : cell) : Row :=
  let parsed := parse_raw_blacklist (get row "blacklist_raw") in
  let base :=
    <["blacklist_parsed" := parsed]>
      (<["blacklist_status" := Int 0]> (<["created_date" := created]> row)) in
  if ts_lt created BLACKLIST_START_DATE
     || (ts_ge created BLACKLIST_START_DATE && bool_decide (parsed = Int 1))
  then <["blacklist_status" := Int 1]> base
  else base.

(** The URL classifier of the specification: the three tests of the source
    in the order maps, social, ecommerce, the first that holds deciding. *)
Inductive category := maps | social | ecommerce | none.

Definition classify (url : cell) : category :=
  if is_google_maps_url url then maps
  else if is_social_media_url url then social
  else if is_ecommerce_url url then ecommerce
  else none.



(** A milestone timestamp, or the cleaned step name, is present in a row
    when its cell is not missing. *)
Definition present (row : Row) (c : string) : bool := notna (get row c).

Definition step_name (row : Row) : option string :=
  let step := get row "readable_onboarding_step" in
  if notna step then Some (str step) else None.

(** The journey stage by the priority list of the specification. *)
Definition stage_by_priority
  (converted kyb_submitted kyb_in_progress : bool) (step : option string)
  (created : bool) : string :=
  if converted then "Converted"
  else if kyb_submitted then "KYB Submitted"
  else if kyb_in_progress then "KYB In Progress"
  else match step with
       | Some name =>
           if Py.contains "Final" name then "Onboarding Completed"
           else "Onboarding: " +:+ name
       | None => if created then "Registered" else "Unknown"
       end.

(** The nine flags with the one at position [k] set, or none of them. *)
Definition flags_with (k : option nat) : list (string * Z) :=
  imap (fun i (cfg : string * list string) =>
          (cfg.1, if bool_decide (Some i = k) then 1 else 0)) step_config.

(** A value of an identity field is absent, in the words of the
    specification, when it is null or the empty string. *)
Definition absent (v : cell) : bool := isna v || bool_decide (v = Str "").

(** One pass of the removal of duplicates, row by row: a row is dropped
    when its key is not missing and is the key of an earlier row. *)
Fixpoint keep_first_from (c : string) (seen : list cell) (rs : list Row) : list Row :=
  match rs with
  | [] => []
  | r :: rs' =>
      let k := get r c in
      if bool_decide (k ∈ seen) && notna k
      then keep_first_from c (k :: seen) rs'
      else r :: keep_first_from c (k :: seen) rs'
  end.

(** No key of [rs] that is not missing occurs in [seen] or twice in [rs]. *)
Fixpoint fresh_keys (c : string) (seen : list cell) (rs : list Row) : Prop :=
  match rs with
  | [] => True
  | r :: rs' =>
      (notna (get r c) = true → get r c ∉ seen)
      ∧ fresh_keys c (get r c :: seen) rs'
  end.

(** [s[n:]] *)
Fixpoint string_drop (n : nat) (s : string) : string :=
  match n, s with
  | O, _ => s
  | S k, String _ t => string_drop k t
  | S _, EmptyString => EmptyString
  end.

(** The number of digits [s] starts with. *)
Fixpoint digits_prefix (s : string) : nat :=
  match s with
  | String c t => if Py.is_digit c then S (digits_prefix t) else O
  | EmptyString => O
  end.

(** A version token "v<digits>_" at the start of [s]: a "v", one or more
    digits, an underscore.  The result is the length of the token. *)
Definition version_token (s : string) : option nat :=
  match s with
  | String c t =>
      if Ascii.eqb "v"%char c then
        let n := digits_prefix t in
        if (0 <? n)%nat && Py.startswith "_" (string_drop n t)
        then Some (n + 2)%nat else None
      else None
  | EmptyString => None
  end.

(** The text [lit] at the start of [s]. *)
Definition literal_token (lit s : string) : option nat :=
  if Py.startswith lit s then Some (String.length lit) else None.

(** [deletes tok s out]: [out] is [s] without its tokens, found from left
    to right; after a token the scan resumes behind it. *)
Inductive deletes (tok : string -> option nat) : string -> string -> Prop :=
| deletes_end : deletes tok EmptyString EmptyString
| deletes_token (c : ascii) (s out : string) (n : nat) :
    tok (String c s) = Some (S n) →
    deletes tok (string_drop n s) out →
    deletes tok (String c s) out
| deletes_keep (c : ascii) (s out : string) :
    (∀ n, tok (String c s) ≠ Some (S n)) →
    deletes tok s out →
    deletes tok (String c s) (String c out).

Definition underscores_to_spaces (s : string) : string :=
  Py.map_chars (fun c => if Ascii.eqb c "_"%char then " "%char else c) s.

(** [s] without the suffix [suf], when it ends with it. *)
Fixpoint remove_suffix (suf s : string) : string :=
  match s with
  | EmptyString => EmptyString
  | String c t => if String.eqb s suf then EmptyString else String c (remove_suffix suf t)
  end.

(** The step name as the specification words its cleaning: lower-case the
    code, strip one leading version prefix, remove a trailing "_step",
    replace underscores with spaces, title-case the result. *)
Definition claimed_step_name (code : string) : string :=
  let s := Py.lower code in
  let s := match version_token s with
           | Some n => string_drop n s
           | None => s
           end in
  let s := remove_suffix "_step" s in
  Py.title (underscores_to_spaces s).

(** ** The other steps of the two scripts *)

(** Every character of [s] satisfies [p]. *)
Fixpoint all_chars (p : ascii -> bool) (s : string) : bool :=
  match s with
  | EmptyString => true
  | String c t => p c && all_chars p t
  end.

(** The characters of [s] that satisfy [p], in order. *)
Fixpoint filter_chars (p : ascii -> bool) (s : string) : string :=
  match s with
  | EmptyString => EmptyString
  | String c t => if p c then String c (filter_chars p t) else filter_chars p t
  end.

(** [s.split(sep)] for a separator of one character. *)
Fixpoint split_on (sep : ascii) (s : string) : list string :=
  match s with
  | EmptyString => [EmptyString]
  | String c t =>
      if Ascii.eqb c sep then EmptyString :: split_on sep t
      else match split_on sep t with
           | piece :: pieces => String c piece :: pieces
           | [] => [String c EmptyString]
           end
  end.

(** *** pipeline.py *)

Definition clean_dates_cols : list string :=
  ["cr_issue_date"; "cr_expiry_date"; "national_id_expiry_date";
   "created_date"; "kyb_in_progress_date"; "kyb_submitted_date";
   "last_status_change_date"; "converted_date"].

Definition clean_dates (df : DataFrame) : DataFrame :=
  foldl (fun df col =>
           if has_column df col
           then assign df col (to_datetime (column df col))
           else df) df clean_dates_cols.

(** [series.fillna(other)], on one element. *)
Definition fillna (v other : cell) : cell := if isna v then other else v.

(** [a + b] on two elements of columns of text; [None] is the [TypeError]
    raised when one of them is not a text. *)
Definition text_add (a b : cell) : option cell :=
  match a, b with
  | Str x, Str y => Some (Str (x +:+ y))
  | _, _ => None
  end.

(** [(first.fillna('') + ' ' + last.fillna('')).str.strip()], on one row. *)
Definition contact_name_of (first last : cell) : option cell :=
  a ← text_add (fillna first (Str "")) (Str " ");
  b ← text_add a (fillna last (Str ""));
  match b with
  | Str s => Some (Str (Py.strip s))
  | _ => None
  end.

(** [process_identity(df)]; [None] is the [KeyError] of a missing column or
    the [TypeError] of a name that is not a text. *)
Definition process_identity (df : DataFrame) : option DataFrame :=
  if negb (has_column df "company_name" && has_column df "company_account_fallback")
  then None
  else
    let df := assign df "company_name"
                (zip_with fillna (column df "company_name")
                   (column df "company_account_fallback")) in
    if negb (has_column df "first_name" && has_column df "last_name") then None
    else
      names ← mapM (fun r : Row =>
                      contact_name_of (get r "first_name") (get r "last_name"))
                (rows df);
      Some (assign df "contact_name" names).

(** [series.str.lower().str.strip()], on one element of a column of text:
    an element that is not a text becomes missing. *)
Definition normalize_email (v : cell) : cell :=
  match v with
  | Str s => Str (Py.strip (Py.lower s))
  | _ => NaN
  end.

(** [series.str.split('@').str[1]], on one element: the second piece, or
    missing when there is none. *)
Definition email_domain_of (v : cell) : cell :=
  match v with
  | Str s =>
      match split_on "@" s !! 1%nat with
      | Some d => Str d
      | None => NaN
      end
  | _ => NaN
  end.

(** The pattern [[+\s-]]. *)
Definition mobile_separator (c : ascii) : bool :=
  Ascii.eqb c "+" || Py.is_space c || Ascii.eqb c "-".

Definition mobile_re : Py.regex := [(mobile_separator, Py.One)].

(** [series.astype(str).str.replace(r'[+\s-]', '', regex=True)] followed by
    [.replace(['nan', ''], np.nan)], on one element. *)
Definition normalize_mobile (v : cell) : cell :=
  let s := Py.sub mobile_re "" (str v) in
  if String.eqb s "nan" || String.eqb s "" then NaN else Str s.

(** The [.str] accessor is refused ([AttributeError]) on a column that is
    not of text: read from a file, that is a column with rows and without
    a text. *)
Definition is_text_column (col : list cell) : bool :=
  match col with
  | [] => true
  | _ => existsb (fun v => match v with Str _ => true | _ => false end) col
  end.

(** [process_digital_contact(df)]; [None] is the [KeyError] of a missing
    column or the [AttributeError] of [.str] on an [email] column without
    a text. *)
Definition process_digital_contact (df : DataFrame) : option DataFrame :=
  if negb (has_column df "email") then None
  else if negb (is_text_column (column df "email")) then None
  else
    let df := assign df "email" (fmap normalize_email (column df "email")) in
    let df := assign df "email_domain" (fmap email_domain_of (column df "email")) in
    if negb (has_column df "mobile") then None
    else Some (assign df "mobile" (fmap normalize_mobile (column df "mobile"))).

Definition sales_map : list (string * Z) :=
  [("Nano Business (Less than $250 thousand)", 1);
   ("Micro Business ($250 thousand to $1 million)", 2);
   ("Small Business ($1 million to $5 million)", 3);
   ("Medium Business ($5 million to $50 million)", 4);
   ("Large Business ($50 million+)", 5)].

(** [series.map(sales_map).fillna(0).astype(int)], on one element. *)
Definition sales_tier (v : cell) : cell :=
  match v with
  | Str s =>
      match (list_to_map sales_map : gmap string Z) !! s with
      | Some n => Int n
      | None => Int 0
      end
  | _ => Int 0
  end.

(** [process_business_tiers(df)]; [None] is the [KeyError] of a frame
    without the column. *)
Definition process_business_tiers (df : DataFrame) : option DataFrame :=
  if negb (has_column df "reported_annual_sales_tier") then None
  else Some (assign df "reported_annual_sales_tier"
               (fmap sales_tier (column df "reported_annual_sales_tier"))).

Definition SELECTED_COLUMNS : list string :=
  ["company_name"; "company_name_ar"; "cr_number"; "lead_id";
   "email"; "mobile"; "preferred_language";
   "website"; "google_map_id";
   "reported_annual_sales_tier"; "business_type"; "L1"; "L2"; "L3";
   "business_activities_en"; "country_of_registration";
   "cr_issue_date"; "cr_expiry_date"; "vat_number"; "iban";
   "national_id_expiry_date";
   "lead_status"; "contacted_status"; "onboarding_step"; "created_date";
   "kyb_in_progress_date"; "kyb_submitted_date"; "last_status_change_date";
   "converted_date";
   "lead_source"; "utm_source"; "utm_medium"; "utm_campaign"].

(** The selection of [main]: the selected columns the frame lacks are
    filled with missing values, then [df_filtered[SELECTED_COLUMNS]]. *)
Definition select_columns (df : DataFrame) : DataFrame :=
  let missing_cols :=
    filter (fun c => c ∉ columns df) SELECTED_COLUMNS in
  let df := foldl (fun df c => assign_scalar df c NaN) df missing_cols in
  {| columns := SELECTED_COLUMNS;
     rows := fmap (fun r : Row =>
                     filter (fun kv : string * cell => kv.1 ∈ SELECTED_COLUMNS) r)
               (rows df) |}.

(** [main] of pipeline.py on the frame with its columns renamed, up to the
    frame it writes. *)
Definition pipeline (df : DataFrame) : option DataFrame :=
  let df := clean_dates df in
  df ← apply_blacklist_logic df;
  df ← process_identity df;
  df ← process_digital_contact df;
  df ← process_business_tiers df;
  Some (select_columns (filter_blacklist df)).

(** The first character of [s], if any, is not a blank. *)
Definition starts_clean (s : string) : bool :=
  match s with
  | EmptyString => true
  | String c _ => negb (Py.is_space c)
  end.

(** What [add_presence_flags] leaves in one row; [has_converted] tells
    whether the frame has the column [converted_date]. *)
Definition presence_row (has_converted : bool) (r : Row) : Row :=
  let r := <["is_converted" :=
              if has_converted
              then Int (if notna (get r "converted_date") then 1 else 0)
              else Int 0]> r in
  let r := <["has_website" := Int (create_flag (get r website_col))]> r in
  let r := <["has_maps" := Int (create_flag (get r map_col))]> r in
  let r := <["has_social_media" := Int (create_flag (get r social_col))]> r in
  <["has_ecommerce" := Int (create_flag (get r ecommerce_col))]> r.

(** What [add_step_flags] leaves in one row. *)
Definition step_flag_row (r : Row) : Row :=
  foldl (fun r (cfg : string * list string) =>
           <[cfg.1 := Int (check_step (get r "onboarding_step") cfg.2)]> r)
    r step_config.

(** ** Properties *)

(** *** Rows and frames *)

Lemma get_insert_eq (r : Row) (c : string) (v : cell) :
  get (<[c := v]> r) c = v.
Proof. unfold get. by rewrite lookup_insert_eq. Qed.

Lemma get_insert_ne (r : Row) (c c' : string) (v : cell) :
  c ≠ c' → get (<[c := v]> r) c' = get r c'.
Proof. intros Hne. unfold get. by rewrite lookup_insert_ne. Qed.

Lemma elem_of_add_column (cs : list string) (c c' : string) :
  c' ∈ add_column cs c ↔ c' = c ∨ c' ∈ cs.
Proof.
  unfold add_column. case_bool_decide as Hc.
  - split; [by right | intros [-> | H]; done].
  - rewrite elem_of_app, list_elem_of_singleton. tauto.
Qed.

Lemma has_column_assign (df : DataFrame) (c c' : string) (vals : list cell) :
  has_column (assign df c vals) c' = bool_decide (c' = c) || has_column df c'.
Proof.
  unfold has_column, assign; simpl.
  apply eq_true_iff_eq.
  rewrite orb_true_iff, !bool_decide_eq_true. apply elem_of_add_column.
Qed.

Lemma has_column_assign_scalar (df : DataFrame) (c c' : string) (v : cell) :
  has_column (assign_scalar df c v) c' = bool_decide (c' = c) || has_column df c'.
Proof.
  unfold has_column, assign_scalar; simpl.
  apply eq_true_iff_eq.
  rewrite orb_true_iff, !bool_decide_eq_true. apply elem_of_add_column.
Qed.

(** *** The blacklist rule *)

(** The step returns a frame exactly when the frame has the two columns
    and its creation dates are not timezone-aware. *)
Lemma apply_blacklist_logic_returns (df df' : DataFrame) :
  apply_blacklist_logic df = Some df' →
  has_column df "created_date" = true
  ∧ has_column df "blacklist_raw" = true
  ∧ tz_aware (column df "created_date") = false.
Proof.
  unfold apply_blacklist_logic.
  destruct (has_column df "created_date") eqn:Hc; [|done].
  simpl negb; cbv iota zeta.
  rewrite has_column_assign_scalar, has_column_assign.
  destruct (has_column df "blacklist_raw") eqn:Hr;
    [|by rewrite !bool_decide_eq_false_2 by done].
  rewrite !orb_true_r. simpl negb; cbv iota.
  by destruct (tz_aware (column df "created_date")).
Qed.

Lemma apply_blacklist_logic_raises (df : DataFrame) :
  has_column df "created_date" = false
  ∨ has_column df "blacklist_raw" = false
  ∨ tz_aware (column df "created_date") = true →
  apply_blacklist_logic df = None.
Proof.
  intros H. destruct (apply_blacklist_logic df) as [df'|] eqn:E; [|done].
  apply apply_blacklist_logic_returns in E as (H1 & H2 & H3).
  destruct H as [?|[?|?]]; congruence.
Qed.

Lemma apply_blacklist_logic_rows (df : DataFrame) :
  has_column df "created_date" = true →
  has_column df "blacklist_raw" = true →
  tz_aware (column df "created_date") = false →
  ∃ cols,
    apply_blacklist_logic df =
      Some {| columns := cols;
              rows := zip_with blacklist_row (rows df)
                        (to_datetime (column df "created_date")) |}.
Proof.
  intros Hc Hr Ht. unfold apply_blacklist_logic.
  rewrite Hc; simpl negb; cbv iota zeta.
  rewrite has_column_assign_scalar, has_column_assign, Hr, !orb_true_r.
  simpl negb; cbv iota. rewrite Ht.
  eexists. f_equal. unfold loc_assign. f_equal.
  unfold column, assign, assign_scalar; simpl.
  generalize (to_datetime ((λ r : Row, get r "created_date") <$> rows df)).
  generalize (rows df). clear.
  induction l as [|r rs IH]; intros [|c cs]; simpl; try done.
  f_equal; [|apply IH].
  unfold blacklist_row.
  rewrite !get_insert_eq, !(get_insert_ne _ "blacklist_parsed") by done.
  rewrite !(get_insert_ne _ "blacklist_status") by done.
  rewrite !get_insert_eq, !(get_insert_ne _ "created_date") by done.
  done.
Qed.

Lemma blacklist_row_created (row : Row) (c : cell) :
  get (blacklist_row row c) "created_date" = c.
Proof.
  unfold blacklist_row. simpl.
  destruct (_ || _);
    rewrite ?(get_insert_ne _ "blacklist_status"), ?(get_insert_ne _ "blacklist_parsed") by done;
    rewrite ?(get_insert_ne _ "blacklist_status") by done;
    apply get_insert_eq.
Qed.

Lemma blacklist_row_status (row : Row) (c : cell) :
  get (blacklist_row row c) "blacklist_status" =
    if ts_lt c BLACKLIST_START_DATE
       || (ts_ge c BLACKLIST_START_DATE
           && bool_decide (parse_raw_blacklist (get row "blacklist_raw") = Int 1))
    then Int 1 else Int 0.
Proof.
  unfold blacklist_row. simpl.
  destruct (_ || _).
  - apply get_insert_eq.
  - rewrite (get_insert_ne _ "blacklist_parsed") by done. apply get_insert_eq.
Qed.

Lemma parse_raw_blacklist_spec (raw : cell) :
  parse_raw_blacklist raw =
    if code_passed raw then Int 1
    else if code_failed raw then Int 0
    else NaN.
Proof.
  unfold parse_raw_blacklist, code_failed, code_passed, notna.
  destruct (isna raw); simpl; [done|].
  destruct (Py.contains "green.png" (str raw) || String.eqb (str raw) "1"); simpl; [done|].
  by destruct (Py.contains "red.png" (str raw) || String.eqb (str raw) "0").
Qed.

Lemma parse_raw_blacklist_passed (raw : cell) :
  bool_decide (parse_raw_blacklist raw = Int 1) = code_passed raw.
Proof.
  rewrite parse_raw_blacklist_spec.
  destruct (code_passed raw); [done|]. by destruct (code_failed raw).
Qed.

Lemma to_datetime_length (col : list cell) :
  length (to_datetime col) = length col.
Proof. unfold to_datetime. by rewrite length_fmap. Qed.

Lemma column_length (df : DataFrame) (c : string) :
  length (column df c) = length (rows df).
Proof. unfold column. by rewrite length_fmap. Qed.

Lemma blacklist_rows_created (rs : list Row) (cs : list cell) :
  length cs = length rs →
  (λ r : Row, get r "created_date") <$> zip_with blacklist_row rs cs = cs.
Proof.
  revert cs. induction rs as [|r rs IH]; intros [|c cs] Hlen; simpl in *; try done.
  rewrite blacklist_row_created. f_equal. apply IH. lia.
Qed.

(** What the code does with a record whose creation date is missing, or
    is a text that [pd.to_datetime] cannot read and coerces to [NaT]: the
    record keeps the default status 0, whatever its raw check code, since
    both comparisons with the cutoff are false of a missing date.  The
    comments of the function state the rule it is meant to implement
    (keep every lead but those created from June 2024 on that failed the
    check), and [main] reports the leads it drops as having failed that
    check: a lead without a date is dropped though it did not. *)
Lemma blacklist_null_date_default (df : DataFrame) :
  has_column df "created_date" = true →
  has_column df "blacklist_raw" = true →
  tz_aware (column df "created_date") = false →
  ∃ df',
    apply_blacklist_logic df = Some df'
    ∧ length (rows df') = length (rows df)
    ∧ column df' "created_date" = to_datetime (column df "created_date")
    ∧ ∀ i row',
        rows df' !! i = Some row' →
        isna (get row' "created_date") = true →
        get row' "blacklist_status" = Int 0.
Proof.
  intros Hc Hr Hz.
  destruct (apply_blacklist_logic_rows df Hc Hr Hz) as [cols ->].
  eexists; split; [done|]. simpl.
  assert (Hlen : length (to_datetime (column df "created_date")) = length (rows df))
    by by rewrite to_datetime_length, column_length.
  split; [rewrite length_zip_with; lia|].
  split; [by apply blacklist_rows_created|].
  intros i row' Hi Hna.
  apply lookup_zip_with_Some in Hi as (row & c & -> & _ & _).
  rewrite blacklist_row_created in Hna.
  rewrite blacklist_row_status.
  by destruct c.
Qed.


(** *** The migration of website values *)

Lemma at_set_writes (pre tl : list Row) (a : Row) (ws : list (string * cell)) :
  foldl (fun acc' (w : string * cell) => at_set acc' (length pre) w.1 w.2)
    (pre ++ a :: tl) ws
  = pre ++ foldl (fun r (w : string * cell) => <[w.1 := w.2]> r) a ws :: tl.
Proof.
  revert a. induction ws as [|w ws IH]; intros a; simpl; [done|].
  unfold at_set at 2.
  rewrite alter_app_r_alt by lia. rewrite Nat.sub_diag. simpl.
  apply IH.
Qed.

Lemma migrate_loop_from (rs pre tl : list Row) :
  length tl = length rs →
  foldl (fun acc (ir : nat * Row) =>
           foldl (fun acc' (w : string * cell) => at_set acc' ir.1 w.1 w.2)
             acc (migrate_writes ir.2))
    (pre ++ tl) (imap (fun i r => ((length pre + i)%nat, r)) rs)
  = pre ++ zip_with
             (fun a r => foldl (fun r' (w : string * cell) => <[w.1 := w.2]> r')
                           a (migrate_writes r))
             tl rs.
Proof.
  revert pre tl. induction rs as [|r rs IH]; intros pre [|a tl] Hlen;
    simpl in *; try done.
  rewrite Nat.add_0_r, at_set_writes.
  rewrite (cons_middle _ pre tl), (assoc_L (++)).
  erewrite imap_ext; [rewrite IH by lia|].
  - by rewrite <- (assoc_L (++)).
  - intros i x _. simpl. rewrite length_app. simpl. f_equal. lia.
Qed.

(** The loop leaves in each row what one iteration makes of that row. *)
Lemma migrate_loop_rows (rs : list Row) :
  migrate_loop rs = migrate_row <$> rs.
Proof.
  unfold migrate_loop.
  pose proof (migrate_loop_from rs [] rs eq_refl) as H. simpl in H.
  etrans; [exact H|]. by rewrite zip_with_diag.
Qed.

Lemma migrate_row_unfold (row : Row) :
  migrate_row row =
    let site := get row website_col in
    if is_google_maps_url site then
      <[website_col := NaN]>
        (if is_empty (get row map_col) then <[map_col := site]> row else row)
    else
      let r1 :=
        if is_social_media_url site then
          <[website_col := NaN]>
            (<[social_col :=
                 if is_empty (get row social_col) then site
                 else Str (str (get row social_col) +:+ " | " +:+ str site)]> row)
        else row in
      if is_ecommerce_url site then
        <[website_col := NaN]>
          (<[ecommerce_col :=
               if is_empty (get row ecommerce_col) then site
               else Str (str (get row ecommerce_col) +:+ " | " +:+ str site)]> r1)
      else r1.
Proof.
  unfold migrate_row, migrate_writes. simpl.
  destruct (is_google_maps_url _); [by destruct (is_empty _)|].
  by destruct (is_social_media_url _), (is_ecommerce_url _).
Qed.

Lemma migrate_row_website (row : Row) :
  get (migrate_row row) website_col =
    match classify (get row website_col) with
    | none => get row website_col
    | _ => NaN
    end.
Proof.
  rewrite migrate_row_unfold. unfold classify. simpl.
  destruct (is_google_maps_url _); [apply get_insert_eq|].
  destruct (is_social_media_url _), (is_ecommerce_url _);
    first [apply get_insert_eq | done].
Qed.

Lemma classify_NaN : classify NaN = none.
Proof. done. Qed.

Lemma classify_none (url : cell) :
  classify url = none ↔
  is_google_maps_url url = false
  ∧ is_social_media_url url = false
  ∧ is_ecommerce_url url = false.
Proof.
  unfold classify.
  destruct (is_google_maps_url url), (is_social_media_url url),
    (is_ecommerce_url url); intuition congruence.
Qed.

Lemma migrate_rows (df : DataFrame) :
  ∃ df0,
    rows (migrate df) = migrate_row <$> rows df0
    ∧ length (rows df0) = length (rows df).
Proof.
  unfold migrate. simpl. rewrite migrate_loop_rows.
  eexists; split; [done|].
  unfold ensure_column.
  repeat (case_match; simpl; rewrite ?length_fmap); done.
Qed.

(** C5: after the migration no row holds in [website] a value that reads
    as a maps, social or ecommerce URL: every such value was replaced by
    the missing value, every other value was left as it was. *)
Theorem website_unclassified_after_migration (df : DataFrame) :
  length (rows (migrate df)) = length (rows df)
  ∧ (∀ row', row' ∈ rows (migrate df) →
       classify (get row' website_col) = none
       ∧ is_google_maps_url (get row' website_col) = false
       ∧ is_social_media_url (get row' website_col) = false
       ∧ is_ecommerce_url (get row' website_col) = false)
  ∧ (∀ row : Row,
       get (migrate_row row) website_col =
         match classify (get row website_col) with
         | none => get row website_col
         | _ => NaN
         end).
Proof.
  destruct (migrate_rows df) as (df0 & Hrows & Hlen).
  split; [by rewrite Hrows, length_fmap|].
  assert (Hrow : ∀ row : Row, classify (get (migrate_row row) website_col) = none).
  { intros row. rewrite migrate_row_website.
    destruct (classify (get row website_col)) eqn:E; try apply classify_NaN. done. }
  split.
  - intros row' Hin. rewrite Hrows in Hin.
    apply list_elem_of_fmap in Hin as (row & -> & _).
    split; [apply Hrow|]. apply classify_none, Hrow.
  - apply migrate_row_website.
Qed.



Lemma has_column_ensure (df : DataFrame) (c c' : string) :
  has_column (ensure_column df c) c' = bool_decide (c' = c) || has_column df c'.
Proof.
  unfold ensure_column. destruct (has_column df c) eqn:E.
  - case_bool_decide as Hc; [by subst|done].
  - apply has_column_assign_scalar.
Qed.

(** A row of the frame after [if c not in df.columns: df[c] = np.nan]. *)
Lemma ensure_column_row (df : DataFrame) (c : string) (i : nat) (r : Row) :
  rows df !! i = Some r →
  ∃ r',
    rows (ensure_column df c) !! i = Some r'
    ∧ (∀ x, has_column df x = true → get r' x = get r x)
    ∧ (∀ x, x ≠ c → get r' x = get r x)
    ∧ (has_column df c = false → get r' c = NaN).
Proof.
  intros H. unfold ensure_column. destruct (has_column df c) eqn:E.
  - exists r. by repeat split.
  - exists (<[c := NaN]> r). split; [|split; [|split]].
    + unfold assign_scalar. cbn [rows]. by rewrite list_lookup_fmap, H.
    + intros x Hx. apply get_insert_ne. congruence.
    + intros x Hx. by apply get_insert_ne.
    + intros _. apply get_insert_eq.
Qed.

(** A row of the migrated frame is what one iteration of the loop makes
    of the row the frame held at that position when the loop started:
    the row of the input, with a missing value under each of the four
    columns the input lacked. *)
Lemma migrate_lookup (df : DataFrame) (i : nat) (row : Row) :
  rows df !! i = Some row →
  ∃ row0,
    rows (migrate df) !! i = Some (migrate_row row0)
    ∧ (∀ c, has_column df c = true → get row0 c = get row c)
    ∧ (∀ c, c ∉ [website_col; map_col; social_col; ecommerce_col] →
            get row0 c = get row c)
    ∧ (∀ c, c ∈ [website_col; map_col; social_col; ecommerce_col] →
            has_column df c = false → get row0 c = NaN).
Proof.
  intros H0.
  destruct (ensure_column_row df website_col i row H0) as (r1 & H1 & A1 & B1 & C1).
  destruct (ensure_column_row _ map_col i r1 H1) as (r2 & H2 & A2 & B2 & C2).
  destruct (ensure_column_row _ social_col i r2 H2) as (r3 & H3 & A3 & B3 & C3).
  destruct (ensure_column_row _ ecommerce_col i r3 H3) as (r4 & H4 & A4 & B4 & C4).
  exists r4. split; [|split; [|split]].
  - unfold migrate. cbn [rows]. by rewrite migrate_loop_rows, list_lookup_fmap, H4.
  - intros c Hc.
    rewrite A4, A3, A2, A1; first done.
    all: rewrite ?has_column_ensure, Hc; by rewrite ?orb_true_r.
  - intros c. rewrite !not_elem_of_cons. intros (N1 & N2 & N3 & N4 & _).
    by rewrite B4, B3, B2, B1.
  - intros c Hc Hn. rewrite !elem_of_cons, elem_of_nil in Hc.
    destruct Hc as [->|[->|[->|[->|[]]]]].
    + rewrite B4, B3, B2 by done. by apply C1.
    + rewrite B4, B3 by done. apply C2.
      by rewrite has_column_ensure, Hn.
    + rewrite B4 by done. apply C3.
      by rewrite !has_column_ensure, Hn.
    + apply C4. by rewrite !has_column_ensure, Hn.
Qed.

(** One iteration on a maps URL beside an occupied [google_map_id]. *)
Lemma migrate_row_maps_occupied (row : Row) :
  is_google_maps_url (get row website_col) = true →
  is_empty (get row map_col) = false →
  migrate_row row = <[website_col := NaN]> row.
Proof.
  intros Hmaps Hocc. rewrite migrate_row_unfold. simpl. by rewrite Hmaps, Hocc.
Qed.

(** One iteration on a social or ecommerce URL beside an occupied field. *)
Lemma migrate_row_appends (other : Row) :
  let site := get other website_col in
  is_google_maps_url site = false →
  (is_social_media_url site = true →
   is_empty (get other social_col) = false →
   get (migrate_row other) social_col =
     Str (str (get other social_col) +:+ " | " +:+ str site))
  ∧ (is_ecommerce_url site = true →
     is_empty (get other ecommerce_col) = false →
     get (migrate_row other) ecommerce_col =
       Str (str (get other ecommerce_col) +:+ " | " +:+ str site)).
Proof.
  cbv zeta. intros Hnot. split.
  - intros Hsoc Hsocc. rewrite migrate_row_unfold. cbv zeta.
    rewrite Hnot, Hsoc, Hsocc.
    destruct (is_ecommerce_url _);
      rewrite ?(get_insert_ne _ website_col), ?(get_insert_ne _ ecommerce_col) by done;
      rewrite ?(get_insert_ne _ website_col) by done; apply get_insert_eq.
  - intros Hec Hecocc. rewrite migrate_row_unfold. cbv zeta.
    rewrite Hnot, Hec, Hecocc.
    rewrite (get_insert_ne _ website_col) by done. apply get_insert_eq.
Qed.

(** C10: in the frame the migration loop leaves, a record whose website
    read as a maps URL while its [google_map_id] was occupied has a
    missing [website] and the [google_map_id] it had; every other cell of
    the record is as it was (a column the loop had to create is missing),
    so no cell holds the URL that did not hold it before: the URL is
    discarded.  The social and ecommerce branches append instead: a
    record whose website read as a social (ecommerce) URL while that
    field was occupied holds there its old text, then " | ", then the
    URL. *)
Theorem maps_url_dropped_when_map_id_occupied
  (df : DataFrame) (i : nat) (row : Row) :
  has_column df website_col = true →
  has_column df map_col = true →
  rows df !! i = Some row →
  is_google_maps_url (get row website_col) = true →
  is_empty (get row map_col) = false →
  (∃ row',
     rows (migrate df) !! i = Some row'
     ∧ get row' website_col = NaN
     ∧ get row' map_col = get row map_col
     ∧ (∀ c, c ≠ website_col → has_column df c = true → get row' c = get row c)
     ∧ (∀ c, c ∉ [website_col; map_col; social_col; ecommerce_col] →
             get row' c = get row c)
     ∧ (∀ c, c ∈ [social_col; ecommerce_col] → has_column df c = false →
             get row' c = NaN)
     ∧ (∀ c, get row' c = get row website_col →
             c ≠ website_col ∧ get row c = get row website_col))
  ∧ (∀ (j : nat) (other : Row),
       rows df !! j = Some other →
       let site := get other website_col in
       is_google_maps_url site = false →
       (has_column df social_col = true →
        is_social_media_url site = true →
        is_empty (get other social_col) = false →
        ∃ other',
          rows (migrate df) !! j = Some other'
          ∧ get other' social_col =
              Str (str (get other social_col) +:+ " | " +:+ str site))
       ∧ (has_column df ecommerce_col = true →
          is_ecommerce_url site = true →
          is_empty (get other ecommerce_col) = false →
          ∃ other',
            rows (migrate df) !! j = Some other'
            ∧ get other' ecommerce_col =
                Str (str (get other ecommerce_col) +:+ " | " +:+ str site))).
Proof.
  intros Hw Hm Hi Hmaps Hocc. split.
  - destruct (migrate_lookup df i row Hi) as (row0 & Hrow0 & A & B & C).
    assert (Hrow : migrate_row row0 = <[website_col := NaN]> row0).
    { apply migrate_row_maps_occupied; by rewrite A. }
    rewrite Hrow in Hrow0.
    exists (<[website_col := NaN]> row0). split; [done|].
    split; [apply get_insert_eq|].
    split; [rewrite get_insert_ne by done; by apply A|].
    assert (Hother : ∀ c, c ≠ website_col →
              get (<[website_col := NaN]> row0) c = get row c
              ∨ get (<[website_col := NaN]> row0) c = NaN).
    { intros c Hc. rewrite get_insert_ne by done.
      destruct (has_column df c) eqn:E; [left; by apply A|].
      destruct (decide (c ∈ [website_col; map_col; social_col; ecommerce_col]))
        as [Hin|Hin]; [right; by apply C|left; by apply B]. }
    split; [intros c Hc Hh; rewrite get_insert_ne by done; by apply A|].
    split.
    { intros c Hc. rewrite get_insert_ne; [by apply B|].
      intros <-. apply Hc. by left. }
    split.
    { intros c Hc Hh. rewrite get_insert_ne.
      - apply C; [|done]. rewrite !elem_of_cons in *. tauto.
      - intros <-. rewrite !elem_of_cons, elem_of_nil in Hc.
        destruct Hc as [?|[?|[]]]; done. }
    intros c Hc.
    assert (Hsite : get row website_col ≠ NaN).
    { intros E. rewrite E in Hmaps. done. }
    destruct (decide (c = website_col)) as [->|Hne].
    { rewrite get_insert_eq in Hc. congruence. }
    split; [done|].
    destruct (Hother c Hne) as [E|E]; congruence.
  - intros j other Hj. cbv zeta. intros Hnot.
    destruct (migrate_lookup df j other Hj) as (row0 & Hrow0 & A & _ & _).
    pose proof (migrate_row_appends row0) as Happ. cbv zeta in Happ.
    rewrite (A website_col Hw) in Happ. destruct (Happ Hnot) as [Hs He].
    split.
    + intros Hcol Hsoc Hsocc. exists (migrate_row row0). split; [done|].
      rewrite <- (A social_col Hcol). apply Hs; [done|].
      by rewrite (A social_col Hcol).
    + intros Hcol Hec Hecocc. exists (migrate_row row0). split; [done|].
      rewrite <- (A ecommerce_col Hcol). apply He; [done|].
      by rewrite (A ecommerce_col Hcol).
Qed.

(** *** The journey stage *)

Lemma in_row_notna (row : Row) (c : string) :
  in_row c row && notna (get row c) = present row c.
Proof.
  unfold in_row, present, get.
  by destruct (row !! c) as [v|] eqn:E.
Qed.

Lemma column_assign_eq (df : DataFrame) (c : string) (vals : list cell) :
  length vals = length (rows df) → column (assign df c vals) c = vals.
Proof.
  unfold column, assign; simpl. generalize (rows df). clear df.
  intros rs. revert vals.
  induction rs as [|r rs IH]; intros [|v vals] Hlen; simpl in *; try done.
  rewrite get_insert_eq. f_equal. apply IH. lia.
Qed.

Lemma column_assign_ne (df : DataFrame) (c c' : string) (vals : list cell) :
  c ≠ c' → length vals = length (rows df) →
  column (assign df c vals) c' = column df c'.
Proof.
  intros Hne. unfold column, assign; simpl. generalize (rows df). clear df.
  intros rs. revert vals.
  induction rs as [|r rs IH]; intros [|v vals] Hlen; simpl in *; try done.
  rewrite get_insert_ne by done. f_equal. apply IH. lia.
Qed.

Lemma rows_assign_length (df : DataFrame) (c : string) (vals : list cell) :
  length vals = length (rows df) →
  length (rows (assign df c vals)) = length (rows df).
Proof. intros Hlen. unfold assign; simpl. rewrite length_zip_with. lia. Qed.

(** Reading the date columns as dates leaves every other column as it is. *)
Lemma date_loop_other (cols : list string) (c' : string) (df : DataFrame) :
  c' ∉ cols →
  let df1 :=
    foldl (fun df col =>
             if has_column df col
             then assign df col (to_datetime (column df col))
             else df) df cols in
  has_column df1 c' = has_column df c'
  ∧ column df1 c' = column df c'
  ∧ length (rows df1) = length (rows df).
Proof.
  revert df. induction cols as [|col cols IH]; intros df Hnin; simpl; [done|].
  apply not_elem_of_cons in Hnin as [Hne Hnin].
  destruct (IH (if has_column df col
                then assign df col (to_datetime (column df col))
                else df) Hnin) as (H1 & H2 & H3).
  rewrite H1, H2, H3. clear H1 H2 H3 IH.
  destruct (has_column df col); [|done].
  assert (Hlen : length (to_datetime (column df col)) = length (rows df))
    by by rewrite to_datetime_length, column_length.
  rewrite has_column_assign, bool_decide_eq_false_2 by done.
  rewrite column_assign_ne, rows_assign_length by done. done.
Qed.

(** The readable step of the frame is the cleaned raw step code. *)
Lemma track_journey_readable_step (df : DataFrame) :
  has_column df "onboarding_step" = true →
  column (track_journey df) "readable_onboarding_step"
  = clean_step_name <$> column df "onboarding_step".
Proof.
  intros Hcol. unfold track_journey.
  destruct (date_loop_other date_cols "onboarding_step" df) as (H1 & H2 & H3).
  { unfold date_cols. rewrite !not_elem_of_cons. repeat split; try done.
    apply not_elem_of_nil. }
  cbv zeta in H1, H2, H3.
  rewrite H1, Hcol, H2.
  set (d := foldl _ df date_cols) in *.
  set (d1 := assign d "readable_onboarding_step" _).
  assert (L1 : length (rows d1) = length (rows d)).
  { apply rows_assign_length. by rewrite length_fmap, column_length. }
  set (d2 := assign d1 "onboarding_version" _).
  assert (L2 : length (rows d2) = length (rows d1)).
  { apply rows_assign_length. by rewrite length_fmap, column_length. }
  rewrite column_assign_ne; [|done|by rewrite length_fmap].
  unfold d2. rewrite column_assign_ne; [|done|by rewrite length_fmap, column_length].
  unfold d1. rewrite column_assign_eq; [done|].
  by rewrite length_fmap, column_length.
Qed.

(** C7: the stage follows the priority list, the first milestone present
    deciding: converted, then KYB submitted, then KYB in progress, then a
    present cleaned step name ("Onboarding Completed" when it contains
    "Final", "Onboarding: " and the name otherwise), then created, else
    "Unknown"; the [journey_stage] column of the frame holds that stage
    for every row, the cleaned step name being the cleaned raw step code.
    A row with a converted timestamp is "Converted" whatever else it
    holds. *)
Theorem journey_stage_priority (row : Row) :
  get_journey_stage row =
    stage_by_priority (present row "converted_date")
      (present row "kyb_submitted_date") (present row "kyb_in_progress_date")
      (step_name row) (present row "created_date")
  ∧ (present row "converted_date" && present row "kyb_submitted_date" = true →
     get_journey_stage row = "Converted")
  ∧ (∀ (df : DataFrame) (i : nat) (row' : Row),
       rows (track_journey df) !! i = Some row' →
       get row' "journey_stage" =
         Str (stage_by_priority (present row' "converted_date")
                (present row' "kyb_submitted_date")
                (present row' "kyb_in_progress_date")
                (step_name row') (present row' "created_date")))
  ∧ (∀ df : DataFrame,
       has_column df "onboarding_step" = true →
       column (track_journey df) "readable_onboarding_step"
       = clean_step_name <$> column df "onboarding_step").
Proof.
  assert (Hstage : ∀ r : Row,
    get_journey_stage r =
      stage_by_priority (present r "converted_date")
        (present r "kyb_submitted_date") (present r "kyb_in_progress_date")
        (step_name r) (present r "created_date")).
  { intros r. unfold get_journey_stage, stage_by_priority, step_name.
    rewrite !in_row_notna.
    destruct (present r "converted_date"); [done|].
    destruct (present r "kyb_submitted_date"); [done|].
    destruct (present r "kyb_in_progress_date"); [done|].
    by destruct (notna (get r "readable_onboarding_step")). }
  split; [apply Hstage|]. split; [|split; [|apply track_journey_readable_step]].
  - intros H. apply andb_true_iff in H as [Hc _].
    by rewrite Hstage, Hc.
  - intros df i row'. unfold track_journey.
    match goal with
    | |- rows (assign ?d _ _) !! _ = _ → _ => generalize d
    end.
    intros d Hi. unfold assign in Hi; simpl in Hi.
    apply lookup_zip_with_Some in Hi as (r & v & -> & Hr & Hv).
    rewrite list_lookup_fmap, Hr in Hv. simplify_eq/=.
    rewrite get_insert_eq, Hstage.
    unfold present, step_name.
    by rewrite !(get_insert_ne _ "journey_stage") by done.
Qed.

(** *** The step flags *)


Lemma step_flags_one_hot (val : cell) :
  ∃ k, step_flags val = flags_with k.
Proof.
  unfold step_flags.
  destruct (isna val) eqn:E.
  { exists None. unfold check_step. by rewrite E. }
  assert (Hc : ∀ steps, check_step val steps =
             if bool_decide (Py.strip (str val) ∈ steps) then 1 else 0).
  { intros steps. unfold check_step. by rewrite E. }
  remember (Py.strip (str val)) as s eqn:Hs. clear Hs E.
  unfold step_config at 1. simpl. rewrite !Hc. clear Hc.
  destruct (decide (s = "otp_sign_up_confirmation_step")) as [->|N1];
    [by exists (Some 0%nat)|].
  destruct (decide (s = "business_info_step")) as [->|N2];
    [by exists (Some 1%nat)|].
  destruct (decide (s = "v2_personal_details_step")) as [->|N3];
    [by exists (Some 2%nat)|].
  destruct (decide (s = "v2_business_details_step")) as [->|N4];
    [by exists (Some 3%nat)|].
  destruct (decide (s = "kyc_step")) as [->|N5];
    [by exists (Some 4%nat)|].
  destruct (decide (s = "v2_bank_details_step")) as [->|N6];
    [by exists (Some 5%nat)|].
  destruct (decide (s = "review_application_step")) as [->|N7];
    [by exists (Some 6%nat)|].
  destruct (decide (s = "v3_sign_contract_step")) as [->|N8];
    [by exists (Some 7%nat)|].
  destruct (decide (s = "v2_final_step")) as [->|N9];
    [by exists (Some 8%nat)|].
  destruct (decide (s = "v3_final_step")) as [->|N10];
    [by exists (Some 8%nat)|].
  exists None.
  rewrite !bool_decide_eq_false_2; [done|..];
    rewrite ?elem_of_cons, elem_of_nil; tauto.
Qed.



(** *** The removal of duplicates *)

Lemma select_keep_first (c : string) (seen : list cell) (rs : list Row) :
  select
    (negb <$> zip_with andb
       (duplicated_from seen ((fun r : Row => get r c) <$> rs))
       (notna <$> ((fun r : Row => get r c) <$> rs)))
    rs
  = keep_first_from c seen rs.
Proof.
  revert seen. induction rs as [|r rs IH]; intros seen; simpl; [done|].
  rewrite IH. by destruct (bool_decide _ && notna _).
Qed.

Lemma drop_duplicates_rows (c : string) (df : DataFrame) :
  rows (drop_duplicates_notna c df) = keep_first_from c [] (rows df).
Proof. apply select_keep_first. Qed.

Lemma keep_first_sublist (c : string) (seen : list cell) (rs : list Row) :
  sublist (keep_first_from c seen rs) rs.
Proof.
  revert seen. induction rs as [|r rs IH]; intros seen; simpl; [done|].
  destruct (bool_decide _ && notna _).
  - apply sublist_cons, IH.
  - apply sublist_skip, IH.
Qed.

Lemma keep_first_missing (c : string) (seen : list cell) (rs : list Row) :
  filter (fun r : Row => get r c = NaN) (keep_first_from c seen rs)
  = filter (fun r : Row => get r c = NaN) rs.
Proof.
  revert seen. induction rs as [|r rs IH]; intros seen; simpl; [done|].
  rewrite (filter_cons _ r rs).
  destruct (decide (get r c = NaN)) as [E|E].
  - rewrite E. simpl. rewrite andb_false_r.
    rewrite filter_cons. rewrite decide_True by done. f_equal. apply IH.
  - destruct (bool_decide _ && notna _).
    + apply IH.
    + rewrite filter_cons, decide_False by done. apply IH.
Qed.

Lemma keep_first_value (c : string) (v : cell) (seen : list cell) (rs : list Row) :
  notna v = true →
  filter (fun r : Row => get r c = v) (keep_first_from c seen rs)
  = if bool_decide (v ∈ seen) then []
    else take 1 (filter (fun r : Row => get r c = v) rs).
Proof.
  intros Hv. revert seen.
  induction rs as [|r rs IH]; intros seen; simpl.
  { by case_bool_decide. }
  rewrite (filter_cons _ r rs).
  destruct (decide (get r c = v)) as [E|E].
  - rewrite E, Hv, andb_true_r.
    case_bool_decide as Hseen.
    + rewrite IH. rewrite bool_decide_eq_true_2; [done|]. by left.
    + rewrite filter_cons, decide_True by done.
      rewrite IH. rewrite bool_decide_eq_true_2; [|by left].
      simpl. by rewrite take_0.
  - assert (Hiff : bool_decide (v ∈ get r c :: seen) = bool_decide (v ∈ seen)).
    { apply bool_decide_ext. rewrite elem_of_cons.
      split; [intros [Heq|?]; [by destruct E|done] | by right]. }
    destruct (bool_decide (get r c ∈ seen) && notna (get r c)).
    + by rewrite IH, Hiff.
    + rewrite filter_cons, decide_False by done. by rewrite IH, Hiff.
Qed.

Lemma fresh_keys_mono (c : string) (seen seen' : list cell) (rs : list Row) :
  seen ⊆ seen' → fresh_keys c seen' rs → fresh_keys c seen rs.
Proof.
  revert seen seen'. induction rs as [|r rs IH]; intros seen seen' Hsub; simpl; [done|].
  intros [H1 H2]. split.
  - intros Hn Hin. apply (H1 Hn). by apply Hsub.
  - apply (IH _ (get r c :: seen')); [|done].
    intros x. rewrite !elem_of_cons. intros [->|?]; [by left|right; by apply Hsub].
Qed.

Lemma keep_first_fresh (c : string) (seen : list cell) (rs : list Row) :
  fresh_keys c seen (keep_first_from c seen rs).
Proof.
  revert seen. induction rs as [|r rs IH]; intros seen; simpl; [done|].
  destruct (bool_decide (get r c ∈ seen) && notna (get r c)) eqn:E.
  - apply (fresh_keys_mono _ _ (get r c :: seen)); [|apply IH].
    intros x Hx. by right.
  - simpl. split; [|apply IH].
    intros Hn Hin. rewrite Hn, andb_true_r in E.
    by apply bool_decide_eq_false in E.
Qed.

Lemma fresh_keys_fixed (c : string) (seen : list cell) (rs : list Row) :
  fresh_keys c seen rs → keep_first_from c seen rs = rs.
Proof.
  revert seen. induction rs as [|r rs IH]; intros seen; simpl; [done|].
  intros [H1 H2].
  destruct (bool_decide (get r c ∈ seen) && notna (get r c)) eqn:E.
  - apply andb_true_iff in E as [Hin Hn].
    apply bool_decide_eq_true in Hin. by destruct (H1 Hn).
  - f_equal. by apply IH.
Qed.

Lemma fresh_keys_sublist (c : string) (seen : list cell) (rs rs' : list Row) :
  sublist rs' rs → fresh_keys c seen rs → fresh_keys c seen rs'.
Proof.
  intros Hsub. revert seen.
  induction Hsub as [|r l1 l2 Hsub IH|r l1 l2 Hsub IH]; intros seen; simpl; [done|..].
  - intros [H1 H2]. split; [done|]. by apply IH.
  - intros [_ H2]. apply IH.
    apply (fresh_keys_mono _ _ (get r c :: seen)); [|done].
    intros x Hx. by right.
Qed.

Lemma has_column_drop_duplicates (c c' : string) (df : DataFrame) :
  has_column (drop_duplicates_notna c df) c' = has_column df c'.
Proof. done. Qed.

(** C3: on a frame as [pd.read_csv] gives it, where an empty field is
    read as a missing value and no cell of the identity field is the
    empty text, a pass keeps the rows in their order, keeps every row
    whose value in the field is absent (null or empty), and of the rows
    that share a value that is not absent keeps the first only.  What a
    pass leaves is a frame of the same kind: the pass on [mobile] comes
    first, the pass on [email] works on what it leaves. *)
Theorem dedup_pass_keeps_first (c : string) (df : DataFrame) :
  Forall (fun r : Row => get r c ≠ Str "") (rows df) →
  let out := rows (drop_duplicates_notna c df) in
  columns (drop_duplicates_notna c df) = columns df
  ∧ sublist out (rows df)
  ∧ filter (fun r : Row => absent (get r c) = true) out
    = filter (fun r : Row => absent (get r c) = true) (rows df)
  ∧ (∀ v : cell, absent v = false →
       filter (fun r : Row => get r c = v) out
       = take 1 (filter (fun r : Row => get r c = v) (rows df)))
  ∧ (∀ c', Forall (fun r : Row => get r c' ≠ Str "") (rows df) →
           Forall (fun r : Row => get r c' ≠ Str "") out)
  ∧ (has_column df "mobile" = true → has_column df "email" = true →
     remove_duplicates df
     = drop_duplicates_notna "email" (drop_duplicates_notna "mobile" df)).
Proof.
  intros Hcsv. cbv zeta. rewrite drop_duplicates_rows.
  assert (Hsub : sublist (keep_first_from c [] (rows df)) (rows df))
    by apply keep_first_sublist.
  assert (Habs : ∀ rs : list Row,
            Forall (fun r : Row => get r c ≠ Str "") rs →
            filter (fun r : Row => absent (get r c) = true) rs
            = filter (fun r : Row => get r c = NaN) rs).
  { intros rs Hrs. induction Hrs as [|r rs Hr Hrs IH]; [done|].
    rewrite !filter_cons, IH.
    assert (Hiff : absent (get r c) = true ↔ get r c = NaN).
    { unfold absent. destruct (get r c) as [|x|n|t]; simpl; try done.
      rewrite bool_decide_eq_false_2 by congruence. done. }
    destruct (decide (absent (get r c) = true)) as [E|E],
      (decide (get r c = NaN)) as [E'|E']; try done; exfalso; tauto. }
  split; [done|]. split; [done|].
  split.
  { rewrite !Habs; [apply keep_first_missing|done|].
    rewrite Forall_forall in *. intros r Hin.
    apply Hcsv. by eapply elem_of_sublist. }
  split.
  { intros v Hv. rewrite keep_first_value; [done|].
    unfold absent in Hv. by destruct v. }
  split.
  { intros c' Hc'. rewrite Forall_forall in *. intros r Hin.
    apply Hc'. by eapply elem_of_sublist. }
  intros Hm He. unfold remove_duplicates. rewrite Hm.
  by rewrite has_column_drop_duplicates, He.
Qed.

Lemma drop_duplicates_fixed (c : string) (df : DataFrame) :
  fresh_keys c [] (rows df) → drop_duplicates_notna c df = df.
Proof.
  intros H. destruct df as [cols rs].
  unfold drop_duplicates_notna. simpl. f_equal.
  etrans; [apply select_keep_first|]. by apply fresh_keys_fixed.
Qed.

Lemma remove_duplicates_fresh (df : DataFrame) :
  (has_column df "mobile" = true →
   fresh_keys "mobile" [] (rows (remove_duplicates df)))
  ∧ (has_column df "email" = true →
     fresh_keys "email" [] (rows (remove_duplicates df))).
Proof.
  unfold remove_duplicates.
  destruct (has_column df "mobile") eqn:Hm.
  - rewrite has_column_drop_duplicates.
    destruct (has_column df "email") eqn:He.
    + split; intros _.
      * rewrite drop_duplicates_rows.
        eapply fresh_keys_sublist; [apply keep_first_sublist|].
        rewrite drop_duplicates_rows. apply keep_first_fresh.
      * rewrite drop_duplicates_rows. apply keep_first_fresh.
    + split; [intros _|done].
      rewrite drop_duplicates_rows. apply keep_first_fresh.
  - destruct (has_column df "email") eqn:He.
    + split; [done|intros _].
      rewrite drop_duplicates_rows. apply keep_first_fresh.
    + split; done.
Qed.

Lemma has_column_remove_duplicates (c : string) (df : DataFrame) :
  has_column (remove_duplicates df) c = has_column df c.
Proof.
  unfold remove_duplicates.
  destruct (has_column df "mobile"); simpl;
    rewrite ?has_column_drop_duplicates;
    by destruct (has_column df "email").
Qed.

(** C8: the removal of duplicates (the pass on [mobile], then the pass on
    [email]) applied to its own result changes nothing: no row is removed
    the second time. *)
Theorem remove_duplicates_idempotent (df : DataFrame) :
  remove_duplicates (remove_duplicates df) = remove_duplicates df
  ∧ length (rows (remove_duplicates (remove_duplicates df)))
    = length (rows (remove_duplicates df)).
Proof.
  assert (H : remove_duplicates (remove_duplicates df) = remove_duplicates df).
  { destruct (remove_duplicates_fresh df) as [Hm He].
    pose proof (has_column_remove_duplicates "mobile" df) as Cm.
    pose proof (has_column_remove_duplicates "email" df) as Ce.
    generalize dependent (remove_duplicates df). intros d Hm He Cm Ce.
    unfold remove_duplicates. rewrite Cm.
    destruct (has_column df "mobile").
    - rewrite (drop_duplicates_fixed "mobile" d) by auto.
      rewrite Ce. destruct (has_column df "email"); [|done].
      by rewrite (drop_duplicates_fixed "email" d) by auto.
    - rewrite Ce. destruct (has_column df "email"); [|done].
      by rewrite (drop_duplicates_fixed "email" d) by auto. }
  by rewrite H.
Qed.

(** *** The cleaning of the step name *)

Lemma string_drop_empty (n : nat) : string_drop n EmptyString = EmptyString.
Proof. by destruct n. Qed.

Lemma string_drop_length (n : nat) (s : string) :
  (String.length (string_drop n s) ≤ String.length s)%nat.
Proof.
  revert s. induction n as [|n IH]; intros [|c t]; simpl; try lia.
  specialize (IH t). lia.
Qed.

Lemma match_underscore (s : string) :
  Py.match_here [(Py.chr "_", Py.One)] s
  = if Py.startswith "_" s then Some 1%nat else None.
Proof.
  destruct s as [|c t]; [done|].
  cbn [Py.match_here Py.startswith]. unfold Py.chr.
  by destruct (Ascii.eqb "_" c), t.
Qed.

Lemma digits_then_underscore (s : string) :
  (0 < digits_prefix s)%nat → Py.startswith "_" s = false.
Proof.
  destruct s as [|c t]; cbn [digits_prefix Py.startswith]; [lia|].
  destruct (Py.is_digit c) eqn:D; [|lia]. intros _.
  destruct (Ascii.eqb_spec "_"%char c) as [<-|]; [by vm_compute in D|done].
Qed.

Lemma match_plus_cons (p : ascii -> bool) (re : Py.regex) (c : ascii) (t : string) :
  Py.match_here ((p, Py.Plus) :: re) (String c t)
  = if p c then
      match Py.match_here ((p, Py.Plus) :: re) t with
      | Some n => Some (S n)
      | None => S <$> Py.match_here re t
      end
    else None.
Proof. done. Qed.

Lemma match_one_cons (p : ascii -> bool) (re : Py.regex) (c : ascii) (t : string) :
  Py.match_here ((p, Py.One) :: re) (String c t)
  = if p c then S <$> Py.match_here re t else None.
Proof. done. Qed.

Lemma match_digits_underscore (s : string) :
  Py.match_here [(Py.is_digit, Py.Plus); (Py.chr "_", Py.One)] s
  = if (0 <? digits_prefix s)%nat
       && Py.startswith "_" (string_drop (digits_prefix s) s)
    then Some (digits_prefix s + 1)%nat else None.
Proof.
  induction s as [|c t IH]; [done|].
  rewrite match_plus_cons, IH, match_underscore.
  cbn [digits_prefix].
  destruct (Py.is_digit c) eqn:D; [|done].
  cbn [string_drop].
  destruct (digits_prefix t) as [|m] eqn:Hm.
  - cbn [string_drop]. by destruct (Py.startswith "_" t).
  - replace (0 <? S m)%nat with true by done.
    replace (0 <? S (S m))%nat with true by done.
    cbn [andb].
    destruct (Py.startswith "_" (string_drop (S m) t)); [done|].
    rewrite digits_then_underscore; [done|]. lia.
Qed.

(** The backtracking matcher finds the pattern [v\d+_] exactly where a
    version token stands. *)
Lemma match_version_token (s : string) :
  Py.match_here version_re s = version_token s.
Proof.
  destruct s as [|c t]; [done|].
  unfold version_re, version_token.
  rewrite match_one_cons. unfold Py.chr at 1.
  destruct (Ascii.eqb "v" c); [|done].
  rewrite match_digits_underscore.
  destruct (_ && _); simpl; [|done].
  f_equal. lia.
Qed.

Lemma sub_from_skip (re : Py.regex) (k : nat) (s : string) :
  Py.sub_from re "" k s = Py.sub_from re "" 0 (string_drop k s).
Proof.
  revert k. induction s as [|c t IH]; intros [|k]; try done.
  simpl. apply IH.
Qed.

Lemma replace_from_skip (old : string) (k : nat) (s : string) :
  Py.replace_from old "" k s = Py.replace_from old "" 0 (string_drop k s).
Proof.
  revert k. induction s as [|c t IH]; intros [|k]; try done.
  simpl. apply IH.
Qed.

(** [re.sub(re, '', s)] deletes the matches of [re], from left to right. *)
Lemma sub_deletes (re : Py.regex) (s : string) :
  deletes (Py.match_here re) s (Py.sub re "" s).
Proof.
  unfold Py.sub.
  remember (String.length s) as n eqn:Hn.
  assert (Hle : (String.length s ≤ n)%nat) by lia. clear Hn.
  revert s Hle. induction n as [|n IH]; intros [|c t] Hle; simpl in *;
    try lia; try constructor.
  destruct (Py.match_here re (String c t)) as [[|m]|] eqn:E.
  - constructor; [congruence|]. apply IH. lia.
  - apply (deletes_token _ _ _ _ m); [done|].
    rewrite sub_from_skip. apply IH.
    pose proof (string_drop_length m t). lia.
  - constructor; [congruence|]. apply IH. lia.
Qed.

(** [s.replace(old, '')] deletes the occurrences of a non-empty [old],
    from left to right. *)
Lemma replace_deletes (old s : string) :
  old ≠ EmptyString →
  deletes (literal_token old) s (Py.replace old "" s).
Proof.
  intros Hold. unfold Py.replace.
  remember (String.length s) as n eqn:Hn.
  assert (Hle : (String.length s ≤ n)%nat) by lia. clear Hn.
  revert s Hle. induction n as [|n IH]; intros [|c t] Hle; simpl in *;
    try lia; try constructor.
  destruct old as [|o old']; [done|].
  destruct (Py.startswith (String o old') (String c t)) eqn:E.
  - apply (deletes_token _ _ _ _ (String.length old')).
    + unfold literal_token. by rewrite E.
    + replace (String.length (String o old') - 1)%nat
        with (String.length old') by (simpl; lia).
      rewrite replace_from_skip. apply IH.
      pose proof (string_drop_length (String.length old') t). lia.
  - constructor; [|apply IH; lia].
    unfold literal_token. by rewrite E.
Qed.

Lemma deletes_functional (tok : string -> option nat) (s a b : string) :
  deletes tok s a → deletes tok s b → a = b.
Proof.
  intros Ha. revert b.
  induction Ha as [|c s out n Htok Ha IH|c s out Htok Ha IH]; intros b Hb;
    inversion Hb; subst; try done.
  - match goal with H : tok _ = Some (S ?m) |- _ =>
      assert (m = n) as -> by congruence end.
    by apply IH.
  - match goal with H : ∀ n, tok _ ≠ Some (S n) |- _ => by destruct (H n) end.
  - match goal with H : tok _ = Some (S ?m) |- _ => by destruct (Htok m) end.
  - f_equal. by apply IH.
Qed.

Lemma replace_underscores (s : string) :
  Py.replace "_" " " s = underscores_to_spaces s.
Proof.
  unfold Py.replace, underscores_to_spaces.
  induction s as [|c t IH]; [done|].
  cbn [Py.replace_from Py.map_chars Py.startswith String.length].
  rewrite (Ascii.eqb_sym c).
  destruct (Ascii.eqb "_" c); cbn [andb Nat.sub]; rewrite IH; done.
Qed.

Lemma deletes_ext (tok tok' : string -> option nat) (s a : string) :
  (∀ x, tok x = tok' x) → deletes tok s a → deletes tok' s a.
Proof.
  intros Hext H.
  induction H as [|c s out n Htok H IH|c s out Htok H IH].
  - constructor.
  - apply (deletes_token _ _ _ _ n); [by rewrite <- Hext|done].
  - constructor; [|done]. intros n. by rewrite <- Hext.
Qed.

(** C4, as the code has it: a missing or empty step code gives a missing
    name; for any other code the name is made by lower-casing the code,
    deleting every version token "v<digits>_" wherever it stands (from
    left to right), deleting every "_step" wherever it stands, replacing
    underscores with spaces and title-casing the result. *)
Theorem clean_step_name_deletes_everywhere (val : cell) :
  (isna val = true ∨ val = Str "" → clean_step_name val = NaN)
  ∧ (isna val = false → val ≠ Str "" →
     (∃ a b,
        deletes version_token (Py.lower (str val)) a
        ∧ deletes (literal_token "_step") a b
        ∧ clean_step_name val = Str (Py.title (underscores_to_spaces b)))
     ∧ (∀ a b,
        deletes version_token (Py.lower (str val)) a →
        deletes (literal_token "_step") a b →
        clean_step_name val = Str (Py.title (underscores_to_spaces b)))).
Proof.
  split.
  { intros [Hna| ->]; unfold clean_step_name; [by rewrite Hna|done]. }
  intros Hna Hne.
  assert (Hclean : clean_step_name val =
    Str (Py.title (underscores_to_spaces
           (Py.replace "_step" "" (Py.sub version_re "" (Py.lower (str val))))))).
  { unfold clean_step_name. rewrite Hna, bool_decide_eq_false_2 by done.
    simpl. by rewrite replace_underscores. }
  assert (Ha : deletes version_token (Py.lower (str val))
                 (Py.sub version_re "" (Py.lower (str val)))).
  { eapply deletes_ext; [apply match_version_token|apply sub_deletes]. }
  assert (Hb : deletes (literal_token "_step")
                 (Py.sub version_re "" (Py.lower (str val)))
                 (Py.replace "_step" ""
                    (Py.sub version_re "" (Py.lower (str val)))))
    by by apply replace_deletes.
  split; [by eauto|].
  intros a b Ha' Hb'.
  pose proof (deletes_functional _ _ _ _ Ha Ha'). subst a.
  pose proof (deletes_functional _ _ _ _ Hb Hb'). by subst b.
Qed.

(** *** Text *)

Ltac each_char c :=
  destruct c as [[|] [|] [|] [|] [|] [|] [|] [|]]; vm_compute; reflexivity.

Lemma lower_char_idem (c : ascii) : Py.lower_char (Py.lower_char c) = Py.lower_char c.
Proof. each_char c. Qed.

Lemma lower_upper_char (c : ascii) : Py.lower_char (Py.upper_char c) = Py.lower_char c.
Proof. each_char c. Qed.

Lemma is_space_lower_char (c : ascii) : Py.is_space (Py.lower_char c) = Py.is_space c.
Proof. each_char c. Qed.

Lemma is_upper_lower_char (c : ascii) : Py.is_upper (Py.lower_char c) = false.
Proof. each_char c. Qed.

Lemma map_chars_map_chars (f g : ascii -> ascii) (s : string) :
  Py.map_chars f (Py.map_chars g s) = Py.map_chars (fun c => f (g c)) s.
Proof. induction s as [|c t IH]; simpl; [done|]. by rewrite IH. Qed.

Lemma map_chars_ext (f g : ascii -> ascii) (s : string) :
  (∀ c, f c = g c) → Py.map_chars f s = Py.map_chars g s.
Proof. intros H. induction s as [|c t IH]; simpl; [done|]. by rewrite H, IH. Qed.

Lemma lower_idem (s : string) : Py.lower (Py.lower s) = Py.lower s.
Proof.
  unfold Py.lower. rewrite map_chars_map_chars.
  apply map_chars_ext, lower_char_idem.
Qed.

(** On ASCII text, upper-casing and then lower-casing is lower-casing. *)
Lemma lower_upper (s : string) :
  Py.isascii s = true → Py.lower (Py.upper s) = Py.lower s.
Proof.
  intros _. unfold Py.lower, Py.upper. rewrite map_chars_map_chars.
  apply map_chars_ext, lower_upper_char.
Qed.

Lemma all_chars_map_chars (p : ascii -> bool) (f : ascii -> ascii) (s : string) :
  all_chars p (Py.map_chars f s) = all_chars (fun c => p (f c)) s.
Proof. induction s as [|c t IH]; simpl; [done|]. by rewrite IH. Qed.

Lemma all_chars_ext (p q : ascii -> bool) (s : string) :
  (∀ c, p c = q c) → all_chars p s = all_chars q s.
Proof. intros H. induction s as [|c t IH]; simpl; [done|]. by rewrite H, IH. Qed.

Lemma all_chars_app (p : ascii -> bool) (s t : string) :
  all_chars p (s +:+ t) = all_chars p s && all_chars p t.
Proof. induction s as [|c s IH]; simpl; [done|]. by rewrite IH, andb_assoc. Qed.

Lemma blank_lower (s : string) :
  all_chars Py.is_space (Py.lower s) = all_chars Py.is_space s.
Proof.
  unfold Py.lower. rewrite all_chars_map_chars.
  apply all_chars_ext, is_space_lower_char.
Qed.

Lemma lstrip_blank (s : string) :
  all_chars Py.is_space s = true → Py.lstrip s = EmptyString.
Proof.
  induction s as [|c t IH]; simpl; [done|].
  intros [Hc Ht]%andb_true_iff. rewrite Hc. by apply IH.
Qed.

Lemma rstrip_blank (s : string) :
  String.eqb (Py.rstrip s) EmptyString = all_chars Py.is_space s.
Proof.
  induction s as [|c t IH]; simpl; [done|].
  rewrite <- IH.
  destruct (Py.is_space c); simpl; [|done].
  by destruct (String.eqb (Py.rstrip t) "").
Qed.

Lemma lstrip_all_chars (p : ascii -> bool) (s : string) :
  all_chars p s = true → all_chars p (Py.lstrip s) = true.
Proof.
  induction s as [|c t IH]; simpl; [done|].
  intros H. destruct (Py.is_space c); [|done].
  apply andb_true_iff in H as [_ H]. by apply IH.
Qed.

Lemma lstrip_not_blank (s : string) :
  all_chars Py.is_space s = false → all_chars Py.is_space (Py.lstrip s) = false.
Proof.
  induction s as [|c t IH]; simpl; [done|].
  destruct (Py.is_space c) eqn:E; simpl; [done|]. by rewrite E.
Qed.

(** A text strips to the empty text exactly when it is blank. *)
Lemma strip_blank (s : string) :
  String.eqb (Py.strip s) EmptyString = all_chars Py.is_space s.
Proof.
  unfold Py.strip. rewrite rstrip_blank.
  destruct (all_chars Py.is_space s) eqn:E.
  - by rewrite lstrip_blank.
  - by apply lstrip_not_blank.
Qed.

Lemma lstrip_starts_clean (s : string) : starts_clean (Py.lstrip s) = true.
Proof.
  induction s as [|c t IH]; simpl; [done|].
  destruct (Py.is_space c) eqn:E; [done|]. simpl. by rewrite E.
Qed.

Lemma lstrip_fixed (s : string) : starts_clean s = true → Py.lstrip s = s.
Proof.
  destruct s as [|c t]; simpl; [done|].
  by destruct (Py.is_space c).
Qed.

Lemma rstrip_starts_clean (s : string) :
  starts_clean s = true → starts_clean (Py.rstrip s) = true.
Proof.
  destruct s as [|c t]; simpl; [done|].
  intros H. by destruct (Py.is_space c && String.eqb (Py.rstrip t) "").
Qed.

Lemma rstrip_idem (s : string) : Py.rstrip (Py.rstrip s) = Py.rstrip s.
Proof.
  induction s as [|c t IH]; simpl; [done|].
  destruct (Py.is_space c && String.eqb (Py.rstrip t) "") eqn:E; [done|].
  simpl. by rewrite IH, E.
Qed.

Lemma strip_idem (s : string) : Py.strip (Py.strip s) = Py.strip s.
Proof.
  unfold Py.strip.
  rewrite (lstrip_fixed (Py.rstrip (Py.lstrip s))).
  - apply rstrip_idem.
  - apply rstrip_starts_clean, lstrip_starts_clean.
Qed.

Lemma lstrip_lower (s : string) : Py.lstrip (Py.lower s) = Py.lower (Py.lstrip s).
Proof.
  induction s as [|c t IH]; simpl; [done|].
  rewrite is_space_lower_char. by destruct (Py.is_space c).
Qed.

Lemma eqb_map_chars_empty (f : ascii -> ascii) (s : string) :
  String.eqb (Py.map_chars f s) EmptyString = String.eqb s EmptyString.
Proof. by destruct s. Qed.

Lemma rstrip_lower (s : string) : Py.rstrip (Py.lower s) = Py.lower (Py.rstrip s).
Proof.
  unfold Py.lower. induction s as [|c t IH]; simpl; [done|].
  rewrite is_space_lower_char, IH, eqb_map_chars_empty.
  by destruct (Py.is_space c && String.eqb (Py.rstrip t) "").
Qed.

Lemma strip_lower (s : string) : Py.strip (Py.lower s) = Py.lower (Py.strip s).
Proof. unfold Py.strip. by rewrite lstrip_lower, rstrip_lower. Qed.

Lemma startswith_blank (a : ascii) (n h : string) :
  Py.is_space a = false → all_chars Py.is_space h = true →
  Py.startswith (String a n) h = false.
Proof.
  intros Ha. destruct h as [|c t]; simpl; [done|].
  intros [Hc _]%andb_true_iff.
  destruct (Ascii.eqb_spec a c) as [->|]; [congruence|done].
Qed.

(** A blank text holds no text that starts with a character other than a
    blank. *)
Lemma contains_blank (a : ascii) (n h : string) :
  Py.is_space a = false → all_chars Py.is_space h = true →
  Py.contains (String a n) h = false.
Proof.
  intros Ha. induction h as [|c t IH]; intros Hh.
  - done.
  - cbn [Py.contains]. rewrite startswith_blank by done.
    apply andb_true_iff in Hh as [_ Ht]. by apply IH.
Qed.

(** *** The URL tests *)

Lemma any_in_blank (xs : list string) (h : string) :
  Forall (fun x => match x with
                   | String a _ => Py.is_space a = false
                   | EmptyString => False
                   end) xs →
  all_chars Py.is_space h = true →
  Py.any_in xs h = false.
Proof.
  intros Hxs Hh. unfold Py.any_in.
  induction Hxs as [|x xs Hx _ IH]; simpl; [done|].
  rewrite IH, orb_false_r.
  destruct x as [|a n]; [done|]. by apply contains_blank.
Qed.

Lemma url_test_guard (xs : list string) (url : cell) :
  Forall (fun x => match x with
                   | String a _ => Py.is_space a = false
                   | EmptyString => False
                   end) xs →
  (if isna url || String.eqb (Py.strip (str url)) ""
   then false else Py.any_in xs (Py.lower (str url)))
  = notna url && Py.any_in xs (Py.lower (str url)).
Proof.
  intros Hxs. unfold notna. destruct (isna url); simpl; [done|].
  rewrite strip_blank.
  destruct (all_chars Py.is_space (str url)) eqn:E; [|done].
  rewrite any_in_blank; [done|done|]. by rewrite blank_lower.
Qed.

Lemma is_google_maps_url_lower (url : cell) :
  is_google_maps_url url
  = notna url && Py.any_in maps_indicators (Py.lower (str url)).
Proof. apply url_test_guard. by repeat constructor. Qed.

Lemma is_social_media_url_lower (url : cell) :
  is_social_media_url url
  = notna url && Py.any_in social_domains (Py.lower (str url)).
Proof. apply url_test_guard. by repeat constructor. Qed.

Lemma is_ecommerce_url_lower (url : cell) :
  is_ecommerce_url url
  = notna url && Py.any_in ecommerce_domains (Py.lower (str url)).
Proof. apply url_test_guard. by repeat constructor. Qed.

(** The three URL tests depend on the lower-cased text alone: the test for
    a blank value never changes the answer (a blank text holds none of the
    domains), and the answer is the same for an ASCII text and for its
    upper-case form.  A value whose text holds "maps.google" in any case
    reads as a maps URL, whatever else it holds. *)
Theorem url_tests_ignore_case (url : cell) :
  is_google_maps_url url
  = notna url && Py.any_in maps_indicators (Py.lower (str url))
  ∧ is_social_media_url url
    = notna url && Py.any_in social_domains (Py.lower (str url))
  ∧ is_ecommerce_url url
    = notna url && Py.any_in ecommerce_domains (Py.lower (str url))
  ∧ (∀ s : string,
       Py.isascii s = true →
       is_google_maps_url (Str (Py.upper s)) = is_google_maps_url (Str s)
       ∧ is_social_media_url (Str (Py.upper s)) = is_social_media_url (Str s)
       ∧ is_ecommerce_url (Str (Py.upper s)) = is_ecommerce_url (Str s))
  ∧ (notna url = true →
     Py.contains "maps.google" (Py.lower (str url)) = true →
     classify url = maps).
Proof.
  split; [apply is_google_maps_url_lower|].
  split; [apply is_social_media_url_lower|].
  split; [apply is_ecommerce_url_lower|]. split.
  - intros s Hs.
    rewrite !is_google_maps_url_lower, !is_social_media_url_lower,
      !is_ecommerce_url_lower.
    simpl. by rewrite lower_upper.
  - intros Hn Hc. unfold classify.
    rewrite is_google_maps_url_lower, Hn. simpl.
    unfold Py.any_in, maps_indicators. simpl. by rewrite Hc.
Qed.

(** *** The migration, again *)

Lemma migrate_row_idem (row : Row) :
  migrate_row (migrate_row row) = migrate_row row.
Proof.
  rewrite (migrate_row_unfold (migrate_row row)). cbv zeta.
  assert (H : classify (get (migrate_row row) website_col) = none).
  { rewrite migrate_row_website.
    destruct (classify (get row website_col)) eqn:E; try apply classify_NaN. done. }
  apply classify_none in H as (H1 & H2 & H3).
  by rewrite H1, H2, H3.
Qed.

Lemma ensure_column_present (df : DataFrame) (c : string) :
  has_column df c = true → ensure_column df c = df.
Proof. intros H. unfold ensure_column. by rewrite H. Qed.

Lemma has_column_migrate (df : DataFrame) (c : string) :
  has_column (migrate df) c
  = bool_decide (c = ecommerce_col) || bool_decide (c = social_col)
    || bool_decide (c = map_col) || bool_decide (c = website_col)
    || has_column df c.
Proof.
  unfold migrate.
  change (has_column {| columns := columns ?d; rows := ?r |} c)
    with (has_column d c).
  rewrite !has_column_ensure. by rewrite !orb_assoc.
Qed.

(** Migrating twice is migrating once: the second run finds no website
    value to move, so nothing is appended a second time. *)
Theorem migrate_idempotent (df : DataFrame) :
  migrate (migrate df) = migrate df
  ∧ length (rows (migrate df)) = length (rows df)
  ∧ (∀ row : Row, migrate_row (migrate_row row) = migrate_row row).
Proof.
  split; [|split; [|apply migrate_row_idem]].
  - assert (Hc : ∀ c, c ∈ [website_col; map_col; social_col; ecommerce_col] →
                      has_column (migrate df) c = true).
    { intros c Hc. rewrite has_column_migrate.
      repeat (apply elem_of_cons in Hc as [->|Hc]; [by rewrite ?orb_true_r|]).
      by apply elem_of_nil in Hc. }
    unfold migrate at 1.
    rewrite (ensure_column_present (migrate df) website_col)
      by (apply Hc; rewrite !elem_of_cons; tauto).
    rewrite (ensure_column_present (migrate df) map_col)
      by (apply Hc; rewrite !elem_of_cons; tauto).
    rewrite (ensure_column_present (migrate df) social_col)
      by (apply Hc; rewrite !elem_of_cons; tauto).
    rewrite (ensure_column_present (migrate df) ecommerce_col)
      by (apply Hc; rewrite !elem_of_cons; tauto).
    destruct (migrate df) as [cols rs] eqn:E. simpl.
    f_equal. rewrite migrate_loop_rows.
    assert (Hrs : rs = rows (migrate df)) by by rewrite E.
    destruct (migrate_rows df) as (df0 & Hrows & _).
    rewrite Hrs, Hrows, <- list_fmap_compose.
    apply list_fmap_ext. intros _ r _. apply migrate_row_idem.
  - destruct (migrate_rows df) as (df0 & Hrows & Hlen).
    by rewrite Hrows, length_fmap.
Qed.

(** *** The presence flags *)

Lemma rows_assign_column (df : DataFrame) (c c0 : string) (g : cell -> cell) :
  rows (assign df c (g <$> column df c0))
  = (fun r : Row => <[c := g (get r c0)]> r) <$> rows df.
Proof.
  unfold assign, column; simpl.
  rewrite <- list_fmap_compose, zip_with_fmap_r, zip_with_diag. done.
Qed.

Lemma add_presence_flags_rows (df : DataFrame) :
  rows (add_presence_flags df)
  = presence_row (has_column df "converted_date") <$> rows df.
Proof.
  unfold add_presence_flags.
  rewrite !rows_assign_column.
  destruct (has_column df "converted_date").
  - rewrite rows_assign_column, <- !list_fmap_compose. done.
  - unfold assign_scalar; simpl. rewrite <- !list_fmap_compose. done.
Qed.

(** [create_flag] and the emptiness test of the migration loop are each
    other's negation. *)
Lemma create_flag_is_empty (v : cell) :
  create_flag v = if is_empty v then 0 else 1.
Proof.
  unfold create_flag, is_empty, notna.
  by destruct (isna v), (String.eqb (Py.strip (str v)) ""),
    (String.eqb (Py.lower (str v)) "nan").
Qed.

Lemma url_not_empty (xs : list string) (url : cell) :
  Forall (fun x => match x with
                   | String a _ => Py.is_space a = false
                   | EmptyString => False
                   end) xs →
  Py.any_in xs "nan" = false →
  notna url && Py.any_in xs (Py.lower (str url)) = true →
  is_empty url = false.
Proof.
  intros Hxs Hnan [Hn Hany]%andb_true_iff.
  unfold is_empty. unfold notna in Hn. apply negb_true_iff in Hn. rewrite Hn.
  simpl. rewrite strip_blank.
  destruct (all_chars Py.is_space (str url)) eqn:E.
  { rewrite any_in_blank in Hany; [done|done|]. by rewrite blank_lower. }
  simpl. destruct (String.eqb_spec (Py.lower (str url)) "nan") as [Heq|]; [|done].
  rewrite Heq in Hany. congruence.
Qed.

Lemma bar_lower_char (c : ascii) :
  Ascii.eqb (Py.lower_char c) "|" = Ascii.eqb c "|".
Proof. each_char c. Qed.

Lemma appended_not_empty (a b : string) :
  is_empty (Str (a +:+ " | " +:+ b)) = false.
Proof.
  unfold is_empty. cbn [isna str orb].
  rewrite strip_blank, all_chars_app. cbn [all_chars append].
  replace (Py.is_space "|") with false by done.
  rewrite !andb_false_r. simpl orb.
  destruct (String.eqb_spec (Py.lower (a +:+ " | " +:+ b)) "nan") as [Heq|]; [|done].
  assert (H : all_chars (fun c => negb (Ascii.eqb c "|"))
                (Py.lower (a +:+ " | " +:+ b)) = true) by by rewrite Heq.
  unfold Py.lower in H. rewrite all_chars_map_chars in H.
  rewrite (all_chars_ext _ (fun c => negb (Ascii.eqb c "|"))) in H
    by (intros c; by rewrite bar_lower_char).
  rewrite all_chars_app in H. cbn [all_chars append] in H.
  replace (Ascii.eqb "|" "|") with true in H by done.
  simpl in H. by rewrite !andb_false_r in H.
Qed.

(** After the migration of a row: the website flag is 0 when the website
    was a maps, social or ecommerce URL; the flag of the field the URL was
    tested for is 1, whether the field was set, appended to or, for
    [google_map_id], left as it was. *)
Theorem flags_after_migration (row : Row) :
  let site := get row website_col in
  let row' := migrate_row row in
  (∀ v : cell, create_flag v = if is_empty v then 0 else 1)
  ∧ (classify site ≠ none → create_flag (get row' website_col) = 0)
  ∧ (create_flag (get row' website_col) = 1 →
     classify (get row' website_col) = none
     ∧ get row' website_col = site)
  ∧ (is_google_maps_url site = true → create_flag (get row' map_col) = 1)
  ∧ (is_google_maps_url site = false → is_social_media_url site = true →
     create_flag (get row' social_col) = 1)
  ∧ (is_google_maps_url site = false → is_ecommerce_url site = true →
     create_flag (get row' ecommerce_col) = 1).
Proof.
  cbv zeta.
  split; [apply create_flag_is_empty|].
  assert (Hmaps : is_google_maps_url (get row website_col) = true →
                  is_empty (get row website_col) = false).
  { rewrite is_google_maps_url_lower. apply url_not_empty; [|done].
    by repeat constructor. }
  assert (Hsoc : is_social_media_url (get row website_col) = true →
                 is_empty (get row website_col) = false).
  { rewrite is_social_media_url_lower. apply url_not_empty; [|done].
    by repeat constructor. }
  assert (Hec : is_ecommerce_url (get row website_col) = true →
                is_empty (get row website_col) = false).
  { rewrite is_ecommerce_url_lower. apply url_not_empty; [|done].
    by repeat constructor. }
  split; [|split; [|split; [|split]]].
  - intros Hc. rewrite migrate_row_website.
    by destruct (classify (get row website_col)).
  - rewrite migrate_row_website.
    by destruct (classify (get row website_col)) eqn:E.
  - intros H. rewrite migrate_row_unfold. cbv zeta. rewrite H.
    rewrite create_flag_is_empty, (get_insert_ne _ website_col) by done.
    destruct (is_empty (get row map_col)) eqn:Em.
    + by rewrite get_insert_eq, Hmaps.
    + by rewrite Em.
  - intros Hm H. rewrite migrate_row_unfold. cbv zeta. rewrite Hm, H.
    rewrite create_flag_is_empty.
    assert (Hnew : is_empty
              (if is_empty (get row social_col) then get row website_col
               else Str (str (get row social_col) +:+ " | "
                         +:+ str (get row website_col))) = false).
    { destruct (is_empty (get row social_col));
        [by apply Hsoc|apply appended_not_empty]. }
    destruct (is_ecommerce_url _);
      rewrite ?(get_insert_ne _ website_col), ?(get_insert_ne _ ecommerce_col) by done;
      rewrite ?(get_insert_ne _ website_col) by done;
      by rewrite get_insert_eq, Hnew.
  - intros Hm H. rewrite migrate_row_unfold. cbv zeta. rewrite Hm, H.
    rewrite create_flag_is_empty, (get_insert_ne _ website_col) by done.
    rewrite get_insert_eq.
    destruct (is_empty (get row ecommerce_col));
      [by rewrite Hec|by rewrite appended_not_empty].
Qed.

(** In the frame after migration and flagging, each presence flag of a
    row is computed from the field of that row as the migration left it,
    and [has_website] is 1 only where the website is not a maps, social or
    ecommerce URL. *)
Theorem presence_flags_of_migrated_frame (df : DataFrame) (i : nat) (row' : Row) :
  rows (add_presence_flags (migrate df)) !! i = Some row' →
  get row' "has_website" = Int (create_flag (get row' website_col))
  ∧ get row' "has_maps" = Int (create_flag (get row' map_col))
  ∧ get row' "has_social_media" = Int (create_flag (get row' social_col))
  ∧ get row' "has_ecommerce" = Int (create_flag (get row' ecommerce_col))
  ∧ (get row' "has_website" = Int 1 → classify (get row' website_col) = none)
  ∧ length (rows (add_presence_flags (migrate df))) = length (rows df).
Proof.
  rewrite add_presence_flags_rows, list_lookup_fmap.
  destruct (migrate_rows df) as (df0 & Hrows & Hlen).
  rewrite Hrows, list_lookup_fmap.
  destruct (rows df0 !! i) as [r|] eqn:Hr; [|done]. simpl.
  intros [= <-].
  assert (Hw : ∀ b, get (presence_row b (migrate_row r)) website_col
                    = get (migrate_row r) website_col).
  { intros b. unfold presence_row. cbv zeta. by rewrite !get_insert_ne by done. }
  assert (Hm : ∀ b, get (presence_row b (migrate_row r)) map_col
                    = get (migrate_row r) map_col).
  { intros b. unfold presence_row. cbv zeta. by rewrite !get_insert_ne by done. }
  assert (Hs : ∀ b, get (presence_row b (migrate_row r)) social_col
                    = get (migrate_row r) social_col).
  { intros b. unfold presence_row. cbv zeta. by rewrite !get_insert_ne by done. }
  assert (He : ∀ b, get (presence_row b (migrate_row r)) ecommerce_col
                    = get (migrate_row r) ecommerce_col).
  { intros b. unfold presence_row. cbv zeta. by rewrite !get_insert_ne by done. }
  rewrite Hw, Hm, Hs, He.
  assert (Hfw : ∀ b, get (presence_row b (migrate_row r)) "has_website"
                     = Int (create_flag (get (migrate_row r) website_col))).
  { intros b. unfold presence_row. cbv zeta.
    rewrite !(get_insert_ne _ _ "has_website") by done.
    rewrite get_insert_eq. by rewrite get_insert_ne by done. }
  rewrite Hfw.
  repeat split.
  - unfold presence_row. cbv zeta.
    rewrite !(get_insert_ne _ _ "has_maps") by done.
    rewrite get_insert_eq. by rewrite !get_insert_ne by done.
  - unfold presence_row. cbv zeta.
    rewrite !(get_insert_ne _ _ "has_social_media") by done.
    rewrite get_insert_eq. by rewrite !get_insert_ne by done.
  - unfold presence_row. cbv zeta.
    rewrite get_insert_eq. by rewrite !get_insert_ne by done.
  - intros _. rewrite migrate_row_website.
    destruct (classify (get r website_col)) eqn:E; try apply classify_NaN. done.
  - by rewrite !length_fmap.
Qed.

(** *** The removal of duplicates, again *)

Lemma fresh_keys_NoDup (c : string) (seen : list cell) (rs : list Row) :
  fresh_keys c seen rs →
  NoDup (filter (fun k : cell => k ≠ NaN) ((fun r : Row => get r c) <$> rs))
  ∧ ∀ k, k ∈ filter (fun k : cell => k ≠ NaN) ((fun r : Row => get r c) <$> rs) →
         k ∉ seen.
Proof.
  revert seen. induction rs as [|r rs IH]; intros seen; simpl.
  { intros _. split; [constructor|]. intros k Hk. by apply elem_of_nil in Hk. }
  intros [H1 H2]. destruct (IH _ H2) as [Hnd Hout].
  rewrite filter_cons. destruct (decide (get r c ≠ NaN)) as [Hk|Hk].
  - split.
    + constructor; [|done]. intros Hin. apply (Hout _ Hin). by left.
    + intros k [->|Hin]%elem_of_cons.
      * apply H1. by destruct (get r c).
      * intros Hs. apply (Hout _ Hin). by right.
  - split; [done|]. intros k Hin Hs. apply (Hout _ Hin). by right.
Qed.

Lemma keep_first_keeps (c : string) (P : Row -> Prop) `{∀ r, Decision (P r)}
    (seen : list cell) (rs : list Row) :
  (∀ r, P r → get r c = NaN) →
  filter P (keep_first_from c seen rs) = filter P rs.
Proof.
  intros HP. revert seen. induction rs as [|r rs IH]; intros seen; simpl; [done|].
  rewrite (filter_cons _ r rs).
  destruct (decide (P r)) as [Hr|Hr].
  - rewrite (HP r Hr). simpl. rewrite andb_false_r.
    rewrite filter_cons, decide_True by done. f_equal.
    rewrite <- (HP r Hr). apply IH.
  - destruct (bool_decide _ && notna _).
    + apply IH.
    + rewrite filter_cons, decide_False by done. apply IH.
Qed.

Lemma remove_duplicates_rows (df : DataFrame) :
  rows (remove_duplicates df)
  = (if has_column df "email" then keep_first_from "email" [] else id)
      ((if has_column df "mobile" then keep_first_from "mobile" [] else id)
         (rows df)).
Proof.
  unfold remove_duplicates.
  cbv zeta. destruct (has_column df "mobile").
  - rewrite has_column_drop_duplicates.
    destruct (has_column df "email"); by rewrite ?drop_duplicates_rows.
  - destruct (has_column df "email"); by rewrite ?drop_duplicates_rows.
Qed.

(** After the removal of duplicates no two rows share a mobile that is not
    missing, and no two share an email that is not missing; the rows left
    are rows of the input in their order, and every row whose mobile and
    email are both missing is among them. *)
Theorem remove_duplicates_distinct (df : DataFrame) :
  (has_column df "mobile" = true →
   NoDup (filter (fun k : cell => k ≠ NaN) (column (remove_duplicates df) "mobile")))
  ∧ (has_column df "email" = true →
     NoDup (filter (fun k : cell => k ≠ NaN) (column (remove_duplicates df) "email")))
  ∧ sublist (rows (remove_duplicates df)) (rows df)
  ∧ (length (rows (remove_duplicates df)) ≤ length (rows df))%nat
  ∧ filter (fun r : Row => get r "mobile" = NaN ∧ get r "email" = NaN)
      (rows (remove_duplicates df))
    = filter (fun r : Row => get r "mobile" = NaN ∧ get r "email" = NaN)
        (rows df).
Proof.
  destruct (remove_duplicates_fresh df) as [Hm He].
  assert (Hsub : sublist (rows (remove_duplicates df)) (rows df)).
  { rewrite remove_duplicates_rows.
    destruct (has_column df "email"), (has_column df "mobile"); simpl;
      try done; try apply keep_first_sublist.
    etrans; apply keep_first_sublist. }
  split; [|split; [|split; [done|split; [by apply sublist_length|]]]].
  - intros H. by apply (fresh_keys_NoDup "mobile" []), Hm.
  - intros H. by apply (fresh_keys_NoDup "email" []), He.
  - rewrite remove_duplicates_rows.
    destruct (has_column df "email"), (has_column df "mobile"); simpl; try done.
    + rewrite (keep_first_keeps "email") by tauto.
      by rewrite (keep_first_keeps "mobile") by tauto.
    + by rewrite (keep_first_keeps "email") by tauto.
    + by rewrite (keep_first_keeps "mobile") by tauto.
Qed.

(** *** The step flags of a frame *)

Lemma add_step_flags_none (cfgs : list (string * list string)) :
  foldl (fun (acc : option DataFrame) (cfg : string * list string) =>
           df ← acc;
           if has_column df "onboarding_step"
           then Some (assign df cfg.1
                        ((fun x => Int (check_step x cfg.2))
                           <$> column df "onboarding_step"))
           else None)
    None cfgs = None.
Proof. by induction cfgs. Qed.

Lemma add_step_flags_from (cfgs : list (string * list string)) (df : DataFrame) :
  has_column df "onboarding_step" = true →
  ∃ df',
    foldl (fun (acc : option DataFrame) (cfg : string * list string) =>
             df ← acc;
             if has_column df "onboarding_step"
             then Some (assign df cfg.1
                          ((fun x => Int (check_step x cfg.2))
                             <$> column df "onboarding_step"))
             else None)
      (Some df) cfgs = Some df'
    ∧ rows df' =
        (fun r : Row =>
           foldl (fun r (cfg : string * list string) =>
                    <[cfg.1 := Int (check_step (get r "onboarding_step") cfg.2)]> r)
             r cfgs) <$> rows df
    ∧ ∀ c, has_column df' c = bool_decide (c ∈ cfgs.*1) || has_column df c.
Proof.
  revert df. induction cfgs as [|cfg cfgs IH]; intros df Hcol.
  { exists df. split; [done|]. split; [by rewrite list_fmap_id|done]. }
  cbn [foldl]. simpl mbind. rewrite Hcol.
  destruct (IH (assign df cfg.1
                  ((fun x => Int (check_step x cfg.2))
                     <$> column df "onboarding_step"))) as (df' & Hf & Hr & Hc).
  { by rewrite has_column_assign, Hcol, orb_true_r. }
  exists df'. split; [done|]. split.
  - rewrite Hr, rows_assign_column, <- list_fmap_compose. done.
  - intros c. rewrite Hc, has_column_assign, orb_assoc. f_equal.
    cbn [fmap list_fmap].
    apply eq_true_iff_eq.
    rewrite orb_true_iff, !bool_decide_eq_true, elem_of_cons. tauto.
Qed.

Lemma add_step_flags_rows (df : DataFrame) :
  has_column df "onboarding_step" = true →
  ∃ df',
    add_step_flags df = Some df'
    ∧ rows df' = step_flag_row <$> rows df
    ∧ ∀ c, has_column df' c = bool_decide (c ∈ step_config.*1) || has_column df c.
Proof. intros H. by apply add_step_flags_from. Qed.

Lemma step_flag_fold_get (cfgs : list (string * list string)) (r : Row) :
  Forall (fun cfg : string * list string => cfg.1 ≠ "onboarding_step") cfgs →
  NoDup cfgs.*1 →
  (∀ cfg, cfg ∈ cfgs →
     get (foldl (fun r (cfg : string * list string) =>
                   <[cfg.1 := Int (check_step (get r "onboarding_step") cfg.2)]> r)
            r cfgs) cfg.1
     = Int (check_step (get r "onboarding_step") cfg.2))
  ∧ (∀ c, c ∉ cfgs.*1 →
       get (foldl (fun r (cfg : string * list string) =>
                     <[cfg.1 := Int (check_step (get r "onboarding_step") cfg.2)]> r)
              r cfgs) c
       = get r c).
Proof.
  intros Hne. revert r. induction Hne as [|cfg cfgs Hcfg Hne IH]; intros r Hnd.
  { split; [intros cfg Hin; by apply elem_of_nil in Hin|done]. }
  rewrite fmap_cons in Hnd. apply NoDup_cons in Hnd as [Hnin Hnd].
  cbn [foldl].
  destruct (IH (<[cfg.1 := Int (check_step (get r "onboarding_step") cfg.2)]> r) Hnd)
    as [IH1 IH2].
  split.
  - intros cfg' [->|Hin]%elem_of_cons.
    + rewrite IH2 by done. apply get_insert_eq.
    + rewrite IH1 by done. by rewrite get_insert_ne.
  - intros c Hc. rewrite fmap_cons in Hc. apply not_elem_of_cons in Hc as [Hc1 Hc2].
    rewrite IH2 by done. by rewrite get_insert_ne.
Qed.

Lemma step_config_names :
  Forall (fun cfg : string * list string => cfg.1 ≠ "onboarding_step") step_config
  ∧ NoDup step_config.*1.
Proof.
  split; [by repeat constructor|].
  unfold step_config. simpl.
  repeat (apply NoDup_cons; split;
          [rewrite ?elem_of_cons, elem_of_nil; intros H; by intuition|]).
  constructor.
Qed.

(** The nine flag columns of a frame: the loop fails exactly when the
    frame has no [onboarding_step] column; otherwise each row gets, under
    the name of each flag, the flag of its own step code, at most one of
    the nine being 1, and every other field of the row is left as it
    was. *)
Theorem step_flags_of_frame (df : DataFrame) :
  (has_column df "onboarding_step" = false → add_step_flags df = None)
  ∧ (has_column df "onboarding_step" = true →
     ∃ df',
       add_step_flags df = Some df'
       ∧ length (rows df') = length (rows df)
       ∧ ∀ i row row',
           rows df !! i = Some row → rows df' !! i = Some row' →
           (∀ cfg, cfg ∈ step_config →
              get row' cfg.1 = Int (check_step (get row "onboarding_step") cfg.2))
           ∧ (∀ c, c ∉ step_config.*1 → get row' c = get row c)
           ∧ (∃ k, ∀ j cfg, step_config !! j = Some cfg →
                get row' cfg.1 = Int (if bool_decide (Some j = k) then 1 else 0))).
Proof.
  split.
  - intros H. unfold add_step_flags, step_config.
    cbn [foldl]. simpl mbind. by rewrite H.
  - intros H. destruct (add_step_flags_rows df H) as (df' & Hf & Hr & _).
    exists df'. split; [done|]. split; [by rewrite Hr, length_fmap|].
    intros i row row' Hrow Hrow'.
    rewrite Hr, list_lookup_fmap, Hrow in Hrow'. simplify_eq/=.
    destruct step_config_names as [Hne Hnd].
    destruct (step_flag_fold_get step_config row Hne Hnd) as [H1 H2].
    split; [apply H1|]. split; [apply H2|].
    destruct (step_flags_one_hot (get row "onboarding_step")) as [k Hk].
    exists k. intros j cfg Hj.
    unfold step_flag_row. rewrite H1 by by eapply list_elem_of_lookup_2.
    assert (Hl : step_flags (get row "onboarding_step") !! j =
                 flags_with k !! j) by by rewrite Hk.
    unfold step_flags, flags_with in Hl.
    rewrite list_lookup_fmap, list_lookup_imap, Hj in Hl. simpl in Hl.
    injection Hl as Hl. by rewrite Hl.
Qed.

(** *** The blacklist rule on a frame, and the filter *)

Lemma blacklist_row_other (row : Row) (c0 : cell) (c : string) :
  c ∉ ["created_date"; "blacklist_status"; "blacklist_parsed"] →
  get (blacklist_row row c0) c = get row c.
Proof.
  rewrite !not_elem_of_cons. intros (H1 & H2 & H3 & _).
  unfold blacklist_row. cbv zeta.
  destruct (_ || _); by rewrite !get_insert_ne by done.
Qed.

Lemma blacklist_rows_other (rs : list Row) (cs : list cell) (c : string) :
  c ∉ ["created_date"; "blacklist_status"; "blacklist_parsed"] →
  length cs = length rs →
  (fun r : Row => get r c) <$> zip_with blacklist_row rs cs
  = (fun r : Row => get r c) <$> rs.
Proof.
  intros Hc. revert cs.
  induction rs as [|r rs IH]; intros [|c0 cs] Hlen; simpl in *; try done.
  rewrite blacklist_row_other by done. f_equal. apply IH. lia.
Qed.

Lemma to_datetime_cells (col : list cell) :
  Forall (fun v => v = NaN ∨ ∃ t, v = Timestamp t) (to_datetime col).
Proof.
  unfold to_datetime. apply Forall_fmap, Forall_true. intros v. simpl.
  destruct (isna v); [by left|].
  destruct (parse_datetime col v); [right; by eexists|by left].
Qed.

(** The blacklist step fails exactly when the frame lacks [created_date]
    or [blacklist_raw] (a [KeyError]), or has creation dates that are
    timezone-aware (a [TypeError]: the cutoff is naive).  Otherwise it
    keeps the number of rows, changes no column other than
    [created_date], [blacklist_status] and [blacklist_parsed], leaves a
    status that is 0 or 1 in every row and a creation date that is
    missing or a timestamp. *)
Theorem apply_blacklist_logic_frame (df : DataFrame) :
  (apply_blacklist_logic df = None ↔
   has_column df "created_date" = false ∨ has_column df "blacklist_raw" = false
   ∨ tz_aware (column df "created_date") = true)
  ∧ (∀ df', apply_blacklist_logic df = Some df' →
       length (rows df') = length (rows df)
       ∧ (∀ c, c ∉ ["created_date"; "blacklist_status"; "blacklist_parsed"] →
            column df' c = column df c)
       ∧ Forall (fun v => v = Int 0 ∨ v = Int 1) (column df' "blacklist_status")
       ∧ Forall (fun v => v = NaN ∨ ∃ t, v = Timestamp t)
           (column df' "created_date")).
Proof.
  split.
  { split; [|apply apply_blacklist_logic_raises].
    intros Hn.
    destruct (has_column df "created_date") eqn:Hc; [|by left].
    destruct (has_column df "blacklist_raw") eqn:Hr; [|by right; left].
    destruct (tz_aware (column df "created_date")) eqn:Hz; [by right; right|].
    destruct (apply_blacklist_logic_rows df Hc Hr Hz) as [cols Happ]. congruence. }
  intros df' H.
  destruct (apply_blacklist_logic_returns _ _ H) as (Hc & Hr & Hz).
  destruct (apply_blacklist_logic_rows df Hc Hr Hz) as [cols Happ].
  assert (Hlen : length (to_datetime (column df "created_date")) = length (rows df))
    by by rewrite to_datetime_length, column_length.
  rewrite Happ in H. injection H as <-.
  split; [simpl; rewrite length_zip_with; lia|].
  split; [intros c Hcn; by apply blacklist_rows_other|].
  split.
  - unfold column. simpl. apply Forall_fmap, Forall_forall. intros r Hin.
    apply list_elem_of_lookup in Hin as [i Hi].
    apply lookup_zip_with_Some in Hi as (r0 & c0 & -> & _ & _).
    simpl. rewrite blacklist_row_status. destruct (_ || _); auto.
  - unfold column. simpl. rewrite blacklist_rows_created by done.
    apply to_datetime_cells.
Qed.

Lemma select_filter (c : string) (rs : list Row) :
  select ((fun s : cell => bool_decide (s = Int 1))
            <$> ((fun r : Row => get r c) <$> rs)) rs
  = filter (fun r : Row => get r c = Int 1) rs.
Proof.
  induction rs as [|r rs IH]; [done|].
  rewrite !fmap_cons. cbn [select]. rewrite filter_cons, IH.
  case_bool_decide; [by rewrite decide_True|by rewrite decide_False].
Qed.

(** The leads that pass the filter of [main] are, in their order, the rows
    whose status is 1: those created strictly before the cutoff and those
    created from the cutoff on whose raw code reads as PASSED.  A lead
    without a readable creation date never passes. *)
Theorem blacklist_filter_survivors (df df' : DataFrame) :
  apply_blacklist_logic df = Some df' →
  rows (filter_blacklist df')
  = filter (fun r : Row => get r "blacklist_status" = Int 1) (rows df')
  ∧ columns (filter_blacklist df') = columns df'
  ∧ (∀ r, r ∈ rows df' →
       (r ∈ rows (filter_blacklist df') ↔
        ∃ t, get r "created_date" = Timestamp t
             ∧ (t < BLACKLIST_START_DATE
                ∨ code_passed (get r "blacklist_raw") = true))).
Proof.
  intros Happ.
  assert (Hrows : rows (filter_blacklist df')
                  = filter (fun r : Row => get r "blacklist_status" = Int 1)
                      (rows df')) by apply select_filter.
  split; [done|]. split; [done|].
  intros r Hin. rewrite Hrows, list_elem_of_filter.
  destruct (apply_blacklist_logic_returns _ _ Happ) as (Hc & Hr & Hz).
  destruct (apply_blacklist_logic_rows df Hc Hr Hz) as [cols Happ'].
  rewrite Happ' in Happ. injection Happ as <-. simpl in Hin.
  apply list_elem_of_lookup in Hin as [i Hi].
  pose proof Hi as Hi'.
  apply lookup_zip_with_Some in Hi as (r0 & c0 & -> & Hr0 & Hc0).
  rewrite blacklist_row_status, blacklist_row_created.
  rewrite blacklist_row_other
    by (rewrite !not_elem_of_cons; repeat split; try done; apply not_elem_of_nil).
  rewrite parse_raw_blacklist_passed.
  assert (Hin' : blacklist_row r0 c0
                 ∈ zip_with blacklist_row (rows df)
                     (to_datetime (column df "created_date")))
    by by eapply list_elem_of_lookup_2.
  destruct c0 as [| | |t]; simpl.
  1-3: split; [intros [? _]; done|intros (t & ? & _); done].
  destruct (t <? BLACKLIST_START_DATE) eqn:Hlt; simpl.
  - apply Z.ltb_lt in Hlt. split; [intros _; exists t; auto|done].
  - apply Z.ltb_ge in Hlt.
    assert ((BLACKLIST_START_DATE <=? t) = true) as -> by by apply Z.leb_le.
    simpl. destruct (code_passed (get r0 "blacklist_raw")).
    + split; [intros _; exists t; auto|done].
    + split; [intros [? _]; done|].
      intros (t' & [= <-] & [?|?]); [lia|done].
Qed.

(** *** The date columns *)

Lemma date_loop_has_column (cols : list string) (df : DataFrame) (c : string) :
  has_column
    (foldl (fun df col =>
              if has_column df col
              then assign df col (to_datetime (column df col))
              else df) df cols) c
  = has_column df c.
Proof.
  revert df. induction cols as [|col cols IH]; intros df; simpl; [done|].
  rewrite IH. destruct (has_column df col) eqn:E; [|done].
  rewrite has_column_assign. case_bool_decide as Hc; [by subst|done].
Qed.

Lemma date_loop_column (cols : list string) (c : string) (df : DataFrame) :
  NoDup cols → c ∈ cols → has_column df c = true →
  column
    (foldl (fun df col =>
              if has_column df col
              then assign df col (to_datetime (column df col))
              else df) df cols) c
  = to_datetime (column df c).
Proof.
  intros Hnd. revert df. induction Hnd as [|col cols Hnin Hnd IH]; intros df Hin Hc.
  { by apply elem_of_nil in Hin. }
  assert (Hlen : ∀ x, length (to_datetime (column df x)) = length (rows df)).
  { intros x. by rewrite to_datetime_length, column_length. }
  simpl. destruct (decide (c = col)) as [->|Hne].
  - rewrite Hc.
    destruct (date_loop_other cols col
                (assign df col (to_datetime (column df col))) Hnin)
      as (_ & H2 & _).
    cbv zeta in H2. rewrite H2. by apply column_assign_eq.
  - apply elem_of_cons in Hin as [?|Hin]; [done|].
    destruct (has_column df col) eqn:E.
    + rewrite IH; [|done|].
      * by rewrite column_assign_ne.
      * by rewrite has_column_assign, Hc, orb_true_r.
    + by apply IH.
Qed.

(** [clean_dates] creates no column and keeps the rows; it leaves every
    column that is not a date column as it is, and turns each date column
    the frame has into what [pd.to_datetime] reads from that column, one
    column not depending on another: every cell of it is then missing or a
    timestamp. *)
Theorem clean_dates_columns (df : DataFrame) :
  (∀ c, has_column (clean_dates df) c = has_column df c)
  ∧ length (rows (clean_dates df)) = length (rows df)
  ∧ (∀ c, c ∉ clean_dates_cols → column (clean_dates df) c = column df c)
  ∧ (∀ c, c ∈ clean_dates_cols → has_column df c = true →
       column (clean_dates df) c = to_datetime (column df c)
       ∧ Forall (fun v => v = NaN ∨ ∃ t, v = Timestamp t)
           (column (clean_dates df) c)).
Proof.
  split; [intros c; apply date_loop_has_column|].
  split.
  { destruct (date_loop_other clean_dates_cols "" df) as (_ & _ & H); [|done].
    unfold clean_dates_cols. rewrite !not_elem_of_cons.
    repeat split; try done. apply not_elem_of_nil. }
  split.
  { intros c Hc. by destruct (date_loop_other clean_dates_cols c df Hc) as (_ & H & _). }
  intros c Hin Hc.
  assert (H : column (clean_dates df) c = to_datetime (column df c)).
  { apply date_loop_column; [|done|done].
    unfold clean_dates_cols.
    repeat (apply NoDup_cons; split;
            [rewrite ?elem_of_cons, elem_of_nil; intros H; by intuition|]).
    constructor. }
  split; [done|]. rewrite H. apply to_datetime_cells.
Qed.

(** *** The sales tier *)

Lemma sales_tier_text (s : string) :
  ∃ n, sales_tier (Str s) = Int n ∧ 0 ≤ n ≤ 5
       ∧ (n ≠ 0 ↔ (s, n) ∈ sales_map).
Proof.
  unfold sales_tier.
  destruct (decide (s = "Nano Business (Less than $250 thousand)")) as [->|N1].
  { exists 1. vm_compute. split; [done|]. split; [split; discriminate|].
    split; [intros _|done]. by left. }
  destruct (decide (s = "Micro Business ($250 thousand to $1 million)")) as [->|N2].
  { exists 2. vm_compute. split; [done|]. split; [split; discriminate|].
    split; [intros _|done]. right. by left. }
  destruct (decide (s = "Small Business ($1 million to $5 million)")) as [->|N3].
  { exists 3. vm_compute. split; [done|]. split; [split; discriminate|].
    split; [intros _|done]. do 2 right. by left. }
  destruct (decide (s = "Medium Business ($5 million to $50 million)")) as [->|N4].
  { exists 4. vm_compute. split; [done|]. split; [split; discriminate|].
    split; [intros _|done]. do 3 right. by left. }
  destruct (decide (s = "Large Business ($50 million+)")) as [->|N5].
  { exists 5. vm_compute. split; [done|]. split; [split; discriminate|].
    split; [intros _|done]. do 4 right. by left. }
  exists 0.
  rewrite (not_elem_of_list_to_map_1 sales_map s).
  - split; [done|]. split; [lia|]. split; [done|].
    unfold sales_map. rewrite !elem_of_cons, elem_of_nil.
    intros H. exfalso. intuition congruence.
  - unfold sales_map. simpl. rewrite !not_elem_of_cons.
    repeat split; try done. apply not_elem_of_nil.
Qed.

(** The tier of a cell is an integer from 0 to 5; it is not 0 exactly when
    the cell is one of the five labels, and it is then the tier of that
    label.  The tiers themselves are not labels: mapped a second time,
    every tier becomes 0.  On a frame the step fails exactly when the
    column is missing, and changes no other column. *)
Theorem sales_tier_range (v : cell) :
  (∃ n, sales_tier v = Int n ∧ 0 ≤ n ≤ 5
        ∧ (n ≠ 0 ↔ ∃ label, v = Str label ∧ (label, n) ∈ sales_map))
  ∧ sales_tier (sales_tier v) = Int 0
  ∧ (∀ df : DataFrame,
       (has_column df "reported_annual_sales_tier" = false →
        process_business_tiers df = None)
       ∧ (has_column df "reported_annual_sales_tier" = true →
          ∃ df',
            process_business_tiers df = Some df'
            ∧ column df' "reported_annual_sales_tier"
              = sales_tier <$> column df "reported_annual_sales_tier"
            ∧ (∀ c, c ≠ "reported_annual_sales_tier" →
                 column df' c = column df c)
            ∧ length (rows df') = length (rows df))).
Proof.
  split; [|split].
  - destruct v as [|s|n|t].
    2: { destruct (sales_tier_text s) as (n & H1 & H2 & H3).
         exists n. split; [done|]. split; [done|]. rewrite H3.
         split; [intros H; by exists s|]. by intros (l & [= <-] & H). }
    all: exists 0; split; [done|]; split; [lia|];
      split; [done|]; by intros (l & ? & _).
  - destruct v as [|s|n|t]; try done.
    unfold sales_tier at 2.
    by destruct (list_to_map sales_map !! s).
  - intros df. split.
    + intros H. unfold process_business_tiers. by rewrite H.
    + intros H. unfold process_business_tiers. rewrite H. cbn [negb].
      assert (Hlen : length (sales_tier <$> column df "reported_annual_sales_tier")
                     = length (rows df)) by by rewrite length_fmap, column_length.
      eexists. split; [done|].
      split; [by apply column_assign_eq|].
      split; [intros c Hc; by apply column_assign_ne|].
      by apply rows_assign_length.
Qed.

(** *** The contact fields *)

Lemma filter_chars_all (p : ascii -> bool) (s : string) :
  all_chars p (filter_chars p s) = true.
Proof.
  induction s as [|c t IH]; simpl; [done|].
  destruct (p c) eqn:E; [|done]. simpl. by rewrite E.
Qed.

Lemma filter_chars_fixed (p : ascii -> bool) (s : string) :
  all_chars p s = true → filter_chars p s = s.
Proof.
  induction s as [|c t IH]; simpl; [done|].
  intros [Hc Ht]%andb_true_iff. by rewrite Hc, IH.
Qed.

Lemma filter_chars_filter_chars (p q : ascii -> bool) (s : string) :
  (∀ c, q c = true → p c = true) →
  filter_chars q (filter_chars p s) = filter_chars q s.
Proof.
  intros Hqp. induction s as [|c t IH]; simpl; [done|].
  destruct (p c) eqn:Ep; simpl.
  - by rewrite IH.
  - destruct (q c) eqn:Eq; [|done]. apply Hqp in Eq. congruence.
Qed.

(** Deleting the matches of a pattern of one character class keeps the
    characters that are not of the class. *)
Lemma sub_one_class (p : ascii -> bool) (s : string) :
  Py.sub [(p, Py.One)] "" s = filter_chars (fun c => negb (p c)) s.
Proof.
  unfold Py.sub. induction s as [|c t IH]; [done|].
  cbn [Py.sub_from filter_chars]. rewrite match_one_cons.
  destruct (p c); simpl; by rewrite IH.
Qed.

Lemma digit_not_separator (c : ascii) :
  Py.is_digit c = true → negb (mobile_separator c) = true.
Proof. destruct c as [[|] [|] [|] [|] [|] [|] [|] [|]]; by vm_compute. Qed.

(** The normalised mobile is missing, or a text that is not empty, is not
    "nan" and holds no "+", no "-" and no blank: the text of the cell
    without those characters, its digits untouched.  A missing mobile
    stays missing, and normalising twice is normalising once. *)
Theorem normalize_mobile_clean (v : cell) :
  (normalize_mobile v = NaN
   ∨ ∃ s, normalize_mobile v = Str s
          ∧ s ≠ "" ∧ s ≠ "nan"
          ∧ s = filter_chars (fun c => negb (mobile_separator c)) (str v)
          ∧ all_chars (fun c => negb (mobile_separator c)) s = true
          ∧ filter_chars Py.is_digit s = filter_chars Py.is_digit (str v))
  ∧ normalize_mobile NaN = NaN
  ∧ normalize_mobile (normalize_mobile v) = normalize_mobile v.
Proof.
  assert (Hnan : normalize_mobile NaN = NaN) by done.
  assert (Hcases :
    normalize_mobile v = NaN
    ∨ ∃ s, normalize_mobile v = Str s
           ∧ s ≠ "" ∧ s ≠ "nan"
           ∧ s = filter_chars (fun c => negb (mobile_separator c)) (str v)
           ∧ all_chars (fun c => negb (mobile_separator c)) s = true
           ∧ filter_chars Py.is_digit s = filter_chars Py.is_digit (str v)).
  { unfold normalize_mobile, mobile_re. cbv zeta. rewrite sub_one_class.
    set (s := filter_chars _ (str v)).
    destruct (String.eqb_spec s "nan") as [E1|E1]; [by left|].
    destruct (String.eqb_spec s "") as [E2|E2]; [by left|].
    right. exists s. repeat split; try done.
    - apply filter_chars_all.
    - apply filter_chars_filter_chars, digit_not_separator. }
  split; [done|]. split; [done|].
  destruct Hcases as [->|(s & -> & Hne & Hnn & _ & Hall & _)]; [done|].
  unfold normalize_mobile, mobile_re. cbv zeta. rewrite sub_one_class.
  cbn [str]. rewrite filter_chars_fixed by done.
  apply String.eqb_neq in Hne, Hnn. by rewrite Hne, Hnn.
Qed.

Lemma not_upper_lower (s : string) :
  all_chars (fun c => negb (Py.is_upper c)) (Py.lower s) = true.
Proof.
  unfold Py.lower. induction s as [|c t IH]; simpl; [done|].
  by rewrite is_upper_lower_char, IH.
Qed.

Lemma lower_fixed (s : string) :
  all_chars (fun c => negb (Py.is_upper c)) s = true → Py.lower s = s.
Proof.
  unfold Py.lower. induction s as [|c t IH]; simpl; [done|].
  intros [Hc Ht]%andb_true_iff. rewrite IH by done.
  unfold Py.lower_char. apply negb_true_iff in Hc. by rewrite Hc.
Qed.

(** The normalised email of a text holds no upper-case letter and neither
    starts nor ends with a blank; a cell that is not a text becomes
    missing; normalising twice is normalising once. *)
Theorem normalize_email_clean (v : cell) :
  (∀ s, v = Str s →
     ∃ e, normalize_email v = Str e
          ∧ Py.lower e = e ∧ Py.strip e = e
          ∧ all_chars (fun c => negb (Py.is_upper c)) e = true
          ∧ e = Py.lower (Py.strip s))
  ∧ ((∀ s, v ≠ Str s) → normalize_email v = NaN)
  ∧ normalize_email (normalize_email v) = normalize_email v.
Proof.
  assert (Hfix : ∀ s, Py.strip (Py.lower (Py.strip (Py.lower s)))
                      = Py.strip (Py.lower s)).
  { intros s. rewrite !strip_lower, strip_idem. by rewrite lower_idem. }
  split; [|split].
  - intros s ->. exists (Py.strip (Py.lower s)). split; [done|].
    split; [by rewrite strip_lower, lower_idem|].
    split; [apply strip_idem|].
    split; [rewrite strip_lower; apply not_upper_lower|apply strip_lower].
  - intros H. destruct v; try done. by destruct (H s).
  - destruct v; try done. simpl. by rewrite Hfix.
Qed.

Lemma split_on_nonempty (sep : ascii) (s : string) : split_on sep s ≠ [].
Proof.
  destruct s as [|c t]; simpl; [done|].
  destruct (Ascii.eqb c sep); [done|]. by destruct (split_on sep t).
Qed.

Lemma split_on_none (sep : ascii) (s : string) :
  all_chars (fun c => negb (Ascii.eqb c sep)) s = true →
  split_on sep s = [s].
Proof.
  induction s as [|c t IH]; simpl; [done|].
  intros [Hc Ht]%andb_true_iff. apply negb_true_iff in Hc.
  by rewrite Hc, IH.
Qed.

Lemma split_on_first (sep : ascii) (a b : string) :
  all_chars (fun c => negb (Ascii.eqb c sep)) a = true →
  split_on sep (a +:+ String sep b) = a :: split_on sep b.
Proof.
  induction a as [|c t IH]; simpl.
  - intros _. by rewrite Ascii.eqb_refl.
  - intros [Hc Ht]%andb_true_iff. apply negb_true_iff in Hc.
    by rewrite Hc, IH.
Qed.

Lemma split_on_pieces (sep : ascii) (s : string) :
  Forall (fun piece => all_chars (fun c => negb (Ascii.eqb c sep)) piece = true)
    (split_on sep s).
Proof.
  induction s as [|c t IH]; simpl; [by repeat constructor|].
  destruct (Ascii.eqb c sep) eqn:E; [by constructor|].
  destruct (split_on sep t) as [|piece pieces].
  { constructor; [simpl; by rewrite E|constructor]. }
  apply Forall_cons in IH as [H1 H2].
  constructor; [|done]. simpl. by rewrite E, H1.
Qed.

(** The domain of an email is the text between its first and its second
    "@" (or its end): it is missing when the email holds no "@" or is not
    a text, it is the text after the "@" when there is exactly one, and
    it never holds an "@". *)
Theorem email_domain_between_ats (v : cell) :
  (∀ s, v = Str s →
     all_chars (fun c => negb (Ascii.eqb c "@")) s = true →
     email_domain_of v = NaN)
  ∧ (∀ name domain rest,
       all_chars (fun c => negb (Ascii.eqb c "@")) name = true →
       all_chars (fun c => negb (Ascii.eqb c "@")) domain = true →
       email_domain_of (Str (name +:+ "@" +:+ domain)) = Str domain
       ∧ email_domain_of (Str (name +:+ "@" +:+ domain +:+ "@" +:+ rest))
         = Str domain)
  ∧ (∀ d, email_domain_of v = Str d →
       all_chars (fun c => negb (Ascii.eqb c "@")) d = true)
  ∧ ((∀ s, v ≠ Str s) → email_domain_of v = NaN).
Proof.
  split; [|split; [|split]].
  - intros s -> H. unfold email_domain_of. by rewrite split_on_none.
  - intros name domain rest Hn Hd. unfold email_domain_of. split.
    + change (name +:+ "@" +:+ domain) with (name +:+ String "@" domain).
      rewrite split_on_first by done. by rewrite split_on_none.
    + change (name +:+ "@" +:+ domain +:+ "@" +:+ rest)
        with (name +:+ String "@" (domain +:+ String "@" rest)).
      rewrite split_on_first by done. by rewrite split_on_first.
  - intros d H. unfold email_domain_of in H.
    destruct v as [|s|n|t]; try done.
    destruct (split_on "@" s !! 1%nat) as [d'|] eqn:E; [|done].
    injection H as ->.
    pose proof (split_on_pieces "@" s) as Hp.
    by apply (Forall_lookup_1 _ _ _ _ Hp E).
  - intros H. destruct v; try done. by destruct (H s).
Qed.

(** *** The names *)

Lemma append_cons (c : ascii) (s t : string) :
  String c s +:+ t = String c (s +:+ t).
Proof. done. Qed.

Lemma append_empty_r (x : string) : x +:+ "" = x.
Proof.
  induction x as [|c t IH]; [done|].
  change (String c (t +:+ "") = String c t). by rewrite IH.
Qed.

Lemma rstrip_app_blank (x : string) : Py.rstrip (x +:+ " ") = Py.rstrip x.
Proof. induction x as [|c t IH]; simpl; [done|]. by rewrite IH. Qed.

Lemma lstrip_app_blank (a : string) :
  Py.lstrip (a +:+ " ")
  = if all_chars Py.is_space a then EmptyString else Py.lstrip a +:+ " ".
Proof.
  induction a as [|c t IH]; simpl; [done|].
  destruct (Py.is_space c); simpl; [done|done].
Qed.

Lemma strip_app_blank (a : string) : Py.strip (a +:+ " ") = Py.strip a.
Proof.
  unfold Py.strip. rewrite lstrip_app_blank.
  destruct (all_chars Py.is_space a) eqn:E.
  - by rewrite lstrip_blank.
  - apply rstrip_app_blank.
Qed.

Lemma contact_name_of_stripped (first last v : cell) :
  contact_name_of first last = Some v → ∃ s, v = Str s ∧ Py.strip s = s.
Proof.
  intros H. destruct first as [|a|n|t], last as [|b|m|u]; simpl in H;
    try done; injection H as <-; eexists; (split; [done|]); apply strip_idem.
Qed.

(** A contact name neither starts nor ends with a blank.  With one name
    missing it is the other name stripped, with both missing it is the
    empty text; a name that is neither a text nor missing is an error. *)
Theorem contact_name_stripped (first last : cell) :
  (∀ v, contact_name_of first last = Some v → ∃ s, v = Str s ∧ Py.strip s = s)
  ∧ (∀ a b, contact_name_of (Str a) (Str b)
            = Some (Str (Py.strip ((a +:+ " ") +:+ b))))
  ∧ (∀ a, contact_name_of (Str a) NaN = Some (Str (Py.strip a))
          ∧ contact_name_of NaN (Str a) = Some (Str (Py.strip a)))
  ∧ contact_name_of NaN NaN = Some (Str "")
  ∧ (contact_name_of first last = None ↔
     (∃ n, first = Int n ∨ first = Timestamp n ∨ last = Int n ∨ last = Timestamp n)).
Proof.
  split; [|split; [|split; [|split]]].
  - apply contact_name_of_stripped.
  - done.
  - intros a. split.
    + unfold contact_name_of. simpl. rewrite append_empty_r.
      by rewrite strip_app_blank.
    + done.
  - done.
  - destruct first as [|a|n|t], last as [|b|m|u]; simpl;
      (split; [intros H; try done; by eauto|]);
      try done; intros (k & [?|[?|[?|?]]]); done.
Qed.

(** [process_identity] keeps a company name that is present and fills a
    missing one from the fallback column; every contact name it writes is
    a stripped text; no other column changes. *)
Theorem process_identity_names (df df' : DataFrame) :
  process_identity df = Some df' →
  length (rows df') = length (rows df)
  ∧ column df' "company_name"
    = zip_with fillna (column df "company_name")
        (column df "company_account_fallback")
  ∧ (∀ i v, column df "company_name" !! i = Some v → notna v = true →
            column df' "company_name" !! i = Some v)
  ∧ Forall (fun v => ∃ s, v = Str s ∧ Py.strip s = s) (column df' "contact_name")
  ∧ (∀ c, c ≠ "company_name" → c ≠ "contact_name" → column df' c = column df c).
Proof.
  unfold process_identity.
  destruct (has_column df "company_name" && has_column df "company_account_fallback");
    [|done]. cbn [negb].
  set (d1 := assign df "company_name" _).
  assert (L0 : length (zip_with fillna (column df "company_name")
                         (column df "company_account_fallback"))
               = length (rows df)).
  { rewrite length_zip_with, !column_length. lia. }
  assert (L1 : length (rows d1) = length (rows df)) by by apply rows_assign_length.
  destruct (has_column d1 "first_name" && has_column d1 "last_name"); [|done].
  cbn [negb].
  destruct (mapM _ (rows d1)) as [names|] eqn:Hnames; [|done].
  simpl. intros [= <-].
  apply mapM_Some in Hnames.
  assert (L2 : length names = length (rows d1)).
  { symmetry. by eapply Forall2_length. }
  assert (Hcn : column (assign d1 "contact_name" names) "company_name"
                = zip_with fillna (column df "company_name")
                    (column df "company_account_fallback")).
  { rewrite column_assign_ne by done. unfold d1. by rewrite column_assign_eq. }
  split; [rewrite rows_assign_length by done; done|].
  split; [done|]. split; [|split].
  - intros i v Hi Hv. rewrite Hcn, lookup_zip_with, Hi. simpl.
    destruct (column df "company_account_fallback" !! i) as [w|] eqn:E.
    + simpl. unfold fillna. unfold notna in Hv. apply negb_true_iff in Hv.
      by rewrite Hv.
    + apply lookup_ge_None in E. apply lookup_lt_Some in Hi.
      rewrite column_length in *. lia.
  - rewrite column_assign_eq by done.
    apply Forall_forall. intros v Hin.
    apply list_elem_of_lookup in Hin as [i Hi].
    destruct (Forall2_lookup_r _ _ _ _ _ Hnames Hi) as (r & _ & Hr).
    by apply (contact_name_of_stripped _ _ _ Hr).
  - intros c Hc1 Hc2. rewrite column_assign_ne by done.
    unfold d1. by rewrite column_assign_ne.
Qed.

(** *** The frame through the steps of pipeline.py *)

Lemma has_column_loc_assign (df : DataFrame) (mask : list bool) (c c' : string)
  (v : cell) :
  has_column (loc_assign df mask c v) c' = bool_decide (c' = c) || has_column df c'.
Proof.
  unfold has_column, loc_assign; simpl.
  apply eq_true_iff_eq.
  rewrite orb_true_iff, !bool_decide_eq_true. apply elem_of_add_column.
Qed.

Lemma column_lookup (df : DataFrame) (c : string) (i : nat) (r : Row) :
  rows df !! i = Some r → column df c !! i = Some (get r c).
Proof. intros H. unfold column. by rewrite list_lookup_fmap, H. Qed.

(** Two frames with the same column [c] have, at each position, rows with
    the same cell under [c]. *)
Lemma column_eq_lookup (df df' : DataFrame) (c : string) (i : nat) (r r' : Row) :
  column df' c = column df c →
  rows df !! i = Some r → rows df' !! i = Some r' → get r' c = get r c.
Proof.
  intros Hcol Hr Hr'.
  apply (column_lookup _ c) in Hr, Hr'. rewrite Hcol in Hr'. congruence.
Qed.

Lemma column_Forall (P : cell → Prop) (df : DataFrame) (c : string) (r : Row) :
  Forall P (column df c) → r ∈ rows df → P (get r c).
Proof.
  unfold column. rewrite Forall_fmap, Forall_forall. intros H Hin. by apply H.
Qed.

Lemma column_assign_fmap_eq (df : DataFrame) (c c0 : string) (g : cell → cell) :
  column (assign df c (g <$> column df c0)) c = g <$> column df c0.
Proof. apply column_assign_eq. by rewrite length_fmap, column_length. Qed.

Lemma column_assign_fmap_ne (df : DataFrame) (c c' c0 : string) (g : cell → cell) :
  c ≠ c' → column (assign df c (g <$> column df c0)) c' = column df c'.
Proof.
  intros H. apply column_assign_ne; [done|]. by rewrite length_fmap, column_length.
Qed.

Lemma rows_assign_fmap_length (df : DataFrame) (c c0 : string) (g : cell → cell) :
  length (rows (assign df c (g <$> column df c0))) = length (rows df).
Proof. apply rows_assign_length. by rewrite length_fmap, column_length. Qed.

Lemma apply_blacklist_logic_some (df df' : DataFrame) :
  apply_blacklist_logic df = Some df' →
  has_column df "created_date" = true
  ∧ has_column df "blacklist_raw" = true
  ∧ rows df'
    = zip_with blacklist_row (rows df) (to_datetime (column df "created_date"))
  ∧ (∀ c, has_column df' c = true ↔
          c ∈ ["created_date"; "blacklist_status"; "blacklist_parsed"]
          ∨ has_column df c = true).
Proof.
  intros H.
  destruct (apply_blacklist_logic_returns _ _ H) as (Hc & Hr & Hz).
  split; [done|]. split; [done|].
  destruct (apply_blacklist_logic_rows df Hc Hr Hz) as [cols Happ].
  split; [rewrite Happ in H; by injection H as <-|].
  clear Happ. unfold apply_blacklist_logic in H. rewrite Hc in H.
  cbn [negb] in H. cbv zeta in H.
  rewrite has_column_assign_scalar, has_column_assign, Hr, !orb_true_r in H.
  cbn [negb] in H. rewrite Hz in H. injection H as <-. intros c.
  rewrite has_column_loc_assign, has_column_assign, has_column_assign_scalar,
    has_column_assign.
  rewrite !orb_true_iff, !bool_decide_eq_true, !elem_of_cons, elem_of_nil.
  tauto.
Qed.

(** A row the blacklist step marks with 1 has a creation date, before the
    cutoff or with a raw code that reads as PASSED. *)
Lemma blacklist_row_passed (r0 : Row) (c0 : cell) :
  get (blacklist_row r0 c0) "blacklist_status" = Int 1 →
  ∃ t, c0 = Timestamp t
       ∧ (t < BLACKLIST_START_DATE ∨ code_passed (get r0 "blacklist_raw") = true).
Proof.
  rewrite blacklist_row_status, parse_raw_blacklist_passed.
  destruct c0 as [| | |t]; simpl; try done.
  destruct (t <? BLACKLIST_START_DATE) eqn:Hlt; simpl.
  - apply Z.ltb_lt in Hlt. intros _. exists t. auto.
  - destruct (BLACKLIST_START_DATE <=? t); simpl; [|done].
    destruct (code_passed (get r0 "blacklist_raw")); [|done].
    intros _. exists t. auto.
Qed.

Lemma process_identity_some (df df' : DataFrame) :
  process_identity df = Some df' →
  (∀ c, c ∈ ["company_name"; "company_account_fallback"; "first_name"; "last_name"] →
        has_column df c = true)
  ∧ length (rows df') = length (rows df)
  ∧ (∀ c, has_column df' c = true ↔
          c ∈ ["company_name"; "contact_name"] ∨ has_column df c = true)
  ∧ (∀ c, c ≠ "company_name" → c ≠ "contact_name" → column df' c = column df c).
Proof.
  unfold process_identity.
  destruct (has_column df "company_name") eqn:H1; [|done].
  destruct (has_column df "company_account_fallback") eqn:H2; [|done].
  cbn [andb negb].
  set (d1 := assign df "company_name" _).
  assert (L0 : length (zip_with fillna (column df "company_name")
                         (column df "company_account_fallback"))
               = length (rows df)).
  { rewrite length_zip_with, !column_length. lia. }
  assert (L1 : length (rows d1) = length (rows df)) by by apply rows_assign_length.
  assert (Hd1 : ∀ c, has_column d1 c = bool_decide (c = "company_name") || has_column df c)
    by (intros c; apply has_column_assign).
  rewrite !Hd1. cbn [bool_decide orb].
  rewrite !bool_decide_eq_false_2 by done. cbn [orb].
  destruct (has_column df "first_name") eqn:H3; [|done].
  destruct (has_column df "last_name") eqn:H4; [|done].
  cbn [andb negb].
  destruct (mapM _ (rows d1)) as [names|] eqn:Hnames; [|done].
  simpl. intros [= <-].
  apply mapM_Some in Hnames.
  assert (L2 : length names = length (rows d1)).
  { symmetry. by eapply Forall2_length. }
  split.
  { intros c. rewrite !elem_of_cons, elem_of_nil.
    intros [->|[->|[->|[->|[]]]]]; done. }
  split; [rewrite rows_assign_length by done; done|].
  split.
  - intros c. rewrite has_column_assign, Hd1.
    rewrite !orb_true_iff, !bool_decide_eq_true, !elem_of_cons, elem_of_nil.
  tauto.
  - intros c Hc1 Hc2. rewrite column_assign_ne by done.
    unfold d1. by rewrite column_assign_ne.
Qed.

Lemma process_digital_contact_some (df df' : DataFrame) :
  process_digital_contact df = Some df' →
  has_column df "email" = true
  ∧ has_column df "mobile" = true
  ∧ is_text_column (column df "email") = true
  ∧ length (rows df') = length (rows df)
  ∧ column df' "email" = normalize_email <$> column df "email"
  ∧ column df' "email_domain"
    = email_domain_of <$> (normalize_email <$> column df "email")
  ∧ column df' "mobile" = normalize_mobile <$> column df "mobile"
  ∧ (∀ c, has_column df' c = true ↔ c = "email_domain" ∨ has_column df c = true)
  ∧ (∀ c, c ∉ ["email"; "email_domain"; "mobile"] → column df' c = column df c).
Proof.
  unfold process_digital_contact.
  destruct (has_column df "email") eqn:H1; [|done].
  destruct (is_text_column (column df "email")) eqn:H2; [|done].
  cbn [negb].
  rewrite !has_column_assign, !bool_decide_eq_false_2 by done. cbn [orb].
  destruct (has_column df "mobile") eqn:H3; [|done].
  cbn [negb]. intros [= <-].
  split; [done|]. split; [done|]. split; [done|].
  set (d1 := assign df "email" (normalize_email <$> column df "email")).
  set (d2 := assign d1 "email_domain" (email_domain_of <$> column d1 "email")).
  assert (E1 : column d1 "email" = normalize_email <$> column df "email")
    by apply column_assign_fmap_eq.
  assert (N1 : ∀ c, c ≠ "email" → column d1 c = column df c)
    by (intros c Hc; by apply column_assign_fmap_ne).
  assert (E2 : column d2 "email_domain" = email_domain_of <$> column d1 "email")
    by apply column_assign_fmap_eq.
  assert (N2 : ∀ c, c ≠ "email_domain" → column d2 c = column d1 c)
    by (intros c Hc; by apply column_assign_fmap_ne).
  split.
  { rewrite rows_assign_fmap_length. unfold d2. rewrite rows_assign_fmap_length.
    unfold d1. apply rows_assign_fmap_length. }
  split; [by rewrite column_assign_fmap_ne, N2|].
  split; [by rewrite column_assign_fmap_ne, E2, E1|].
  split; [by rewrite column_assign_fmap_eq, N2, N1|].
  split.
  - intros c. unfold d2, d1. rewrite !has_column_assign.
    rewrite !orb_true_iff, !bool_decide_eq_true.
    split; [intros [->|[?|[->|?]]]; auto|intros [?|?]; auto].
  - intros c. rewrite !not_elem_of_cons. intros (M1 & M2 & M3 & _).
    by rewrite column_assign_fmap_ne, N2, N1.
Qed.

Lemma process_business_tiers_some (df df' : DataFrame) :
  process_business_tiers df = Some df' →
  has_column df "reported_annual_sales_tier" = true
  ∧ length (rows df') = length (rows df)
  ∧ column df' "reported_annual_sales_tier"
    = sales_tier <$> column df "reported_annual_sales_tier"
  ∧ (∀ c, has_column df' c = has_column df c)
  ∧ (∀ c, c ≠ "reported_annual_sales_tier" → column df' c = column df c).
Proof.
  unfold process_business_tiers.
  destruct (has_column df "reported_annual_sales_tier") eqn:H1; [|done].
  cbn [negb]. intros [= <-].
  split; [done|]. split; [apply rows_assign_fmap_length|].
  split; [apply column_assign_fmap_eq|]. split.
  - intros c. rewrite has_column_assign. case_bool_decide as E; [by subst|done].
  - intros c Hc. by apply column_assign_fmap_ne.
Qed.

(** *** The selection of columns *)

Lemma fill_missing_rows (cs : list string) (df : DataFrame) :
  rows (foldl (fun df c => assign_scalar df c NaN) df cs)
  = (fun r : Row => foldl (fun (r : Row) c => <[c := NaN]> r) r cs) <$> rows df.
Proof.
  revert df. induction cs as [|c cs IH]; intros df; simpl.
  - by rewrite list_fmap_id.
  - rewrite IH. unfold assign_scalar; simpl. by rewrite <- list_fmap_compose.
Qed.

Lemma fill_missing_get (cs : list string) (r : Row) (c : string) :
  get (foldl (fun (r : Row) c => <[c := NaN]> r) r cs) c
  = if bool_decide (c ∈ cs) then NaN else get r c.
Proof.
  revert r. induction cs as [|c0 cs IH]; intros r; simpl.
  - done.
  - rewrite IH. destruct (decide (c = c0)) as [->|Hne].
    + rewrite get_insert_eq, (bool_decide_eq_true_2 (c0 ∈ c0 :: cs)) by by left.
      by destruct (bool_decide _).
    + rewrite get_insert_ne by done.
      case_bool_decide as H1; case_bool_decide as H2; try done.
      * exfalso. apply H2. by right.
      * apply elem_of_cons in H2 as [?|?]; done.
Qed.

Lemma get_filter_selected (r : Row) (c : string) :
  get (filter (fun kv : string * cell => kv.1 ∈ SELECTED_COLUMNS) r) c
  = if bool_decide (c ∈ SELECTED_COLUMNS) then get r c else NaN.
Proof.
  unfold get. rewrite map_lookup_filter. destruct (r !! c) as [v|]; simpl.
  - case_bool_decide; [by rewrite option_guard_True|by rewrite option_guard_False].
  - by case_bool_decide.
Qed.

Lemma select_columns_rows (df : DataFrame) :
  rows (select_columns df)
  = (fun r : Row =>
       filter (fun kv : string * cell => kv.1 ∈ SELECTED_COLUMNS)
         (foldl (fun (r : Row) c => <[c := NaN]> r) r
            (filter (fun c => c ∉ columns df) SELECTED_COLUMNS)))
    <$> rows df.
Proof.
  unfold select_columns. simpl. rewrite fill_missing_rows.
  by rewrite <- list_fmap_compose.
Qed.

Lemma select_columns_column (df : DataFrame) (c : string) :
  column (select_columns df) c
  = (fun r : Row =>
       if bool_decide (c ∈ SELECTED_COLUMNS) && has_column df c
       then get r c else NaN) <$> rows df.
Proof.
  unfold column. rewrite select_columns_rows, <- list_fmap_compose.
  apply list_fmap_ext. intros i r _. simpl.
  rewrite get_filter_selected, fill_missing_get. unfold has_column.
  case_bool_decide as H1; [|done]. simpl.
  case_bool_decide as H2; case_bool_decide as H3; try done.
  - apply list_elem_of_filter in H2 as [H2 _]. done.
  - exfalso. apply H2. by apply list_elem_of_filter.
Qed.

Lemma select_columns_other (df : DataFrame) (r : Row) (c : string) :
  r ∈ rows (select_columns df) → c ∉ SELECTED_COLUMNS → r !! c = None.
Proof.
  rewrite select_columns_rows. intros (r0 & -> & _)%list_elem_of_fmap Hc.
  apply map_lookup_filter_None. right. intros x _. done.
Qed.

Lemma filter_missing_nil (cs l : list string) :
  (∀ c, c ∈ l → c ∈ cs) → filter (fun c => c ∉ cs) l = [].
Proof.
  induction l as [|c l IH]; intros H; [done|].
  rewrite filter_cons, decide_False.
  - apply IH. intros c' Hc'. apply H. by right.
  - intros Hn. apply Hn, H. by left.
Qed.

(** The frame [main] writes has the selected columns, in the order of
    [SELECTED_COLUMNS], and the rows of the frame it selects from: a
    selected column of that frame is copied, a selected column the frame
    lacks is missing in every row, and no row keeps a cell of any other
    column.  Selecting twice is selecting once. *)
Theorem select_columns_schema (df : DataFrame) :
  columns (select_columns df) = SELECTED_COLUMNS
  ∧ length (rows (select_columns df)) = length (rows df)
  ∧ (∀ c, c ∈ SELECTED_COLUMNS → has_column df c = true →
       column (select_columns df) c = column df c)
  ∧ (∀ c, c ∈ SELECTED_COLUMNS → has_column df c = false →
       column (select_columns df) c = replicate (length (rows df)) NaN)
  ∧ (∀ r c, r ∈ rows (select_columns df) → c ∉ SELECTED_COLUMNS → r !! c = None)
  ∧ select_columns (select_columns df) = select_columns df.
Proof.
  split; [done|].
  split; [by rewrite select_columns_rows, length_fmap|].
  split.
  { intros c Hc Hh. rewrite select_columns_column, Hh.
    by rewrite bool_decide_eq_true_2. }
  split.
  { intros c Hc Hh. rewrite select_columns_column, Hh, andb_false_r.
    generalize (rows df). intros rs. induction rs as [|r rs IH]; [done|].
    rewrite fmap_cons. cbn [length replicate]. by f_equal. }
  split; [apply select_columns_other|].
  assert (Hrows : filter (fun kv : string * cell => kv.1 ∈ SELECTED_COLUMNS)
                    <$> rows (select_columns df)
                  = rows (select_columns df)).
  { rewrite select_columns_rows, <- list_fmap_compose.
    apply list_fmap_ext. intros i r _. simpl.
    apply map_filter_id. intros k x Hk.
    by apply map_lookup_filter_Some in Hk as [_ ?]. }
  unfold select_columns at 1. cbn [columns].
  rewrite filter_missing_nil by done. cbn [foldl].
  transitivity {| columns := SELECTED_COLUMNS; rows := rows (select_columns df) |};
    [f_equal; exact Hrows|done].
Qed.

(** *** The contact step on a frame *)

Lemma split_on_all_chars (p : ascii → bool) (sep : ascii) (s : string) :
  all_chars p s = true →
  Forall (fun piece => all_chars p piece = true) (split_on sep s).
Proof.
  induction s as [|c t IH]; simpl; [by repeat constructor|].
  intros [Hc Ht]%andb_true_iff. specialize (IH Ht).
  destruct (Ascii.eqb c sep); [by constructor|].
  destruct (split_on sep t) as [|piece pieces].
  { constructor; [simpl; by rewrite Hc|constructor]. }
  apply Forall_cons in IH as [H1 H2].
  constructor; [|done]. simpl. by rewrite Hc, H1.
Qed.

Lemma email_domain_normalized (v : cell) :
  email_domain_of (normalize_email v) = NaN
  ∨ ∃ d, email_domain_of (normalize_email v) = Str d
         ∧ all_chars (fun c => negb (Py.is_upper c)) d = true
         ∧ all_chars (fun c => negb (Ascii.eqb c "@")) d = true.
Proof.
  destruct v as [|s|n|t]; try by left.
  unfold normalize_email, email_domain_of.
  destruct (split_on "@" (Py.strip (Py.lower s)) !! 1%nat) as [d|] eqn:E;
    [right|by left].
  exists d. split; [done|]. split.
  - assert (H : all_chars (fun c => negb (Py.is_upper c)) (Py.strip (Py.lower s))
                = true) by (rewrite strip_lower; apply not_upper_lower).
    apply (split_on_all_chars _ "@") in H.
    by apply (Forall_lookup_1 _ _ _ _ H E).
  - pose proof (split_on_pieces "@" (Py.strip (Py.lower s))) as H.
    by apply (Forall_lookup_1 _ _ _ _ H E).
Qed.

Lemma normalize_email_cases (v : cell) :
  normalize_email v = NaN
  ∨ ∃ e, normalize_email v = Str e ∧ Py.lower e = e ∧ Py.strip e = e.
Proof.
  destruct v as [|s|n|t]; try by left.
  right. exists (Py.strip (Py.lower s)). split; [done|].
  split; [by rewrite strip_lower, lower_idem|apply strip_idem].
Qed.

Lemma normalize_mobile_cases (v : cell) :
  normalize_mobile v = NaN
  ∨ ∃ s, normalize_mobile v = Str s
         ∧ s ≠ ""
         ∧ all_chars (fun c => negb (mobile_separator c)) s = true.
Proof.
  unfold normalize_mobile, mobile_re. cbv zeta. rewrite sub_one_class.
  set (s := filter_chars _ (str v)).
  destruct (String.eqb_spec s "nan") as [E1|E1]; [by left|].
  destruct (String.eqb_spec s "") as [E2|E2]; [by left|].
  right. exists s. split; [done|]. split; [done|]. apply filter_chars_all.
Qed.

(** The contact step fails exactly when the frame lacks [email] or
    [mobile], or has an [email] column with rows and without a text.
    Otherwise it normalises the two columns and changes no other; the
    domain is taken from the normalised email, so it holds no upper-case
    letter (and no "@") even when the raw email does. *)
Theorem process_digital_contact_columns (df : DataFrame) :
  (process_digital_contact df = None ↔
   has_column df "email" = false ∨ has_column df "mobile" = false
   ∨ is_text_column (column df "email") = false)
  ∧ (∀ df', process_digital_contact df = Some df' →
       length (rows df') = length (rows df)
       ∧ column df' "email" = normalize_email <$> column df "email"
       ∧ column df' "email_domain" = email_domain_of <$> column df' "email"
       ∧ column df' "mobile" = normalize_mobile <$> column df "mobile"
       ∧ (∀ c, c ∉ ["email"; "email_domain"; "mobile"] →
            column df' c = column df c)
       ∧ Forall (fun d => d = NaN
                          ∨ ∃ t, d = Str t
                                 ∧ all_chars (fun c => negb (Py.is_upper c)) t = true
                                 ∧ all_chars (fun c => negb (Ascii.eqb c "@")) t = true)
           (column df' "email_domain")).
Proof.
  split.
  - destruct (process_digital_contact df) as [df'|] eqn:E.
    + destruct (process_digital_contact_some _ _ E) as (H1 & H2 & H3 & _).
      split; [done|]. rewrite H1, H2, H3. intros [?|[?|?]]; done.
    + split; [intros _|done].
      unfold process_digital_contact in E.
      destruct (has_column df "email") eqn:H1; [|by left].
      destruct (is_text_column (column df "email")) eqn:H2; [|by right; right].
      cbn [negb] in E.
      rewrite !has_column_assign, !bool_decide_eq_false_2 in E by done.
      cbn [orb] in E.
      destruct (has_column df "mobile") eqn:H3; [done|by right; left].
  - intros df' E.
    destruct (process_digital_contact_some _ _ E)
      as (_ & _ & _ & H4 & H5 & H6 & H7 & _ & H9).
    split; [done|]. split; [done|]. split; [by rewrite H5|].
    split; [done|]. split; [done|].
    rewrite H6, !Forall_fmap. apply Forall_true. intros v. simpl.
    destruct (email_domain_normalized v) as [->|(d & -> & Hd)]; [by left|].
    right. by exists d.
Qed.

(** *** The whole of pipeline.py *)

Lemma rows_clean_dates (df : DataFrame) :
  length (rows (clean_dates df)) = length (rows df).
Proof.
  destruct (date_loop_other clean_dates_cols "" df) as (_ & _ & H); [|done].
  unfold clean_dates_cols. rewrite !not_elem_of_cons.
  repeat split; try done. apply not_elem_of_nil.
Qed.

Lemma filter_blacklist_lookup (df : DataFrame) (r : Row) :
  r ∈ rows (filter_blacklist df) →
  r ∈ rows df ∧ get r "blacklist_status" = Int 1.
Proof.
  unfold filter_blacklist. cbn [rows]. unfold column.
  rewrite select_filter, list_elem_of_filter. tauto.
Qed.

Lemma rows_filter_blacklist (df : DataFrame) :
  (length (rows (filter_blacklist df)) ≤ length (rows df))%nat.
Proof.
  unfold filter_blacklist. cbn [rows]. unfold column.
  rewrite select_filter. apply length_filter.
Qed.

(** [main] of pipeline.py, from the renamed frame to the frame it writes.
    It succeeds only on a frame with the nine columns the steps read.
    The frame written has the selected columns and at most the rows of
    the input; each row has a readable creation date, an email that is
    missing or lower-case and stripped, a mobile that is missing or a
    text that is not empty and holds no "+", "-" or blank, and a sales
    tier from 0 to 5.  The contact name, the email domain and the
    blacklist status the steps compute are not among the selected
    columns: no row written holds them. *)
Theorem pipeline_output (df out : DataFrame) :
  pipeline df = Some out →
  (∀ c, c ∈ ["created_date"; "blacklist_raw"; "company_name";
             "company_account_fallback"; "first_name"; "last_name";
             "email"; "mobile"; "reported_annual_sales_tier"] →
        has_column df c = true)
  ∧ columns out = SELECTED_COLUMNS
  ∧ (length (rows out) ≤ length (rows df))%nat
  ∧ Forall (fun r : Row =>
      (∃ t, get r "created_date" = Timestamp t)
      ∧ (get r "email" = NaN
         ∨ ∃ e, get r "email" = Str e ∧ Py.lower e = e ∧ Py.strip e = e)
      ∧ (get r "mobile" = NaN
         ∨ ∃ s, get r "mobile" = Str s ∧ s ≠ ""
                ∧ all_chars (fun c => negb (mobile_separator c)) s = true)
      ∧ (∃ n, get r "reported_annual_sales_tier" = Int n ∧ 0 ≤ n ≤ 5)
      ∧ r !! "contact_name" = None
      ∧ r !! "email_domain" = None
      ∧ r !! "blacklist_status" = None) (rows out).
Proof.
  unfold pipeline. intros H.
  destruct (apply_blacklist_logic (clean_dates df)) as [d1|] eqn:E1; [|done].
  cbn [mbind option_bind] in H.
  destruct (process_identity d1) as [d2|] eqn:E2; [|done].
  cbn [mbind option_bind] in H.
  destruct (process_digital_contact d2) as [d3|] eqn:E3; [|done].
  cbn [mbind option_bind] in H.
  destruct (process_business_tiers d3) as [d4|] eqn:E4; [|done].
  cbn [mbind option_bind] in H. injection H as <-.
  destruct (apply_blacklist_logic_some _ _ E1) as (A1 & A2 & A3 & A4).
  destruct (process_identity_some _ _ E2) as (B1 & B2 & B3 & B4).
  destruct (process_digital_contact_some _ _ E3)
    as (C1 & C2 & C3 & C4 & C5 & C6 & C7 & C8 & C9).
  destruct (process_business_tiers_some _ _ E4) as (D1 & D2 & D3 & D4 & D5).
  assert (L1 : length (rows d1) = length (rows df)).
  { rewrite A3, length_zip_with, to_datetime_length, column_length,
      rows_clean_dates. lia. }
  unfold clean_dates in A1, A2, A4.
  rewrite date_loop_has_column in A1, A2.
  assert (A4' : ∀ c, has_column d1 c = true ↔
                     c ∈ ["created_date"; "blacklist_status"; "blacklist_parsed"]
                     ∨ has_column df c = true).
  { intros c. rewrite A4. by rewrite date_loop_has_column. }
  clear A4.
  assert (Hin1 : ∀ c, c ∉ ["created_date"; "blacklist_status"; "blacklist_parsed"] →
                      has_column d1 c = true → has_column df c = true).
  { intros c Hc Hh. apply A4' in Hh as [?|?]; done. }
  assert (Hin2 : ∀ c, c ∉ ["company_name"; "contact_name"] →
                      has_column d2 c = true → has_column d1 c = true).
  { intros c Hc Hh. apply B3 in Hh as [?|?]; done. }
  assert (Hin3 : ∀ c, c ≠ "email_domain" →
                      has_column d3 c = true → has_column d2 c = true).
  { intros c Hc Hh. apply C8 in Hh as [?|?]; done. }
  split.
  { intros c. rewrite !elem_of_cons, elem_of_nil.
    intros [->|[->|[->|[->|[->|[->|[->|[->|[->|[]]]]]]]]]]; try done.
    1-4: apply Hin1;
      [rewrite !not_elem_of_cons; repeat split; try done; apply not_elem_of_nil|];
      apply B1; rewrite !elem_of_cons; auto.
    1-2: apply Hin1;
      [rewrite !not_elem_of_cons; repeat split; try done; apply not_elem_of_nil|];
      apply Hin2;
      [rewrite !not_elem_of_cons; repeat split; try done; apply not_elem_of_nil|];
      done.
    apply Hin1;
      [rewrite !not_elem_of_cons; repeat split; try done; apply not_elem_of_nil|].
    apply Hin2;
      [rewrite !not_elem_of_cons; repeat split; try done; apply not_elem_of_nil|].
    by apply Hin3. }
  split; [done|].
  split.
  { rewrite select_columns_rows, length_fmap.
    etrans; [apply rows_filter_blacklist|]. lia. }
  assert (Hd4 : ∀ c, c ∈ ["created_date"; "email"; "mobile";
                          "reported_annual_sales_tier"] →
                     has_column (filter_blacklist d4) c = true).
  { intros c Hc.
    change (has_column (filter_blacklist d4) c) with (has_column d4 c).
    rewrite D4. rewrite !elem_of_cons, elem_of_nil in Hc.
    destruct Hc as [->|[->|[->|[->|[]]]]]; try done.
    - apply C8. right. apply B3. right. apply A4'. left. by left.
    - apply C8. by right.
    - apply C8. by right. }
  assert (Hsel : ∀ c, c ∈ ["created_date"; "email"; "mobile";
                           "reported_annual_sales_tier"] →
                      c ∈ SELECTED_COLUMNS).
  { intros c. rewrite !elem_of_cons, elem_of_nil.
    intros [->|[->|[->|[->|[]]]]]; unfold SELECTED_COLUMNS;
      rewrite !elem_of_cons; tauto. }
  apply Forall_forall. intros r Hin.
  assert (Hother : ∀ c, c ∉ SELECTED_COLUMNS → r !! c = None)
    by (intros c; by apply (select_columns_other (filter_blacklist d4))).
  apply list_elem_of_lookup in Hin as [j Hj].
  assert (Hget : ∃ r0, rows (filter_blacklist d4) !! j = Some r0
                       ∧ ∀ c, c ∈ ["created_date"; "email"; "mobile";
                                   "reported_annual_sales_tier"] →
                              get r c = get r0 c).
  { destruct (rows (filter_blacklist d4) !! j) as [r0|] eqn:E0.
    - exists r0. split; [done|]. intros c Hc.
      pose proof (column_lookup _ c _ _ Hj) as Hl.
      rewrite select_columns_column, list_lookup_fmap, E0 in Hl.
      simpl in Hl. rewrite (Hd4 c Hc) in Hl.
      rewrite bool_decide_eq_true_2 in Hl by by apply Hsel.
      simpl in Hl. by injection Hl as ->.
    - apply lookup_ge_None in E0. apply lookup_lt_Some in Hj.
      rewrite select_columns_rows, length_fmap in Hj. lia. }
  destruct Hget as (r0 & Hr0 & Hget).
  apply list_elem_of_lookup_2 in Hr0.
  apply filter_blacklist_lookup in Hr0 as [Hr0 Hst].
  rewrite !Hget by (rewrite !elem_of_cons; tauto).
  split.
  { apply list_elem_of_lookup in Hr0 as [i Hi].
    assert (Hlt : (i < length (rows d1))%nat).
    { apply lookup_lt_Some in Hi. lia. }
    apply lookup_lt_is_Some_2 in Hlt as [r1 Hr1].
    assert (Hc : ∀ c, c ∈ ["created_date"; "blacklist_status"] →
                      get r0 c = get r1 c).
    { intros c Hc. apply (column_eq_lookup d1 d4 c i); [|done|done].
      rewrite !elem_of_cons, elem_of_nil in Hc.
      rewrite D5, C9, B4; first done.
      all: try (rewrite !not_elem_of_cons; repeat split; try apply not_elem_of_nil).
      all: destruct Hc as [->|[->|[]]]; done. }
    rewrite (Hc "created_date") by (rewrite !elem_of_cons; tauto).
    rewrite (Hc "blacklist_status") in Hst by (rewrite !elem_of_cons; tauto).
    rewrite A3 in Hr1.
    apply lookup_zip_with_Some in Hr1 as (ra & c0 & -> & _ & _).
    rewrite blacklist_row_created.
    apply blacklist_row_passed in Hst as (t & -> & _). by exists t. }
  split.
  { apply (column_Forall
             (fun v => v = NaN ∨ ∃ e, v = Str e ∧ Py.lower e = e ∧ Py.strip e = e)
             d4 "email" r0); [|done].
    rewrite D5, C5 by done. apply Forall_fmap, Forall_true.
    intros v. apply normalize_email_cases. }
  split.
  { apply (column_Forall
             (fun v => v = NaN
                       ∨ ∃ s, v = Str s ∧ s ≠ ""
                              ∧ all_chars (fun c => negb (mobile_separator c)) s
                                = true)
             d4 "mobile" r0); [|done].
    rewrite D5, C7 by done. apply Forall_fmap, Forall_true.
    intros v. apply normalize_mobile_cases. }
  split.
  { apply (column_Forall (fun v => ∃ n, v = Int n ∧ 0 ≤ n ≤ 5)
             d4 "reported_annual_sales_tier" r0); [|done].
    rewrite D3. apply Forall_fmap, Forall_true. intros v. simpl.
    destruct v as [|s|n|t].
    2: { destruct (sales_tier_text s) as (n & H1 & H2 & _). by exists n. }
    all: exists 0; split; [done|lia]. }
  repeat split; apply Hother; unfold SELECTED_COLUMNS;
    rewrite !not_elem_of_cons; repeat split; try done; apply not_elem_of_nil.
Qed.

(** *** The whole of enrich_leads.py *)

Ltac not_in_list :=
  rewrite ?not_elem_of_app, ?not_elem_of_cons;
  repeat split; try done; try apply not_elem_of_nil.

Lemma presence_row_get (b : bool) (r : Row) :
  (∀ c, c ∉ ["is_converted"; "has_website"; "has_maps"; "has_social_media";
             "has_ecommerce"] →
        get (presence_row b r) c = get r c)
  ∧ get (presence_row b r) "has_website" = Int (create_flag (get r website_col))
  ∧ get (presence_row b r) "has_maps" = Int (create_flag (get r map_col))
  ∧ get (presence_row b r) "has_social_media"
    = Int (create_flag (get r social_col))
  ∧ get (presence_row b r) "has_ecommerce"
    = Int (create_flag (get r ecommerce_col)).
Proof.
  unfold presence_row. cbv zeta. split; [|split; [|split; [|split]]].
  - intros c. rewrite !not_elem_of_cons. intros (H1 & H2 & H3 & H4 & H5 & _).
    by rewrite !get_insert_ne by done.
  - rewrite !(get_insert_ne _ _ "has_website") by done.
    rewrite get_insert_eq. by rewrite get_insert_ne by done.
  - rewrite !(get_insert_ne _ _ "has_maps") by done.
    rewrite get_insert_eq. by rewrite !get_insert_ne by done.
  - rewrite !(get_insert_ne _ _ "has_social_media") by done.
    rewrite get_insert_eq. by rewrite !get_insert_ne by done.
  - rewrite get_insert_eq. by rewrite !get_insert_ne by done.
Qed.

Lemma has_column_add_presence_flags (df : DataFrame) (c : string) :
  has_column (add_presence_flags df) c = true ↔
  c ∈ ["is_converted"; "has_website"; "has_maps"; "has_social_media";
       "has_ecommerce"]
  ∨ has_column df c = true.
Proof.
  unfold add_presence_flags. rewrite !has_column_assign.
  destruct (has_column df "converted_date");
    rewrite ?has_column_assign, ?has_column_assign_scalar;
    rewrite !orb_true_iff, !bool_decide_eq_true, !elem_of_cons, elem_of_nil;
    tauto.
Qed.

Lemma has_column_track_journey (df : DataFrame) (c : string) :
  has_column (track_journey df) c = true ↔
  c ∈ ["readable_onboarding_step"; "onboarding_version"; "journey_stage"]
  ∨ has_column df c = true.
Proof.
  unfold track_journey. rewrite has_column_assign.
  destruct (has_column _ "onboarding_step");
    rewrite ?has_column_assign, ?has_column_assign_scalar, date_loop_has_column;
    rewrite !orb_true_iff, !bool_decide_eq_true, !elem_of_cons, elem_of_nil;
    tauto.
Qed.

(** The stage of a row depends on five of its cells only. *)
Lemma get_journey_stage_ext (r r' : Row) :
  (∀ c, c ∈ ["converted_date"; "kyb_submitted_date"; "kyb_in_progress_date";
             "readable_onboarding_step"; "created_date"] →
        get r c = get r' c) →
  get_journey_stage r = get_journey_stage r'.
Proof.
  intros H. unfold get_journey_stage. rewrite !in_row_notna. unfold present.
  rewrite !H by (rewrite !elem_of_cons; tauto). done.
Qed.

(** Reading the date columns as dates makes no missing cell present. *)
Lemma date_loop_notna (cols : list string) (df : DataFrame) (c : string)
  (i : nat) (r r0 : Row) :
  rows (foldl (fun df col =>
                 if has_column df col
                 then assign df col (to_datetime (column df col))
                 else df) df cols) !! i = Some r →
  rows df !! i = Some r0 →
  notna (get r c) = true → notna (get r0 c) = true.
Proof.
  revert df r0. induction cols as [|col cols IH]; intros df r0; simpl.
  - intros H1 H2. congruence.
  - intros H1 H2 Hn. destruct (has_column df col) eqn:E; [|by eapply IH].
    assert (Hv : ∃ v,
              rows (assign df col (to_datetime (column df col))) !! i
              = Some (<[col := v]> r0)
              ∧ (notna v = true → notna (get r0 col) = true)).
    { unfold assign. cbn [rows]. unfold to_datetime, column.
      rewrite lookup_zip_with, H2. simpl. rewrite !list_lookup_fmap, H2. simpl.
      eexists. split; [done|].
      unfold notna. by destruct (isna (get r0 col)). }
    destruct Hv as (v & Hv1 & Hv2).
    specialize (IH _ _ H1 Hv1 Hn).
    destruct (decide (c = col)) as [->|Hne].
    + rewrite get_insert_eq in IH. by apply Hv2.
    + by rewrite get_insert_ne in IH.
Qed.

(** A row of the frame after the journey step, against the row of the
    frame before it at the same position. *)
Lemma track_journey_lookup (df : DataFrame) (i : nat) (r : Row) :
  has_column df "onboarding_step" = true →
  rows (track_journey df) !! i = Some r →
  ∃ r0,
    rows df !! i = Some r0
    ∧ (∀ c, c ∉ date_cols ++ ["readable_onboarding_step"; "onboarding_version";
                               "journey_stage"] →
            get r c = get r0 c)
    ∧ get r "readable_onboarding_step" = clean_step_name (get r0 "onboarding_step")
    ∧ get r "onboarding_version" = extract_version (get r0 "onboarding_step")
    ∧ get r "journey_stage" = Str (get_journey_stage r)
    ∧ (notna (get r "converted_date") = true →
       notna (get r0 "converted_date") = true).
Proof.
  intros Hcol. unfold track_journey.
  assert (Hd : ∀ c, c ∉ date_cols →
            let d := foldl (fun df col =>
                              if has_column df col
                              then assign df col (to_datetime (column df col))
                              else df) df date_cols in
            has_column d c = has_column df c ∧ column d c = column df c
            ∧ length (rows d) = length (rows df))
    by (intros c Hc; by apply date_loop_other).
  set (d := foldl _ df date_cols) in *. cbv zeta in Hd.
  assert (Ho : "onboarding_step" ∉ date_cols) by (unfold date_cols; not_in_list).
  destruct (Hd _ Ho) as (H1 & H2 & H3).
  rewrite H1, Hcol.
  set (d1 := assign d "readable_onboarding_step" _).
  set (dv := assign d1 "onboarding_version" _).
  unfold assign at 1. cbn [rows].
  intros Hi. apply lookup_zip_with_Some in Hi as (r2 & v & -> & Hr2 & Hv).
  rewrite list_lookup_fmap, Hr2 in Hv. injection Hv as <-.
  unfold dv in Hr2. rewrite rows_assign_column in Hr2.
  unfold d1 in Hr2. rewrite rows_assign_column in Hr2.
  rewrite !list_lookup_fmap in Hr2.
  destruct (rows d !! i) as [rd|] eqn:Hrd; [|done].
  injection Hr2 as <-.
  assert (Hlt : (i < length (rows df))%nat).
  { apply lookup_lt_Some in Hrd. lia. }
  apply lookup_lt_is_Some_2 in Hlt as [r0 Hr0].
  exists r0. split; [done|].
  assert (Hsame : ∀ c, c ∉ date_cols → get rd c = get r0 c).
  { intros c Hc. destruct (Hd c Hc) as (_ & Hc2 & _).
    by apply (column_eq_lookup df d c i). }
  split; [|split; [|split; [|split]]].
  - intros c Hc. apply not_elem_of_app in Hc as [Hc1 Hc2].
    rewrite !not_elem_of_cons in Hc2. destruct Hc2 as (N1 & N2 & N3 & _).
    rewrite !get_insert_ne by done. by apply Hsame.
  - rewrite (get_insert_ne _ "journey_stage") by done.
    rewrite (get_insert_ne _ "onboarding_version") by done.
    rewrite get_insert_eq. by rewrite Hsame.
  - rewrite (get_insert_ne _ "journey_stage") by done.
    rewrite get_insert_eq, get_insert_ne by done. by rewrite Hsame.
  - rewrite get_insert_eq. f_equal. apply get_journey_stage_ext.
    intros c. rewrite !elem_of_cons, elem_of_nil.
    intros [->|[->|[->|[->|[->|[]]]]]]; symmetry; by apply get_insert_ne.
  - rewrite !get_insert_ne by done. by apply (date_loop_notna date_cols df _ i).
Qed.

Lemma rows_track_journey (df : DataFrame) :
  length (rows (track_journey df)) = length (rows df).
Proof.
  unfold track_journey.
  destruct (date_loop_other date_cols "" df) as (_ & _ & H);
    [unfold date_cols; not_in_list|].
  cbv zeta in H. set (d := foldl _ df date_cols) in *.
  rewrite rows_assign_length by (by rewrite length_fmap).
  destruct (has_column d "onboarding_step").
  - by rewrite !rows_assign_fmap_length.
  - unfold assign_scalar; cbn [rows]. by rewrite !length_fmap.
Qed.

Lemma remove_duplicates_sublist (df : DataFrame) :
  sublist (rows (remove_duplicates df)) (rows df).
Proof.
  rewrite remove_duplicates_rows.
  destruct (has_column df "email"), (has_column df "mobile"); simpl;
    try done; try apply keep_first_sublist.
  etrans; apply keep_first_sublist.
Qed.

Lemma has_onboarding_step (df : DataFrame) :
  has_column (add_presence_flags (migrate df)) "onboarding_step"
  = has_column df "onboarding_step"
  ∧ has_column (track_journey (add_presence_flags (migrate df))) "onboarding_step"
    = has_column df "onboarding_step".
Proof.
  assert (Hc2 : has_column (add_presence_flags (migrate df)) "onboarding_step"
                = has_column df "onboarding_step").
  { apply eq_true_iff_eq.
    rewrite has_column_add_presence_flags, has_column_migrate.
    rewrite !orb_true_iff, !bool_decide_eq_true, !elem_of_cons, elem_of_nil.
    unfold ecommerce_col, social_col, map_col, website_col.
    split; [|tauto]. intros [[?|[?|[?|[?|[?|[]]]]]]|[[[[?|?]|?]|?]|?]]; done. }
  split; [done|]. apply eq_true_iff_eq.
  rewrite has_column_track_journey, Hc2, !elem_of_cons, elem_of_nil.
  split; [|tauto]. intros [[?|[?|[?|[]]]]|?]; done.
Qed.

Lemma enrich_none (df : DataFrame) :
  has_column df "onboarding_step" = false → enrich df = None.
Proof.
  intros Hcol. destruct (has_onboarding_step df) as [_ Hc3].
  unfold enrich, add_step_flags, step_config. cbn [foldl mbind option_bind].
  by rewrite Hc3, Hcol.
Qed.

Lemma enrich_some (df : DataFrame) :
  has_column df "onboarding_step" = true →
  ∃ d4,
    enrich df = Some (remove_duplicates d4)
    ∧ rows d4
      = step_flag_row <$> rows (track_journey (add_presence_flags (migrate df)))
    ∧ (∀ c, has_column df c = true → has_column d4 c = true).
Proof.
  intros Hcol. destruct (has_onboarding_step df) as [_ Hc3].
  rewrite Hcol in Hc3.
  destruct (add_step_flags_rows _ Hc3) as (d4 & Hd4 & Hrows4 & Hcols4).
  exists d4. split; [|split; [done|]].
  - unfold enrich. by rewrite Hd4.
  - intros c Hc. rewrite Hcols4. apply orb_true_iff. right.
    apply has_column_track_journey. right.
    apply has_column_add_presence_flags. right.
    rewrite has_column_migrate, Hc. by rewrite !orb_true_r.
Qed.

(** A row of the frame [main] writes, against the row of the input it
    comes from: the row after migration and flagging, then the journey
    columns, then the step flags. *)
Lemma enrich_row (df out : DataFrame) (r : Row) :
  enrich df = Some out → r ∈ rows out →
  ∃ r0 r3,
    let r2 := presence_row (has_column (migrate df) "converted_date")
                (migrate_row r0) in
    r = step_flag_row r3
    ∧ (∀ c, c ∉ date_cols ++ ["readable_onboarding_step"; "onboarding_version";
                               "journey_stage"] →
            get r3 c = get r2 c)
    ∧ get r3 "readable_onboarding_step" = clean_step_name (get r2 "onboarding_step")
    ∧ get r3 "onboarding_version" = extract_version (get r2 "onboarding_step")
    ∧ get r3 "journey_stage" = Str (get_journey_stage r3)
    ∧ (notna (get r3 "converted_date") = true →
       notna (get r2 "converted_date") = true).
Proof.
  intros Hout Hin.
  destruct (has_column df "onboarding_step") eqn:Hcol;
    [|by rewrite enrich_none in Hout].
  destruct (enrich_some df Hcol) as (d4 & He & Hrows4 & _).
  rewrite He in Hout. injection Hout as <-.
  pose proof (elem_of_sublist _ _ _ Hin (remove_duplicates_sublist d4)) as Hin4.
  rewrite Hrows4 in Hin4. apply list_elem_of_fmap in Hin4 as (r3 & -> & Hin3).
  apply list_elem_of_lookup in Hin3 as [i Hi3].
  destruct (has_onboarding_step df) as [Hc2 _]. rewrite Hcol in Hc2.
  destruct (track_journey_lookup _ i r3 Hc2 Hi3) as (r2 & Hi2 & T).
  rewrite add_presence_flags_rows, list_lookup_fmap in Hi2.
  destruct (migrate_rows df) as (df0 & Hr0 & _).
  rewrite Hr0, list_lookup_fmap in Hi2.
  destruct (rows df0 !! i) as [r0|]; [|done]. simpl in Hi2.
  injection Hi2 as <-.
  by exists r0, r3.
Qed.

Lemma step_flag_row_get (r3 : Row) :
  (∀ cfg, cfg ∈ step_config →
     get (step_flag_row r3) cfg.1
     = Int (check_step (get r3 "onboarding_step") cfg.2))
  ∧ (∀ c, c ∉ ["otp_sign_up_confirmation_step"; "business_info_step";
               "v2_personal_details_step"; "v2_business_details_step";
               "kyc_step"; "v2_bank_details_step";
               "review_application_step"; "v3_sign_contract_step";
               "final_step"] →
          get (step_flag_row r3) c = get r3 c).
Proof.
  destruct step_config_names as [Hs1 Hs2].
  apply (step_flag_fold_get step_config r3 Hs1 Hs2).
Qed.

(** [main] of enrich_leads.py, from the frame it reads to the frame it
    writes.  It fails exactly when the frame has no [onboarding_step]
    column.  The frame written has at most the rows of the input; no two
    of its rows share a mobile, or an email, that is not missing; and in
    every row the website is not a maps, social or ecommerce URL, the
    four presence flags are those of the row's own fields, the readable
    step, the version and the nine step flags are those of the row's own
    step code, and the stage is the stage of the row as written: no later
    step of the script overwrites what an earlier step derived. *)
Theorem enrich_output (df : DataFrame) :
  (enrich df = None ↔ has_column df "onboarding_step" = false)
  ∧ (∀ out, enrich df = Some out →
       (length (rows out) ≤ length (rows df))%nat
       ∧ (has_column df "mobile" = true →
          NoDup (filter (fun k : cell => k ≠ NaN) (column out "mobile")))
       ∧ (has_column df "email" = true →
          NoDup (filter (fun k : cell => k ≠ NaN) (column out "email")))
       ∧ Forall (fun r : Row =>
           classify (get r website_col) = none
           ∧ get r "has_website" = Int (create_flag (get r website_col))
           ∧ get r "has_maps" = Int (create_flag (get r map_col))
           ∧ get r "has_social_media" = Int (create_flag (get r social_col))
           ∧ get r "has_ecommerce" = Int (create_flag (get r ecommerce_col))
           ∧ get r "readable_onboarding_step"
             = clean_step_name (get r "onboarding_step")
           ∧ get r "onboarding_version"
             = extract_version (get r "onboarding_step")
           ∧ get r "journey_stage" = Str (get_journey_stage r)
           ∧ (∀ cfg, cfg ∈ step_config →
                get r cfg.1
                = Int (check_step (get r "onboarding_step") cfg.2)))
           (rows out)).
Proof.
  destruct (has_column df "onboarding_step") eqn:Hcol.
  2: { rewrite (enrich_none df Hcol). split; [done|]. intros out H. done. }
  destruct (enrich_some df Hcol) as (d4 & He & Hrows4 & Hmono).
  split; [rewrite He; split; done|].
  intros out Hout. pose proof Hout as Hout'.
  rewrite He in Hout'. injection Hout' as <-.
  destruct (remove_duplicates_fresh d4) as [Hm Hem].
  split.
  { etrans; [apply sublist_length, remove_duplicates_sublist|].
    rewrite Hrows4, length_fmap, rows_track_journey, add_presence_flags_rows,
      length_fmap.
    destruct (migrate_rows df) as (df0 & Hr & Hl). rewrite Hr, length_fmap. lia. }
  split; [intros H; by apply (fresh_keys_NoDup "mobile" []), Hm, Hmono|].
  split; [intros H; by apply (fresh_keys_NoDup "email" []), Hem, Hmono|].
  apply Forall_forall. intros r Hin.
  destruct (enrich_row df _ r Hout Hin) as (r0 & r3 & -> & T1 & T2 & T3 & T4 & _).
  set (b := has_column (migrate df) "converted_date") in *.
  destruct (presence_row_get b (migrate_row r0)) as (P0 & P1 & P2 & P3 & P4).
  destruct (step_flag_row_get r3) as [F1 F2].
  assert (K : ∀ c, c ∈ [website_col; map_col; social_col; ecommerce_col;
                        "has_website"; "has_maps"; "has_social_media";
                        "has_ecommerce"; "onboarding_step"] →
                   get (step_flag_row r3) c = get (presence_row b (migrate_row r0)) c).
  { intros c Hc. rewrite F2, T1; first done.
    all: rewrite !elem_of_cons, elem_of_nil in Hc;
      unfold website_col, map_col, social_col, ecommerce_col, date_cols in *;
      destruct Hc as [->|[->|[->|[->|[->|[->|[->|[->|[->|[]]]]]]]]]];
      not_in_list. }
  rewrite !K by (rewrite !elem_of_cons; tauto).
  rewrite P1, P2, P3, P4.
  rewrite !P0 by (unfold website_col, map_col, social_col, ecommerce_col; not_in_list).
  rewrite !F2 by not_in_list.
  split.
  { rewrite migrate_row_website.
    destruct (classify (get r0 website_col)) eqn:E; try apply classify_NaN. done. }
  do 4 (split; [done|]).
  assert (To : get r3 "onboarding_step"
               = get (presence_row b (migrate_row r0)) "onboarding_step")
    by (apply T1; unfold date_cols; not_in_list).
  split; [by rewrite To|]. split; [by rewrite To|].
  split.
  { rewrite T4. f_equal. apply get_journey_stage_ext.
    intros c. rewrite !elem_of_cons, elem_of_nil.
    intros [->|[->|[->|[->|[->|[]]]]]]; symmetry; apply F2; not_in_list. }
  intros cfg Hcfg. apply (F1 cfg Hcfg).
Qed.

Lemma presence_row_converted (b : bool) (r : Row) :
  get (presence_row b r) "is_converted"
  = if b then Int (if notna (get r "converted_date") then 1 else 0) else Int 0.
Proof.
  unfold presence_row. cbv zeta.
  rewrite !(get_insert_ne _ _ "is_converted") by done. apply get_insert_eq.
Qed.

Lemma converted_stage (r : Row) :
  get_journey_stage r = "Converted" → notna (get r "converted_date") = true.
Proof.
  unfold get_journey_stage. rewrite !in_row_notna. unfold present.
  destruct (notna (get r "converted_date")); [done|].
  destruct (notna (get r "kyb_submitted_date")); [done|].
  destruct (notna (get r "kyb_in_progress_date")); [done|].
  destruct (notna (get r "readable_onboarding_step")).
  - destruct (Py.contains _ _); [done|]. rewrite append_cons. done.
  - by destruct (notna (get r "created_date")).
Qed.

(** In the frame [main] of enrich_leads.py writes, a row whose stage is
    "Converted" has the flag [is_converted] set, when the input has the
    column [converted_date]; when it has not, the flag is 0 in every
    row.  The flag is taken from the column as read, before the journey
    step parses it as a date, the stage after. *)
Theorem converted_stage_has_flag (df out : DataFrame) :
  enrich df = Some out →
  Forall (fun r : Row =>
            (has_column df "converted_date" = true →
             get r "journey_stage" = Str "Converted" →
             get r "is_converted" = Int 1)
            ∧ (has_column df "converted_date" = false →
               get r "is_converted" = Int 0)) (rows out).
Proof.
  intros Hout. apply Forall_forall. intros r Hin.
  destruct (enrich_row df _ r Hout Hin) as (r0 & r3 & -> & T1 & _ & _ & T4 & T5).
  assert (Hb : has_column (migrate df) "converted_date"
               = has_column df "converted_date").
  { rewrite has_column_migrate.
    unfold ecommerce_col, social_col, map_col, website_col.
    by rewrite !bool_decide_eq_false_2 by done. }
  rewrite Hb in *.
  destruct (step_flag_row_get r3) as [_ F2].
  rewrite !F2 by not_in_list.
  rewrite (T1 "is_converted") by (unfold date_cols; not_in_list).
  rewrite presence_row_converted.
  destruct (has_column df "converted_date"); [|done].
  split; [|done]. intros _ Hst. rewrite T4 in Hst. injection Hst as Hst.
  apply converted_stage, T5 in Hst.
  destruct (presence_row_get true (migrate_row r0)) as (P0 & _).
  rewrite P0 in Hst by not_in_list. by rewrite Hst.
Qed.

Lemma ensure_column_other (df : DataFrame) (c c' : string) :
  c ≠ c' → column (ensure_column df c) c' = column df c'.
Proof.
  intros Hne. unfold ensure_column. destruct (has_column df c); [done|].
  unfold column, assign_scalar. cbn [rows]. rewrite <- list_fmap_compose.
  apply list_fmap_ext. intros i r _. simpl. by rewrite get_insert_ne.
Qed.

Lemma migrate_row_other (row : Row) (c : string) :
  c ∉ [website_col; map_col; social_col; ecommerce_col] →
  get (migrate_row row) c = get row c.
Proof.
  rewrite !not_elem_of_cons. intros (N1 & N2 & N3 & N4 & _).
  rewrite migrate_row_unfold. cbv zeta.
  destruct (is_google_maps_url (get row website_col)),
    (is_empty (get row map_col)),
    (is_social_media_url (get row website_col)),
    (is_ecommerce_url (get row website_col));
    by rewrite ?get_insert_ne by done.
Qed.

(** The migration reads and writes four columns only: every other column
    of the frame is left as it is, no row is added or removed, and a row
    whose website is not a maps, social or ecommerce URL is left as it
    is. *)
Theorem migration_touches_four_fields (df : DataFrame) :
  (∀ c, c ∉ [website_col; map_col; social_col; ecommerce_col] →
        column (migrate df) c = column df c
        ∧ has_column (migrate df) c = has_column df c)
  ∧ (∀ c, c ∈ [website_col; map_col; social_col; ecommerce_col] →
          has_column (migrate df) c = true)
  ∧ (∀ (row : Row) (c : string),
       c ∉ [website_col; map_col; social_col; ecommerce_col] →
       get (migrate_row row) c = get row c)
  ∧ (∀ row : Row, classify (get row website_col) = none → migrate_row row = row).
Proof.
  split; [|split; [|split; [apply migrate_row_other|]]].
  - intros c Hc. split.
    + unfold migrate, column. cbn [rows]. rewrite migrate_loop_rows.
      rewrite <- list_fmap_compose.
      rewrite (list_fmap_ext _ (fun r : Row => get r c))
        by (intros i r _; simpl; by apply migrate_row_other).
      rewrite !not_elem_of_cons in Hc. destruct Hc as (N1 & N2 & N3 & N4 & _).
      change ((fun r : Row => get r c) <$> rows ?d) with (column d c).
      by rewrite !ensure_column_other by done.
    + rewrite has_column_migrate.
      rewrite !not_elem_of_cons in Hc. destruct Hc as (N1 & N2 & N3 & N4 & _).
      by rewrite !bool_decide_eq_false_2 by done.
  - intros c Hc. rewrite has_column_migrate.
    repeat (apply elem_of_cons in Hc as [->|Hc]; [by rewrite ?orb_true_r|]).
    by apply elem_of_nil in Hc.
  - intros row Hn. apply classify_none in Hn as (H1 & H2 & H3).
    rewrite migrate_row_unfold. cbv zeta. by rewrite H1, H2, H3.
Qed.

(** *** The step name, the version and the case of the step code *)

Lemma upper_char_idem (c : ascii) : Py.upper_char (Py.upper_char c) = Py.upper_char c.
Proof. each_char c. Qed.

Lemma is_cased_lower_char (c : ascii) : Py.is_cased (Py.lower_char c) = Py.is_cased c.
Proof. each_char c. Qed.

Lemma is_cased_upper_char (c : ascii) : Py.is_cased (Py.upper_char c) = Py.is_cased c.
Proof. each_char c. Qed.

Lemma is_digit_lower_char (c : ascii) : Py.is_digit (Py.lower_char c) = Py.is_digit c.
Proof. each_char c. Qed.

Lemma upper_char_digit (c : ascii) : Py.is_digit c = true → Py.upper_char c = c.
Proof. destruct c as [[|] [|] [|] [|] [|] [|] [|] [|]]; by vm_compute. Qed.

Lemma lower_char_digit (c : ascii) : Py.is_digit c = true → Py.lower_char c = c.
Proof. destruct c as [[|] [|] [|] [|] [|] [|] [|] [|]]; by vm_compute. Qed.

Lemma underscore_lower_char (c : ascii) :
  Ascii.eqb (Py.lower_char c) "_" = Ascii.eqb c "_".
Proof. each_char c. Qed.

Lemma underscore_upper_char (c : ascii) :
  Ascii.eqb (Py.upper_char c) "_" = Ascii.eqb c "_".
Proof. each_char c. Qed.

Lemma space_not_upper (c : ascii) :
  Py.is_space c = true → negb (Py.is_upper c) = true.
Proof. destruct c as [[|] [|] [|] [|] [|] [|] [|] [|]]; by vm_compute. Qed.

Lemma match_digits (s : string) :
  Py.match_here [(Py.is_digit, Py.Plus)] s
  = if (0 <? digits_prefix s)%nat then Some (digits_prefix s) else None.
Proof.
  induction s as [|c t IH]; [done|].
  rewrite match_plus_cons, IH. cbn [digits_prefix].
  destruct (Py.is_digit c); [|done].
  by destruct (digits_prefix t) as [|m].
Qed.

Lemma match_version_search (s : string) :
  Py.match_here version_search_re s
  = match s with
    | String c t =>
        if Ascii.eqb "v" c && (0 <? digits_prefix t)%nat
        then Some (S (digits_prefix t)) else None
    | EmptyString => None
    end.
Proof.
  destruct s as [|c t]; [done|]. unfold version_search_re.
  rewrite match_one_cons, match_digits. unfold Py.chr.
  destruct (Ascii.eqb "v" c); [|done]. by destruct (0 <? _)%nat.
Qed.

Lemma slice_digits (s : string) :
  all_chars Py.is_digit (Py.slice_to (digits_prefix s) s) = true.
Proof.
  induction s as [|c t IH]; simpl; [done|].
  destruct (Py.is_digit c) eqn:E; simpl; [by rewrite E|done].
Qed.

Lemma slice_digits_nonempty (s : string) :
  (0 < digits_prefix s)%nat → Py.slice_to (digits_prefix s) s ≠ EmptyString.
Proof.
  destruct s as [|c t]; simpl; [lia|].
  destruct (Py.is_digit c); simpl; [done|lia].
Qed.

Lemma digits_prefix_app (ds rest : string) :
  all_chars Py.is_digit ds = true → digits_prefix rest = 0%nat →
  digits_prefix (ds +:+ rest) = String.length ds
  ∧ Py.slice_to (String.length ds) (ds +:+ rest) = ds.
Proof.
  intros Hd Hr. induction ds as [|c t IH].
  - split; [done|]. simpl. by destruct rest.
  - simpl in Hd. apply andb_true_iff in Hd as [Hc Ht].
    destruct (IH Ht) as [I1 I2]. rewrite append_cons.
    cbn [digits_prefix String.length Py.slice_to]. rewrite Hc, I1, I2. done.
Qed.

Lemma digits_prefix_lower (s : string) :
  digits_prefix (Py.lower s) = digits_prefix s.
Proof.
  unfold Py.lower. induction s as [|c t IH]; simpl; [done|].
  by rewrite is_digit_lower_char, IH.
Qed.

Lemma map_chars_app (f : ascii → ascii) (s t : string) :
  Py.map_chars f (s +:+ t) = Py.map_chars f s +:+ Py.map_chars f t.
Proof.
  induction s as [|c s IH]; [done|].
  rewrite append_cons. cbn [Py.map_chars]. by rewrite IH, append_cons.
Qed.

Lemma map_chars_fixed (f : ascii → ascii) (p : ascii → bool) (s : string) :
  (∀ c, p c = true → f c = c) → all_chars p s = true → Py.map_chars f s = s.
Proof.
  intros H. induction s as [|c t IH]; simpl; [done|].
  intros [Hc Ht]%andb_true_iff. by rewrite H, IH.
Qed.

(** What [re.search] finds for the pattern of the version: a "v" and the
    digits that follow it. *)
Lemma search_version (s m : string) :
  Py.search version_search_re s = Some m →
  ∃ ds, m = String "v" ds ∧ ds ≠ EmptyString ∧ all_chars Py.is_digit ds = true.
Proof.
  induction s as [|c t IH]; cbn [Py.search]; rewrite match_version_search; [done|].
  destruct (Ascii.eqb_spec "v" c) as [<-|]; cbn [andb]; [|apply IH].
  destruct (0 <? digits_prefix t)%nat eqn:E; [|apply IH].
  intros [= <-]. cbn [Py.slice_to].
  exists (Py.slice_to (digits_prefix t) t). split; [done|].
  split; [|apply slice_digits].
  apply slice_digits_nonempty. by apply Nat.ltb_lt.
Qed.

(** The version of a step code is "Unknown" or a "V" followed by one or
    more digits; for a code that starts with a "v" or a "V", digits and
    something that is not a digit, it is the "V" and those digits. *)
Theorem extract_version_format (val : cell) :
  (extract_version val = Str "Unknown"
   ∨ ∃ ds, extract_version val = Str (String "V" ds)
           ∧ ds ≠ EmptyString ∧ all_chars Py.is_digit ds = true)
  ∧ (∀ ds rest,
       ds ≠ EmptyString → all_chars Py.is_digit ds = true →
       digits_prefix rest = 0%nat →
       extract_version (Str (String "v" (ds +:+ rest))) = Str (String "V" ds)
       ∧ extract_version (Str (String "V" (ds +:+ rest))) = Str (String "V" ds)).
Proof.
  split.
  - unfold extract_version. destruct (isna val || _); [by left|]. cbv zeta.
    destruct (Py.search _ _) as [m|] eqn:E; [|by left].
    apply search_version in E as (ds & -> & Hne & Hd).
    right. exists ds. split; [|done].
    unfold Py.upper. cbn [Py.map_chars].
    by rewrite (map_chars_fixed _ Py.is_digit) by (done || apply upper_char_digit).
  - intros ds rest Hne Hd Hr.
    assert (H : ∀ c, Py.lower_char c = "v"%char →
              extract_version (Str (String c (ds +:+ rest))) = Str (String "V" ds)).
    { intros c Hc. unfold extract_version. cbn [isna orb str].
      rewrite bool_decide_eq_false_2 by done. cbv zeta.
      unfold Py.lower. cbn [Py.map_chars]. rewrite Hc, map_chars_app.
      rewrite (map_chars_fixed _ Py.is_digit ds) by (done || apply lower_char_digit).
      cbn [Py.search]. rewrite match_version_search.
      assert (Hr' : digits_prefix (Py.map_chars Py.lower_char rest) = 0%nat)
        by (etrans; [apply (digits_prefix_lower rest)|done]).
      destruct (digits_prefix_app ds _ Hd Hr') as [D1 D2].
      rewrite D1. cbn [Ascii.eqb Bool.eqb andb].
      assert ((0 <? String.length ds)%nat = true) as ->
        by (destruct ds; [done|by apply Nat.ltb_lt; simpl; lia]).
      cbn [Py.slice_to]. rewrite D2.
      unfold Py.upper. cbn [Py.map_chars].
      by rewrite (map_chars_fixed _ Py.is_digit) by (done || apply upper_char_digit). }
    split; by apply H.
Qed.

(** On ASCII text, title-casing twice is title-casing once. *)
Lemma title_from_idem (b : bool) (s : string) :
  Py.isascii s = true →
  Py.title_from b (Py.title_from b s) = Py.title_from b s.
Proof.
  intros _. revert b. induction s as [|c t IH]; intros b; [done|].
  cbn [Py.title_from]. destruct (Py.is_cased c) eqn:E.
  - cbn [Py.title_from]. destruct b.
    + by rewrite is_cased_lower_char, E, lower_char_idem, IH.
    + by rewrite is_cased_upper_char, E, upper_char_idem, IH.
  - cbn [Py.title_from]. by rewrite E, IH.
Qed.

Lemma title_from_no_underscore (b : bool) (s : string) :
  all_chars (fun c => negb (Ascii.eqb c "_")) (Py.title_from b s)
  = all_chars (fun c => negb (Ascii.eqb c "_")) s.
Proof.
  revert b. induction s as [|c t IH]; intros b; [done|].
  cbn [Py.title_from]. destruct (Py.is_cased c).
  - cbn [all_chars]. rewrite IH.
    destruct b; by rewrite ?underscore_lower_char, ?underscore_upper_char.
  - cbn [all_chars]. by rewrite IH.
Qed.

Lemma underscores_to_spaces_clean (s : string) :
  all_chars (fun c => negb (Ascii.eqb c "_")) (underscores_to_spaces s) = true.
Proof.
  unfold underscores_to_spaces. rewrite all_chars_map_chars.
  induction s as [|c t IH]; simpl; [done|].
  rewrite IH, andb_true_r. by destruct (Ascii.eqb c "_") eqn:E; [|rewrite E].
Qed.

Lemma isascii_all_chars (s : string) :
  Py.isascii s = all_chars (fun c => (nat_of_ascii c <? 128)%nat) s.
Proof. induction s as [|c t IH]; simpl; [done|]. by rewrite IH. Qed.

Lemma ascii_lower_char (c : ascii) :
  (nat_of_ascii (Py.lower_char c) <? 128)%nat = (nat_of_ascii c <? 128)%nat.
Proof. each_char c. Qed.

Lemma ascii_upper_char (c : ascii) :
  (nat_of_ascii (Py.upper_char c) <? 128)%nat = (nat_of_ascii c <? 128)%nat.
Proof. each_char c. Qed.

Lemma append_empty_l (x : string) : "" +:+ x = x.
Proof. done. Qed.

(** Deleting matches, or occurrences, leaves characters of the text. *)
Lemma sub_from_all_chars (p : ascii → bool) (re : Py.regex) (k : nat) (s : string) :
  all_chars p s = true → all_chars p (Py.sub_from re "" k s) = true.
Proof.
  revert k. induction s as [|c t IH]; intros k H; [done|].
  simpl in H. apply andb_true_iff in H as [Hc Ht].
  cbn [Py.sub_from]. destruct k as [|k]; [|by apply IH].
  destruct (Py.match_here re (String c t)) as [[|n]|];
    rewrite ?append_empty_l; cbn [all_chars]; rewrite ?Hc; by apply IH.
Qed.

Lemma replace_from_all_chars (p : ascii → bool) (old : string) (k : nat)
  (s : string) :
  all_chars p s = true → all_chars p (Py.replace_from old "" k s) = true.
Proof.
  revert k. induction s as [|c t IH]; intros k H; [done|].
  simpl in H. apply andb_true_iff in H as [Hc Ht].
  cbn [Py.replace_from]. destruct k as [|k]; [|by apply IH].
  destruct (Py.startswith old (String c t));
    rewrite ?append_empty_l; cbn [all_chars]; rewrite ?Hc; by apply IH.
Qed.

Lemma title_from_ascii (b : bool) (s : string) :
  Py.isascii (Py.title_from b s) = Py.isascii s.
Proof.
  revert b. induction s as [|c t IH]; intros b; [done|].
  cbn [Py.title_from]. destruct (Py.is_cased c); cbn [Py.isascii]; rewrite IH;
    [|done].
  destruct b; by rewrite ?ascii_lower_char, ?ascii_upper_char.
Qed.

(** The text the readable name is title-cased from is ASCII when the code
    is. *)
Lemma step_name_ascii (s : string) :
  Py.isascii s = true →
  Py.isascii
    (underscores_to_spaces
       (Py.replace "_step" "" (Py.sub version_re "" (Py.lower s)))) = true.
Proof.
  intros H. rewrite isascii_all_chars in *.
  unfold underscores_to_spaces. rewrite all_chars_map_chars.
  rewrite (all_chars_ext _ (fun c => (nat_of_ascii c <? 128)%nat))
    by (intros c; by destruct (Ascii.eqb_spec c "_") as [->|]).
  apply replace_from_all_chars, sub_from_all_chars.
  unfold Py.lower. rewrite all_chars_map_chars.
  by rewrite (all_chars_ext _ (fun c => (nat_of_ascii c <? 128)%nat))
    by apply ascii_lower_char.
Qed.

(** The readable name of a step code is missing exactly for a missing or
    empty code; otherwise it is a text that holds no underscore, and for
    a code of ASCII text it is an ASCII text in title case: title-casing
    it again changes nothing. *)
Theorem clean_step_name_format (val : cell) :
  (clean_step_name val = NaN ↔ val = NaN ∨ val = Str "")
  ∧ (∀ s, clean_step_name val = Str s →
       all_chars (fun c => negb (Ascii.eqb c "_")) s = true
       ∧ (Py.isascii (str val) = true →
          Py.isascii s = true ∧ Py.title s = s)).
Proof.
  split.
  - unfold clean_step_name. destruct val as [|s|n|t]; cbn [isna orb].
    + split; [by left|done].
    + case_bool_decide as E.
      * split; [intros _; right; congruence|done].
      * split; [done|]. intros [?|?]; done.
    + rewrite bool_decide_eq_false_2 by done. split; [done|]. intros [?|?]; done.
    + rewrite bool_decide_eq_false_2 by done. split; [done|]. intros [?|?]; done.
  - intros s. unfold clean_step_name. destruct (isna val || _); [done|].
    cbv zeta. intros [= <-]. rewrite replace_underscores. split.
    + unfold Py.title. rewrite title_from_no_underscore.
      apply underscores_to_spaces_clean.
    + intros Ha. apply step_name_ascii in Ha. split.
      * unfold Py.title. by rewrite title_from_ascii.
      * by apply title_from_idem.
Qed.

Lemma lstrip_keeps_all (p : ascii → bool) (s : string) :
  (∀ c, Py.is_space c = true → p c = true) →
  all_chars p (Py.lstrip s) = all_chars p s.
Proof.
  intros H. induction s as [|c t IH]; simpl; [done|].
  destruct (Py.is_space c) eqn:E; [|done]. by rewrite IH, (H c E).
Qed.

Lemma rstrip_keeps_all (p : ascii → bool) (s : string) :
  (∀ c, Py.is_space c = true → p c = true) →
  all_chars p (Py.rstrip s) = all_chars p s.
Proof.
  intros H. induction s as [|c t IH]; simpl; [done|].
  destruct (Py.is_space c) eqn:E; simpl.
  - destruct (String.eqb_spec (Py.rstrip t) "") as [Ht|Ht].
    + rewrite <- IH, Ht. simpl. by rewrite (H c E).
    + simpl. by rewrite IH.
  - by rewrite IH.
Qed.

Lemma strip_keeps_all (p : ascii → bool) (s : string) :
  (∀ c, Py.is_space c = true → p c = true) →
  all_chars p (Py.strip s) = all_chars p s.
Proof.
  intros H. unfold Py.strip. by rewrite rstrip_keeps_all, lstrip_keeps_all.
Qed.

(** The step flags compare the code as it is written, the readable name
    and the version do not: a code with an upper-case letter sets none of
    the nine flags, while its name and version are those of the code in
    lower case. *)
Theorem step_flags_are_case_sensitive (s : string) :
  (all_chars (fun c => negb (Py.is_upper c)) s = false →
   ∀ cfg, cfg ∈ step_config → check_step (Str s) cfg.2 = 0)
  ∧ clean_step_name (Str s) = clean_step_name (Str (Py.lower s))
  ∧ extract_version (Str s) = extract_version (Str (Py.lower s)).
Proof.
  split; [|split].
  - intros Hup cfg Hcfg. unfold check_step. cbn [isna str].
    case_bool_decide as H; [exfalso|done].
    rewrite <- (strip_keeps_all _ s space_not_upper) in Hup.
    unfold step_config in Hcfg. rewrite !elem_of_cons, elem_of_nil in Hcfg.
    destruct Hcfg as [->|[->|[->|[->|[->|[->|[->|[->|[->|[]]]]]]]]]];
      cbn [snd] in H; rewrite !elem_of_cons, elem_of_nil in H;
      destruct H as [H|H]; try destruct H as [H|H]; try done;
      rewrite H in Hup; by vm_compute in Hup.
  - unfold clean_step_name. cbn [isna orb str]. rewrite lower_idem.
    destruct s as [|c t]; [done|].
    by rewrite !bool_decide_eq_false_2 by done.
  - unfold extract_version. cbn [isna orb str]. rewrite lower_idem.
    destruct s as [|c t]; [done|].
    by rewrite !bool_decide_eq_false_2 by done.
Qed.

End Pandas.

(** ** The properties on the samples *)

Example cutoff_is_first_of_june :
  BLACKLIST_START_DATE = 1717200000 * 1000000000.
Proof. reflexivity. Qed.

(** C1, the code at the failing input: the two leads of
    [null_dates_sample], and of [null_dates_leads], have no creation date
    (one is missing, one is a text that is not a date) and raw codes that
    read as PASSED; the step gives both the status 0, and [main] writes
    neither of them. *)
Lemma null_creation_date_is_not_safe :
  (fun df => (column df "created_date", column df "blacklist_status"))
    <$> apply_blacklist_logic sample_parse_datetime sample_tz_aware
          sample_timestamp_text null_dates_sample
  = Some ([NaN; NaN], [Int 0; Int 0])
  ∧ (fun df => (column df "blacklist_status",
                length (rows (filter_blacklist df))))
      <$> apply_blacklist_logic sample_parse_datetime sample_tz_aware
            sample_timestamp_text null_dates_leads
    = Some ([Int 0; Int 0], 0%nat)
  ∧ (fun df => length (rows df))
      <$> pipeline sample_parse_datetime sample_tz_aware sample_timestamp_text
            null_dates_leads
    = Some 0%nat.
Proof. vm_compute. auto. Qed.


(** A creation date with a UTC offset: the column is timezone-aware, the
    comparison with the cutoff raises, and no status is assigned, though
    the date is read and is before the cutoff.  In [main] the column is
    read by [clean_dates] first and is timezone-aware from then on: the
    step raises there too, and nothing is written. *)
Example offset_dates_raise :
  apply_blacklist_logic sample_parse_datetime sample_tz_aware
    sample_timestamp_text offset_dates_sample = None
  ∧ to_datetime sample_parse_datetime (column offset_dates_sample "created_date")
    = [Timestamp offset_instant]
  ∧ offset_instant < BLACKLIST_START_DATE
  ∧ column (clean_dates sample_parse_datetime offset_dates_leads) "created_date"
    = [Timestamp offset_instant]
  ∧ pipeline sample_parse_datetime sample_tz_aware sample_timestamp_text
      offset_dates_leads = None.
Proof. vm_compute. auto. Qed.

Example blacklist_sample_status :
  (fun df => column df "blacklist_status")
    <$> apply_blacklist_logic sample_parse_datetime sample_tz_aware sample_timestamp_text
          blacklist_sample
  = Some [Int 1; Int 1; Int 0; Int 1; Int 0; Int 0].
Proof. vm_compute. reflexivity. Qed.


(** A maps URL beside an occupied [google_map_id], in the frame
    [occupied_sample]: the URL is dropped. *)
Lemma maps_url_dropped_sample :
  ∃ row',
    rows (migrate sample_timestamp_text occupied_sample) !! 0%nat = Some row'
    ∧ get row' website_col = NaN
    ∧ get row' map_col = Str "ChIJ-42"
    ∧ ∀ c, get row' c = Str "https://maps.google.com/?cid=42" →
           c ≠ website_col
           ∧ get occupied_maps_lead c = Str "https://maps.google.com/?cid=42".
Proof.
  destruct (maps_url_dropped_when_map_id_occupied sample_timestamp_text
              occupied_sample 0%nat occupied_maps_lead
              eq_refl eq_refl eq_refl eq_refl eq_refl)
    as ((row' & H1 & H2 & H3 & _ & _ & _ & H7) & _).
  exists row'. split; [exact H1|]. split; [exact H2|].
  split; [rewrite H3; reflexivity|exact H7].
Defined.

Example occupied_sample_is_migrated :
  (fun df => (column df "website", column df "google_map_id",
              column df "social_media_links", column df "e-commerce link"))
    (migrate sample_timestamp_text occupied_sample)
  = ([NaN; NaN], [Str "ChIJ-42"; NaN],
     [NaN;
      Str "https://instagram.com/mystore | https://www.facebook.com/mystore"],
     [NaN; NaN]).
Proof. vm_compute. reflexivity. Qed.

Example facebook_url_is_moved :
  get (migrate_row sample_timestamp_text facebook_lead) website_col = NaN
  ∧ get (migrate_row sample_timestamp_text facebook_lead) social_col
    = Str "https://www.facebook.com/mystore".
Proof. vm_compute. auto. Qed.

(** The pass on [mobile], on [shared_mobile_sample]. *)
Lemma dedup_pass_keeps_first_sample :
  let out := rows (drop_duplicates_notna "mobile" shared_mobile_sample) in
  sublist out (rows shared_mobile_sample)
  ∧ filter (fun r : Row => absent (get r "mobile") = true) out
    = filter (fun r : Row => absent (get r "mobile") = true)
        (rows shared_mobile_sample)
  ∧ filter (fun r : Row => get r "mobile" = Str "966500000000") out
    = take 1 (filter (fun r : Row => get r "mobile" = Str "966500000000")
                (rows shared_mobile_sample)).
Proof.
  assert (Hcsv : Forall (fun r : Row => get r "mobile" ≠ Str "")
                   (rows shared_mobile_sample))
    by (repeat constructor; discriminate).
  destruct (dedup_pass_keeps_first "mobile" shared_mobile_sample Hcsv)
    as (_ & H2 & H3 & H4 & _).
  split; [exact H2|]. split; [exact H3|]. apply H4. reflexivity.
Defined.

(** Why the frame must be one that [pd.read_csv] gives: in
    [empty_mobile_sample], a frame built in memory, two records have the
    empty text as mobile, and the pass on [mobile] removes the second.
    The mask of the pass tests [notna] alone. *)
Example empty_mobile_is_a_duplicate :
  column (drop_duplicates_notna "mobile" empty_mobile_sample) "mobile" = [Str ""]
  ∧ column (drop_duplicates_notna "mobile" empty_mobile_sample) "email"
    = [Str "a@shop.sa"]
  ∧ length (rows (drop_duplicates_notna "mobile" empty_mobile_sample)) = 1%nat.
Proof. vm_compute. auto. Qed.

Example shared_mobile_keeps_first :
  column (remove_duplicates shared_mobile_sample) "email"
  = [Str "a@shop.sa"; NaN; NaN].
Proof. vm_compute. reflexivity. Qed.

(** C4 fails as worded: a version token that is not at the start of the
    code and a "_step" that is not at its end are deleted too. *)
Lemma inner_tokens_are_deleted :
  clean_step_name sample_timestamp_text (Str "kyc_v2_step") = Str "Kyc"
  ∧ claimed_step_name "kyc_v2_step" = "Kyc V2"
  ∧ clean_step_name sample_timestamp_text (Str "pre_step_check") = Str "Pre Check"
  ∧ claimed_step_name "pre_step_check" = "Pre Step Check".
Proof. vm_compute. auto. Qed.

Example business_details_step :
  clean_step_name sample_timestamp_text (Str "v2_business_details_step")
  = Str "Business Details"
  ∧ extract_version sample_timestamp_text (Str "v2_business_details_step")
    = Str "V2"
  ∧ claimed_step_name "v2_business_details_step" = "Business Details"
  ∧ step_flags sample_timestamp_text (Str "v2_business_details_step")
    = flags_with (Some 3%nat).
Proof. vm_compute. auto. Qed.

Example final_step_is_completed :
  get_journey_stage sample_timestamp_text
    (lead [("readable_onboarding_step",
             clean_step_name sample_timestamp_text (Str "v3_final_step"))])
  = "Onboarding Completed"
  ∧ step_flags sample_timestamp_text (Str "v3_final_step")
    = flags_with (Some 8%nat).
Proof. vm_compute. auto. Qed.

Example facebook_lead_is_enriched :
  (fun df => (column df "website", column df "social_media_links",
              column df "has_website", column df "has_social_media",
              column df "journey_stage"))
    <$> enrich sample_parse_datetime sample_timestamp_text
          {| columns := ["website"; "social_media_links"; "onboarding_step";
                         "mobile"; "email"];
             rows := [lead [("website", Str "https://www.facebook.com/mystore");
                            ("social_media_links", NaN);
                            ("onboarding_step", Str "v3_final_step");
                            ("mobile", Str "966500000000");
                            ("email", Str "a@shop.sa")];
                      lead [("website", Str "https://shop.example.sa");
                            ("social_media_links", NaN);
                            ("onboarding_step", NaN);
                            ("mobile", Str "966500000000");
                            ("email", Str "b@shop.sa")]] |}
  = Some ([NaN], [Str "https://www.facebook.com/mystore"], [Int 0], [Int 1],
          [Str "Onboarding Completed"]).
Proof. vm_compute. reflexivity. Qed.

(** The presence flags, on the first row of [migration_sample]. *)
Lemma presence_flags_of_migrated_frame_sample :
  ∃ row',
    rows (add_presence_flags sample_timestamp_text
            (migrate sample_timestamp_text migration_sample)) !! 0%nat
    = Some row'
    ∧ get row' "has_website"
      = Int (create_flag sample_timestamp_text (get row' website_col))
    ∧ get row' "has_social_media"
      = Int (create_flag sample_timestamp_text (get row' social_col)).
Proof.
  destruct (rows (add_presence_flags sample_timestamp_text
                    (migrate sample_timestamp_text migration_sample)) !! 0%nat)
    as [row'|] eqn:E; [|by vm_compute in E].
  exists row'. split; [reflexivity|].
  destruct (presence_flags_of_migrated_frame sample_timestamp_text
              migration_sample 0 row' E) as (H1 & _ & H3 & _).
  split; [exact H1|exact H3].
Defined.

Example migration_sample_flags :
  (fun df => (column df "website", column df "has_website",
              column df "has_social_media", column df "has_maps"))
    (add_presence_flags sample_timestamp_text
       (migrate sample_timestamp_text migration_sample))
  = ([NaN; NaN], [Int 0; Int 0], [Int 1; Int 0], [Int 0; Int 1]).
Proof. vm_compute. reflexivity. Qed.

(** The filter, on [blacklist_sample]. *)
Lemma blacklist_filter_survivors_sample :
  ∃ df',
    apply_blacklist_logic sample_parse_datetime sample_tz_aware sample_timestamp_text
      blacklist_sample = Some df'
    ∧ rows (filter_blacklist df')
      = filter (fun r : Row => get r "blacklist_status" = Int 1) (rows df')
    ∧ ∀ r, r ∈ rows df' →
        (r ∈ rows (filter_blacklist df') ↔
         ∃ t, get r "created_date" = Timestamp t
              ∧ (t < BLACKLIST_START_DATE
                 ∨ code_passed sample_timestamp_text (get r "blacklist_raw")
                   = true)).
Proof.
  destruct (apply_blacklist_logic sample_parse_datetime sample_tz_aware sample_timestamp_text
              blacklist_sample) as [df'|] eqn:E; [|by vm_compute in E].
  exists df'. split; [reflexivity|].
  destruct (blacklist_filter_survivors sample_parse_datetime sample_tz_aware
              sample_timestamp_text blacklist_sample df' E) as (H1 & _ & H3).
  split; [exact H1|exact H3].
Defined.

Example blacklist_sample_survivors :
  (fun df => column (filter_blacklist df) "blacklist_raw")
    <$> apply_blacklist_logic sample_parse_datetime sample_tz_aware sample_timestamp_text
          blacklist_sample
  = Some [Str "0"; Str "1"; Int 1].
Proof. vm_compute. reflexivity. Qed.

(** The names, on [identity_sample]. *)
Lemma process_identity_names_sample :
  ∃ df',
    process_identity identity_sample = Some df'
    ∧ length (rows df') = length (rows identity_sample)
    ∧ column df' "company_name"
      = zip_with fillna (column identity_sample "company_name")
          (column identity_sample "company_account_fallback")
    ∧ Forall (fun v => ∃ s, v = Str s ∧ Py.strip s = s)
        (column df' "contact_name").
Proof.
  destruct (process_identity identity_sample) as [df'|] eqn:E;
    [|by vm_compute in E].
  exists df'. split; [reflexivity|].
  destruct (process_identity_names identity_sample df' E)
    as (H1 & H2 & _ & H4 & _).
  split; [exact H1|]. split; [exact H2|exact H4].
Defined.

Example identity_sample_names :
  (fun df => (column df "company_name", column df "contact_name"))
    <$> process_identity identity_sample
  = Some ([Str "Noor Trading"; Str "Jana Stores"], [Str "Noor"; Str "Jana Saleh"]).
Proof. vm_compute. reflexivity. Qed.

(** The whole of pipeline.py, on [pipeline_sample]. *)
Lemma pipeline_output_sample :
  ∃ out,
    pipeline sample_parse_datetime sample_tz_aware sample_timestamp_text pipeline_sample
    = Some out
    ∧ columns out = SELECTED_COLUMNS
    ∧ (length (rows out) ≤ length (rows pipeline_sample))%nat
    ∧ Forall (fun r : Row =>
        (∃ t, get r "created_date" = Timestamp t)
        ∧ (get r "email" = NaN
           ∨ ∃ e, get r "email" = Str e ∧ Py.lower e = e ∧ Py.strip e = e)
        ∧ (get r "mobile" = NaN
           ∨ ∃ s, get r "mobile" = Str s ∧ s ≠ ""
                  ∧ all_chars (fun c => negb (mobile_separator c)) s = true)
        ∧ (∃ n, get r "reported_annual_sales_tier" = Int n ∧ 0 ≤ n ≤ 5)
        ∧ r !! "contact_name" = None
        ∧ r !! "email_domain" = None
        ∧ r !! "blacklist_status" = None) (rows out).
Proof.
  destruct (pipeline sample_parse_datetime sample_tz_aware sample_timestamp_text pipeline_sample)
    as [out|] eqn:E; [|by vm_compute in E].
  exists out. split; [reflexivity|].
  destruct (pipeline_output sample_parse_datetime sample_tz_aware sample_timestamp_text
              pipeline_sample out E) as (_ & H2 & H3 & H4).
  split; [exact H2|]. split; [exact H3|exact H4].
Defined.

Example pipeline_sample_output :
  (fun df => (column df "company_name", column df "email", column df "mobile",
              column df "reported_annual_sales_tier", column df "lead_id"))
    <$> pipeline sample_parse_datetime sample_tz_aware sample_timestamp_text pipeline_sample
  = Some ([Str "Noor Trading"; Str "Reem Cafe"],
          [Str "noor@shop.sa"; NaN],
          [Str "966500000000"; NaN],
          [Int 5; Int 0],
          [NaN; NaN]).
Proof. vm_compute. reflexivity. Qed.

(** The stage and the flag of a conversion, on [enrich_sample]. *)
Lemma converted_stage_has_flag_sample :
  ∃ out,
    enrich sample_parse_datetime sample_timestamp_text enrich_sample = Some out
    ∧ Forall (fun r : Row =>
                (has_column enrich_sample "converted_date" = true →
                 get r "journey_stage" = Str "Converted" →
                 get r "is_converted" = Int 1)
                ∧ (has_column enrich_sample "converted_date" = false →
                   get r "is_converted" = Int 0)) (rows out).
Proof.
  destruct (enrich sample_parse_datetime sample_timestamp_text enrich_sample)
    as [out|] eqn:E; [|by vm_compute in E].
  exists out. split; [reflexivity|].
  exact (converted_stage_has_flag sample_parse_datetime sample_timestamp_text
           enrich_sample out E).
Defined.

(** The second lead of [enrich_sample] has a conversion date that is not a
    date and a step code in upper case: its flag [is_converted] is 1 while
    its stage is not "Converted", and its readable step is "Kyc" while its
    flag [kyc_step] is 0.  The third shares the mobile of the first and is
    removed. *)
Example enrich_sample_output :
  (fun df => (column df "is_converted", column df "journey_stage",
              column df "readable_onboarding_step", column df "kyc_step",
              column df "mobile"))
    <$> enrich sample_parse_datetime sample_timestamp_text enrich_sample
  = Some ([Int 1; Int 1], [Str "Converted"; Str "Onboarding: Kyc"],
          [Str "Final"; Str "Kyc"], [Int 0; Int 0],
          [Str "966500000000"; Str "966511111111"]).
Proof. vm_compute. reflexivity. Qed.
